(** * Standup bot: the trigger clock, the interview state machine and the
      late-reminder debouncer

    A shallow embedding of [src/database.js] (the persistence layer) and of
    the bot proper (handlers, [scheduleStandups], [scheduleLateReminders]).

    Conventions of the embedding.
    - A JavaScript [Date] is its number of milliseconds since the epoch, in [Z].
    - The host zone is a number of minutes east of UTC ([off]), constant over
      the interval a statement speaks about.
    - SQLite's text datetimes ['YYYY-MM-DD HH:MM:SS'] are the count of civil
      seconds they denote and its text dates ['YYYY-MM-DD'] the count of civil
      days; both encodings preserve the order SQLite compares the texts in.
    - The in-memory [Map]s keyed by the participant id are [gmap Z _].
    - A call of the persistence layer takes effect when it is made, and a
      handler is taken from the moment its channel check has come back. The
      handler of a command or of a message, and the callback of the
      recurring job, are one step each, up to the work they start and do
      not await ([scheduleStandups], [startUserStandup], [sendReminder]).
      That work, and the callback of the late-reminder job, which waits for
      Telegram between its test and its record, go on in steps of their
      own, one per [await], which other events may come between
      ([Bot.task], [Bot.runTask]). *)

From Stdlib Require Import ZArith Lia Ascii String.
From stdpp Require Import gmap strings list fin_maps.

Local Open Scope Z_scope.

(** ** Clock: JavaScript dates and SQLite date functions *)

Module Clock.

Definition ms_per_second : Z := 1000.
Definition ms_per_minute : Z := 60 * 1000.
Definition ms_per_hour : Z := 60 * 60 * 1000.
Definition ms_per_day : Z := 24 * 60 * 60 * 1000.
Definition s_per_day : Z := 24 * 60 * 60.

Section Host.
(** Minutes east of UTC of the zone the process runs in. *)
Variable off : Z.

(** The civil (wall-clock) reading of an instant, in milliseconds. *)
Definition localMs (now : Z) : Z := now + off * ms_per_minute.
Definition ofLocalMs (civil : Z) : Z := civil - off * ms_per_minute.

(** [Date.prototype.getDay]: 0 is Sunday; the epoch was a Thursday. *)
Definition getDay (now : Z) : Z := (localMs now / ms_per_day + 4) mod 7.
Definition getHours (now : Z) : Z := (localMs now mod ms_per_day) / ms_per_hour.
Definition getMinutes (now : Z) : Z := (localMs now mod ms_per_hour) / ms_per_minute.

(** The setters keep the smaller fields and replace one field of the civil
    reading; out-of-range arguments roll over, as in JavaScript. *)
Definition setHours (h : Z) (now : Z) : Z :=
  let c := localMs now in
  ofLocalMs (c / ms_per_day * ms_per_day + h * ms_per_hour + c mod ms_per_hour).
Definition setMinutes (m : Z) (now : Z) : Z :=
  let c := localMs now in
  ofLocalMs (c / ms_per_hour * ms_per_hour + m * ms_per_minute + c mod ms_per_minute).
Definition setSeconds (s : Z) (now : Z) : Z :=
  let c := localMs now in
  ofLocalMs (c / ms_per_minute * ms_per_minute + s * ms_per_second + c mod ms_per_second).
Definition setMilliseconds (ms : Z) (now : Z) : Z :=
  let c := localMs now in
  ofLocalMs (c / ms_per_second * ms_per_second + ms).

(** [d.setHours(h, m, s, ms)] *)
Definition setHours4 (h m s ms : Z) (now : Z) : Z :=
  ofLocalMs (localMs now / ms_per_day * ms_per_day
             + h * ms_per_hour + m * ms_per_minute + s * ms_per_second + ms).

(** SQLite: [datetime(?)] of an ISO string with the [Z] suffix (what
    [toISOString] produces): the UTC second, fraction dropped. *)
Definition datetime_of_iso (instant : Z) : Z := instant / ms_per_second.
(** SQLite: [datetime('now', 'localtime')]. *)
Definition datetime_now_localtime (now : Z) : Z := localMs now / ms_per_second.
(** SQLite: [CURRENT_TIMESTAMP], a UTC second. *)
Definition current_timestamp (now : Z) : Z := now / ms_per_second.
(** SQLite: [date('now', 'localtime')]. *)
Definition date_now_localtime (now : Z) : Z := localMs now / ms_per_day.
(** SQLite: [date(x, 'localtime')] of a stored second count: the stored value
    is read as UTC and shifted to the host zone, whatever it was meant as. *)
Definition date_localtime (x : Z) : Z := (x + off * 60) / s_per_day.
End Host.

(** The zone database behind [Intl]: the offset (minutes east of UTC) of a
    named zone at an instant, or nothing for an unknown name, for which
    [toLocaleString] throws a [RangeError]. *)
Definition tzdb : Type := string → Z → option Z.

(** [new Date().toLocaleString('en-US', {timeZone, hour, minute, hour12: false})]
    split at the colon and mapped through [Number]; the hour is read on the
    0 to 23 clock. *)
Definition toLocaleHM (zones : tzdb) (zone : string) (now : Z) : option (Z * Z) :=
  match zones zone now with
  | Some o => Some (getHours o now, getMinutes o now)
  | None => None
  end.

End Clock.

(** ** JavaScript values *)

(** [x || d] on a value that is a string, [null] or [undefined]: the empty
    string is falsy too. *)
Definition js_or (x : option string) (d : string) : string :=
  match x with
  | Some s => if decide (s = "") then d else s
  | None => d
  end.

(** [a[i] = v] on an array: writing past the end pads with holes. *)
Definition js_array_set {A} (a : list (option A)) (i : nat) (v : option A)
  : list (option A) :=
  if decide (i < length a)%nat then <[i := v]> a
  else a ++ replicate (i - length a) None ++ [v].

(** [a[i]]: a hole and an index past the end both read [undefined]. *)
Definition js_array_get {A} (a : list (option A)) (i : nat) : option A :=
  match a !! i with
  | Some v => v
  | None => None
  end.

(** *** Numbers as text

    The settings are stored with [n.toString()] and read with
    [parseInt(text, 10)]. Numbers are integers here; the texts are exact for
    the safe integers (below [2 ^ 53] in absolute value). *)

Definition digit_char (d : Z) : ascii := ascii_of_nat (Z.to_nat (48 + d)).

Definition digit_value (c : ascii) : option Z :=
  let n := Z.of_nat (nat_of_ascii c) in
  if (48 <=? n) && (n <=? 57) then Some (n - 48) else None.

(** The decimal numeral of a natural number put before [rest]; [fuel]
    bounds the number of digits. *)
Fixpoint numeral_fuel (fuel : nat) (n : Z) (rest : string) : string :=
  match fuel with
  | O => rest
  | S fuel' =>
      let rest' := String (digit_char (n mod 10)) rest in
      if n <? 10 then rest' else numeral_fuel fuel' (n / 10) rest'
  end.
Definition numeral (n : Z) : string :=
  numeral_fuel (S (Z.to_nat (Z.log2 n))) n "".

Fixpoint strip_zeros (s : string) : string :=
  match s with
  | EmptyString => EmptyString
  | String c s' =>
      let r := strip_zeros s' in
      if decide (c = "0"%char ∧ r = EmptyString) then EmptyString
      else String c r
  end.

(** [n.toString()]: the decimal numeral below [10 ^ 21], the exponent
    notation from there on (['1e+21']). *)
Definition toString (n : Z) : string :=
  let sign := if n <? 0 then "-" else "" in
  let digits := numeral (Z.abs n) in
  if Z.abs n <? 10 ^ 21 then sign +:+ digits
  else
    match digits with
    | String c rest =>
        let fraction := strip_zeros rest in
        sign
        +:+ String c (if decide (fraction = "") then "" else "." +:+ fraction)
        +:+ "e+" +:+ numeral (Z.of_nat (String.length rest))
    | EmptyString => sign
    end.

(** The ASCII white space [parseInt] skips. *)
Definition is_space (c : ascii) : bool :=
  let n := nat_of_ascii c in
  ((9 <=? n) && (n <=? 13))%nat || (n =? 32)%nat.

Fixpoint skip_space (s : string) : string :=
  match s with
  | String c s' => if is_space c then skip_space s' else s
  | EmptyString => s
  end.

(** The digits at the head of [s] read onto [acc], which is [None] while no
    digit has been read. *)
Fixpoint leading_digits (s : string) (acc : option Z) : option Z :=
  match s with
  | String c s' =>
      match digit_value c with
      | Some d => leading_digits s' (Some (10 * default 0 acc + d))
      | None => acc
      end
  | EmptyString => acc
  end.

(** [parseInt(s, 10)]: white space, a sign, then the longest run of digits;
    [None] is [NaN]. *)
Definition parseInt (s : string) : option Z :=
  match skip_space s with
  | String c s' =>
      if decide (c = "-"%char) then Z.opp <$> leading_digits s' None
      else if decide (c = "+"%char) then leading_digits s' None
      else leading_digits (String c s') None
  | EmptyString => None
  end.

(** ** The persistence layer ([database.js]) *)

Module Db.
Import Clock.

(** A row of [subscriptions]. [is_on_vacation] is the SQLite integer (the
    code writes 0 and 1), [vacation_until] a date or NULL. *)
Record subscription := {
  user_id : Z;
  username : string;
  timezone : option string;
  is_on_vacation : Z;
  vacation_until : option Z
}.

(** A row of [standups]; an answer that was [undefined] in the bot is [None]. *)
Record standup := {
  s_user_id : Z;
  s_username : string;
  yesterday : option string;
  today : option string;
  blockers : option string;
  submitted_at : Z
}.

(** A row of [late_reminders]. *)
Record late_reminder := {
  lr_user_id : Z;
  sent_at : Z
}.

(** The [settings] table, one field per key: the stored text, or [None]
    for a missing row. *)
Record settings := {
  standup_hour : option string;
  standup_minute : option string;
  late_reminder_enabled : option string;
  late_reminder_hours : option string
}.

Record database := {
  subscriptions : list subscription;
  standups : list standup;
  late_reminders : list late_reminder;
  settings_tbl : settings
}.

Definition with_subscriptions (d : database) l :=
  {| subscriptions := l; standups := standups d;
     late_reminders := late_reminders d; settings_tbl := settings_tbl d |}.
Definition with_standups (d : database) l :=
  {| subscriptions := subscriptions d; standups := l;
     late_reminders := late_reminders d; settings_tbl := settings_tbl d |}.
Definition with_late_reminders (d : database) l :=
  {| subscriptions := subscriptions d; standups := standups d;
     late_reminders := l; settings_tbl := settings_tbl d |}.
Definition with_settings (d : database) s :=
  {| subscriptions := subscriptions d; standups := standups d;
     late_reminders := late_reminders d; settings_tbl := s |}.

(** [ORDER BY username], as an insertion sort on the byte order of the text. *)
Fixpoint insert_by_username (x : subscription) (l : list subscription) :=
  match l with
  | [] => [x]
  | y :: l' =>
      if String.leb (username x) (username y) then x :: l
      else y :: insert_by_username x l'
  end.
Definition order_by_username (l : list subscription) : list subscription :=
  foldr insert_by_username [] l.

Definition getSubscriberByUsername (d : database) (name : string)
  : option subscription :=
  head (filter (λ r, username r = name) (subscriptions d)).

Definition isSubscribed (d : database) (userId : Z) : bool :=
  bool_decide (0 < length (filter (λ r, user_id r = userId) (subscriptions d)))%nat.

Definition getAllSubscribers (d : database) : list subscription :=
  order_by_username (subscriptions d).

(** [ORDER BY submitted_at DESC], as an insertion sort. *)
Fixpoint insert_by_submitted_at (x : standup) (l : list standup) :=
  match l with
  | [] => [x]
  | y :: l' =>
      if submitted_at y <=? submitted_at x then x :: l
      else y :: insert_by_submitted_at x l'
  end.
Definition order_by_submitted_at_desc (l : list standup) : list standup :=
  foldr insert_by_submitted_at [] l.

(** Which of the two statements of [addStandup] the database rejects for a
    reason of its own (a locked or full file), if any. *)
Inductive fault :=
| NoFault
| DeleteFails
| InsertFails.

Section Host.
Variable off : Z.

(** The [DELETE] of [addStandup]: the rows of the user whose [submitted_at]
    lies between [datetime(today_start.toISOString())] and
    [datetime(today_end.toISOString())] go. *)
Definition deleteTodayStandups (now : Z) (userId : Z) (d : database)
  : database :=
  let today_start := setHours4 off 0 0 0 0 now in
  let today_end := setHours4 off 23 59 59 999 now in
  let lo := datetime_of_iso today_start in
  let hi := datetime_of_iso today_end in
  with_standups d
    (filter (λ r, ¬ (s_user_id r = userId
                     ∧ lo ≤ submitted_at r ∧ submitted_at r ≤ hi))
            (standups d)).

(** [addStandup]: the [DELETE], awaited, then the [INSERT] of the new row
    stamped [datetime('now', 'localtime')]. The two statements are not in a
    transaction: when the [INSERT] is rejected the [DELETE] stays done. The
    columns [yesterday] and [today] are [NOT NULL], and an answer that is
    [undefined] is bound as NULL. The result says whether the promise
    resolved. *)
Definition addStandup (now : Z) (userId : Z) (name : string)
    (y t b : option string) (f : fault) (d : database) : database * bool :=
  match f with
  | DeleteFails => (d, false)
  | _ =>
      let d1 := deleteTodayStandups now userId d in
      match f, y, t with
      | NoFault, Some _, Some _ =>
          (with_standups d1
             (standups d1
              ++ [ {| s_user_id := userId; s_username := name;
                      yesterday := y; today := t; blockers := b;
                      submitted_at := datetime_now_localtime off now |} ]),
           true)
      | _, _, _ => (d1, false)
      end
  end.

(** The rows with [date(submitted_at, 'localtime') = date('now', 'localtime')],
    latest first. *)
Definition getTodayStandups (now : Z) (d : database) : list standup :=
  order_by_submitted_at_desc
    (filter (λ r, date_localtime off (submitted_at r)
                  = date_now_localtime off now)
            (standups d)).

(** The [WHERE] clause of [getActiveSubscribers]; a comparison with NULL is
    not true. *)
Definition active_row (now : Z) (r : subscription) : bool :=
  (is_on_vacation r =? 0)
  || ((is_on_vacation r =? 1)
      && match vacation_until r with
         | Some u => u <? date_now_localtime off now
         | None => false
         end).

Definition getActiveSubscribers (now : Z) (d : database) : list subscription :=
  order_by_username (filter (λ r, active_row now r) (subscriptions d)).

(** An entry of the list [getStandupStatus] returns. *)
Record status := {
  st_username : string;
  hasSubmitted : bool;
  isOnVacation : Z;
  vacationUntil : option Z;
  submittedAt : option Z
}.

(** [getStandupStatus]: its second query is the one of [getTodayStandups];
    [new Map(...)] keeps, for a user with several rows, the last of the
    list. *)
Definition getStandupStatus (now : Z) (d : database) : list status :=
  let todayStandups := getTodayStandups now d in
  (λ sub, {| st_username := username sub;
             hasSubmitted :=
               bool_decide (user_id sub ∈ s_user_id <$> todayStandups);
             isOnVacation := is_on_vacation sub;
             vacationUntil := vacation_until sub;
             submittedAt :=
               submitted_at
                 <$> last (filter (λ r, s_user_id r = user_id sub)
                                  todayStandups) |})
    <$> order_by_username (subscriptions d).

Definition hasReceivedLateReminderToday (now : Z) (d : database) (userId : Z)
  : bool :=
  bool_decide
    (0 < length (filter (λ r, lr_user_id r = userId
                              ∧ date_localtime off (sent_at r)
                                = date_now_localtime off now)
                        (late_reminders d)))%nat.

Definition recordLateReminder (now : Z) (userId : Z) (d : database) : database :=
  with_late_reminders d
    (late_reminders d
     ++ [ {| lr_user_id := userId; sent_at := current_timestamp now |} ]).

Definition cleanupOldLateReminders (now : Z) (d : database) : database :=
  with_late_reminders d
    (filter (λ r, ¬ (date_localtime off (sent_at r) < date_now_localtime off now))
            (late_reminders d)).
End Host.

Definition getUserTimezone (d : database) (userId : Z) : string :=
  let result := head (filter (λ r, user_id r = userId) (subscriptions d)) in
  js_or (result ≫= timezone) "Europe/Lisbon".

(** [getStandupTime]: [parseInt(row?.value || '9', 10)] and the same with
    ['0']; [None] is [NaN]. *)
Definition getStandupTime (d : database) : option Z * option Z :=
  (parseInt (js_or (standup_hour (settings_tbl d)) "9"),
   parseInt (js_or (standup_minute (settings_tbl d)) "0")).

(** [UPDATE settings SET value = ? WHERE key = ?] changes an existing row only. *)
Definition setStandupTime (hour minute : Z) (d : database) : database :=
  let s := settings_tbl d in
  with_settings d
    {| standup_hour := (λ _, toString hour) <$> standup_hour s;
       standup_minute := (λ _, toString minute) <$> standup_minute s;
       late_reminder_enabled := late_reminder_enabled s;
       late_reminder_hours := late_reminder_hours s |}.

(** [getLateReminderSettings]: [enabled] is [value === '1'], [hours] is
    [parseInt(row?.value || '4', 10)]. *)
Definition getLateReminderSettings (d : database) : bool * option Z :=
  (bool_decide (late_reminder_enabled (settings_tbl d) = Some "1"),
   parseInt (js_or (late_reminder_hours (settings_tbl d)) "4")).

Definition setLateReminderEnabled (enabled : bool) (d : database) : database :=
  let s := settings_tbl d in
  with_settings d
    {| standup_hour := standup_hour s;
       standup_minute := standup_minute s;
       late_reminder_enabled :=
         (λ _, if enabled then "1" else "0") <$> late_reminder_enabled s;
       late_reminder_hours := late_reminder_hours s |}.

Definition setLateReminderHours (hours : Z) (d : database) : database :=
  let s := settings_tbl d in
  with_settings d
    {| standup_hour := standup_hour s;
       standup_minute := standup_minute s;
       late_reminder_enabled := late_reminder_enabled s;
       late_reminder_hours := (λ _, toString hours) <$> late_reminder_hours s |}.

(** [isAdmin]: the user's row exists and its username is in [ADMIN_USERNAMES]. *)
Definition isAdmin (admins : list string) (d : database) (userId : Z) : bool :=
  match head (filter (λ r, user_id r = userId) (subscriptions d)) with
  | Some r => bool_decide (username r ∈ admins)
  | None => false
  end.

(** *** Subscriptions, vacations, zones and maintenance *)

(** The table is scanned in the order of its integer primary key; a new row
    takes its place in that order. *)
Fixpoint insert_row (x : subscription) (l : list subscription)
  : list subscription :=
  match l with
  | [] => [x]
  | y :: l' =>
      if user_id x <? user_id y then x :: l else y :: insert_row x l'
  end.

(** [addSubscriber]: [INSERT OR REPLACE] drops the row that has the key, and
    the new row takes the defaults of the columns it does not name. *)
Definition addSubscriber (userId : Z) (name : string) (d : database)
  : database :=
  with_subscriptions d
    (insert_row {| user_id := userId; username := name;
                   timezone := Some "Europe/Lisbon";
                   is_on_vacation := 0; vacation_until := None |}
       (filter (λ r, user_id r ≠ userId) (subscriptions d))).

Definition removeSubscriber (userId : Z) (d : database) : database :=
  with_subscriptions d (filter (λ r, user_id r ≠ userId) (subscriptions d)).

(** [UPDATE subscriptions SET ... WHERE user_id = ?] *)
Definition update_subscription (userId : Z) (f : subscription → subscription)
    (d : database) : database :=
  with_subscriptions d
    ((λ r, if decide (user_id r = userId) then f r else r)
       <$> subscriptions d).

Definition setVacationMode (userId endDate : Z) : database → database :=
  update_subscription userId
    (λ r, {| user_id := user_id r; username := username r;
             timezone := timezone r;
             is_on_vacation := 1; vacation_until := Some endDate |}).

Definition disableVacationMode (userId : Z) : database → database :=
  update_subscription userId
    (λ r, {| user_id := user_id r; username := username r;
             timezone := timezone r;
             is_on_vacation := 0; vacation_until := None |}).

(** [getVacationStatus]: the two columns of the user's row, if there is one. *)
Definition getVacationStatus (d : database) (userId : Z)
  : option (Z * option Z) :=
  (λ r, (is_on_vacation r, vacation_until r))
    <$> head (filter (λ r, user_id r = userId) (subscriptions d)).

Definition setUserTimezone (userId : Z) (zone : string) : database → database :=
  update_subscription userId
    (λ r, {| user_id := user_id r; username := username r;
             timezone := Some zone;
             is_on_vacation := is_on_vacation r;
             vacation_until := vacation_until r |}).

(** [cleanupOldStandups]: [cutoff.setDate(cutoff.getDate() - 7)] moves the
    civil day back by seven and keeps the time of day. The [DELETE] compares
    the stored text ['YYYY-MM-DD HH:MM:SS'] with [cutoff.toISOString()],
    ['YYYY-MM-DDTHH:MM:SS.sssZ'], as texts: they differ within the date, or
    else at the eleventh character, where the space sorts before the [T]. So
    a row goes exactly when its date is not after the UTC date of the cutoff. *)
Definition cleanupOldStandups (now : Z) (d : database) : database :=
  let cutoff := now - 7 * ms_per_day in
  with_standups d
    (filter (λ r, ¬ (submitted_at r / s_per_day ≤ cutoff / ms_per_day))
            (standups d)).

(** [initializeDatabase]: the tables exist already; [INSERT OR IGNORE] adds
    the settings that are missing and leaves the others. *)
Definition initializeDatabase (d : database) : database :=
  let s := settings_tbl d in
  with_settings d
    {| standup_hour := Some (default "9" (standup_hour s));
       standup_minute := Some (default "0" (standup_minute s));
       late_reminder_enabled := Some (default "1" (late_reminder_enabled s));
       late_reminder_hours := Some (default "4" (late_reminder_hours s)) |}.

End Db.

(** ** The bot: sessions, handlers and scheduled jobs *)

Module Bot.
Import Clock Db.

(** The temporary response kept during the questions. *)
Record response := {
  r_username : string;
  answers : list (option string)
}.

(** Where a message goes: a chat, or [TELEGRAM_CHANNEL_ID]. *)
Inductive dest :=
| Chat (id : Z)
| Channel.

(** What the bot says; [Question i] is [QUESTIONS[i]] and [Summary r] the
    text [formatStandupResponse] builds from [r]. *)
Inductive text :=
| WrongChannel
| AlreadyOngoing
| NeedSubscribe
| Starting
| Question (i : nat)
| Thanks
| Summary (r : response)
| ErrorProcessing
| CannotSkip
| Reminder (isLateReminder : bool)
| AdminOnly
| InvalidTime
| TimeSet (hour minute : Z)
| LateReminderSet (enabled : bool) (hours : option Z)
| InvalidHours
| LateHoursSet (hours : Z) (enabled : bool).

Definition QUESTIONS_length : nat := 3.

(** What [node-schedule] was asked to run: the recurring rule
    [`${minute} ${hour} * * 1-5`], whose callback closes over [hour] and
    [minute], or the one-off check at a date. *)
Inductive job :=
| CronJob (minute hour : Z)
| DateJob (fireAt : Z).

Record scheduler := {
  live : list (nat * job);
  next_handle : nat
}.

(** A rule [node-schedule] can parse: the minute and the hour of a cron
    rule are in range. *)
Definition valid_rule (j : job) : bool :=
  match j with
  | CronJob minute hour =>
      (0 <=? minute) && (minute <=? 59) && (0 <=? hour) && (hour <=? 23)
  | DateJob _ => true
  end.

(** [schedule.scheduleJob]: the new job, or [null] for a rule it cannot
    parse. (It also returns [null] for a date that has passed; the one call
    with a date tests that the date is ahead.) *)
Definition scheduleJob (j : job) (s : scheduler) : scheduler * option nat :=
  if valid_rule j then
    ({| live := live s ++ [(next_handle s, j)];
        next_handle := S (next_handle s) |},
     Some (next_handle s))
  else (s, None).

Definition cancelJob (h : nat) (s : scheduler) : scheduler :=
  {| live := filter (λ e, e.1 ≠ h) (live s);
     next_handle := next_handle s |}.

(** Where the callback of the late-reminder job is parked: the [await] it
    waits at, with the result that will come back and the users of
    [missing] the loop has still to visit. *)
Inductive late_pc :=
| LateCleaned
| LateListed (status : list status)
| LateFound (subscriber : option subscription) (rest : list status)
| LateAsked (subscriber : subscription) (hasReceivedReminder : bool)
    (rest : list status)
| LateChat (subscriber : subscription) (rest : list status)
| LateRecorded (rest : list status).

(** Work in flight: the rest of an asynchronous call after the [await] (or
    the [.then]) it is parked at.
    - [InstallStandupJob time]: [scheduleStandups] after
      [await db.getStandupTime()], which read [time];
    - [StartChat userId]: [startUserStandup] after [bot.getChat(userId)];
    - [AskFirst chatId]: the [.then] of the message that opens an interview;
    - [Remind userId late]: a [sendReminder] nobody awaits, after its
      [await bot.getChat(userId)];
    - [LateCheck pc]: the callback of a late-reminder job. *)
Inductive task :=
| InstallStandupJob (time : option Z * option Z)
| StartChat (userId : Z)
| AskFirst (chatId : Z)
| Remind (userId : Z) (isLateReminder : bool)
| LateCheck (pc : late_pc).

Record state := {
  userStates : gmap Z nat;
  standupResponses : gmap Z response;
  db : database;
  outbox : list (dest * text);
  sched : scheduler;
  standupJob : option nat;
  tasks : list task
}.

Definition set_userStates (f : gmap Z nat → gmap Z nat) (st : state) : state :=
  {| userStates := f (userStates st); standupResponses := standupResponses st;
     db := db st; outbox := outbox st; sched := sched st;
     standupJob := standupJob st; tasks := tasks st |}.
Definition set_standupResponses (f : gmap Z response → gmap Z response)
    (st : state) : state :=
  {| userStates := userStates st; standupResponses := f (standupResponses st);
     db := db st; outbox := outbox st; sched := sched st;
     standupJob := standupJob st; tasks := tasks st |}.
Definition set_db (f : database → database) (st : state) : state :=
  {| userStates := userStates st; standupResponses := standupResponses st;
     db := f (db st); outbox := outbox st; sched := sched st;
     standupJob := standupJob st; tasks := tasks st |}.
Definition set_sched (s : scheduler) (st : state) : state :=
  {| userStates := userStates st; standupResponses := standupResponses st;
     db := db st; outbox := outbox st; sched := s;
     standupJob := standupJob st; tasks := tasks st |}.
Definition set_standupJob (h : option nat) (st : state) : state :=
  {| userStates := userStates st; standupResponses := standupResponses st;
     db := db st; outbox := outbox st; sched := sched st;
     standupJob := h; tasks := tasks st |}.
Definition set_tasks (l : list task) (st : state) : state :=
  {| userStates := userStates st; standupResponses := standupResponses st;
     db := db st; outbox := outbox st; sched := sched st;
     standupJob := standupJob st; tasks := l |}.

(** A call that is parked at its first [await] and left to itself. *)
Definition spawn (t : task) (st : state) : state :=
  set_tasks (tasks st ++ [t]) st.

(** [bot.sendMessage]: the handlers never await it, so a delivery that fails
    changes nothing they do; the outbox lists the sends in order. *)
Definition sendMessage (to : dest) (t : text) (st : state) : state :=
  {| userStates := userStates st; standupResponses := standupResponses st;
     db := db st; outbox := outbox st ++ [(to, t)]; sched := sched st;
     standupJob := standupJob st; tasks := tasks st |}.

(** What the handlers ask of the outside: channel membership, whether
    [bot.getChat] resolves (the chat of a user has the user's id), the zone
    database, and [ADMIN_USERNAMES]. *)
Record world := {
  isChannelMember : Z → bool;
  getChat : Z → bool;
  zones : tzdb;
  admins : list string
}.

Section Handlers.
Variable w : world.
Variable off : Z.

(** [startUserStandup] asks for the chat and returns; the rest is in the
    [.then] of [bot.getChat]. *)
Definition startUserStandup (userId : Z) : state → state :=
  spawn (StartChat userId).

(** The [.then] of [bot.getChat] in [startUserStandup]: the session is set
    and the opening message sent, whose own [.then] asks the first
    question. When the chat cannot be found the [.catch] only logs. *)
Definition chatFound (userId : Z) (st : state) : state :=
  if getChat w userId then
    spawn (AskFirst userId)
      (sendMessage (Chat userId) Starting
         (set_userStates (insert userId 0%nat) st))
  else st.

(** [sendReminder] from the moment [bot.getChat] has answered. *)
Definition sendReminder (userId : Z) (isLateReminder : bool) (st : state)
  : state :=
  if getChat w userId then
    sendMessage (Chat userId) (Reminder isLateReminder) st
  else st.

(** [commandGuard] *)
Definition commandGuard (userId chatId : Z) (handler : state → state)
    (st : state) : state :=
  if isChannelMember w userId then handler st
  else sendMessage (Chat chatId) WrongChannel st.

(** The [/standup] handler. *)
Definition onStandup (userId chatId : Z) : state → state :=
  commandGuard userId chatId (λ st,
    if decide (is_Some (userStates st !! userId)) then
      sendMessage (Chat chatId) AlreadyOngoing st
    else if negb (isSubscribed (db st) userId) then
      sendMessage (Chat chatId) NeedSubscribe st
    else startUserStandup userId st).

(** The completion steps both handlers share after [userStates.delete]:
    [await db.addStandup(...)], then the summary to the channel, the
    confirmation, and [standupResponses.delete]. When the promise rejects
    the store is as the failed call left it and [onError] runs in place of
    the rest. *)
Definition submit (now userId chatId : Z) (r : response) (f : fault)
    (onError : state → state) (st : state) : state :=
  let result :=
    addStandup off now userId (r_username r)
      (js_array_get (answers r) 0)
      (js_array_get (answers r) 1)
      (js_array_get (answers r) 2) f (db st) in
  let st1 := set_db (λ _, result.1) st in
  if result.2 then
    set_standupResponses (delete userId)
      (sendMessage (Chat chatId) Thanks
         (sendMessage Channel (Summary r) st1))
  else onError st1.

Definition startsWithSlash (t : option string) : bool :=
  match t with
  | Some s => String.prefix "/" s
  | None => false
  end.

(** The [bot.on('message')] handler; [name] is
    [msg.from.username || msg.from.first_name], and [msgText] is missing
    for a message that is not a text. *)
Definition onMessage (now userId chatId : Z) (name : string)
    (msgText : option string) (f : fault) (st : state) : state :=
  if startsWithSlash msgText then st
  else if negb (isChannelMember w userId) then st
  else
    match userStates st !! userId with
    | None => st
    | Some currentQuestion =>
        let r0 := default {| r_username := name; answers := [] |}
                          (standupResponses st !! userId) in
        let r := {| r_username := r_username r0;
                    answers := js_array_set (answers r0) currentQuestion msgText |} in
        let st1 := set_standupResponses (insert userId r) st in
        if decide (currentQuestion < QUESTIONS_length - 1)%nat then
          sendMessage (Chat chatId) (Question (S currentQuestion))
            (set_userStates (insert userId (S currentQuestion)) st1)
        else
          let st2 := set_userStates (delete userId) st1 in
          submit now userId chatId r f
            (λ st3,
               set_standupResponses (delete userId)
                 (set_userStates (delete userId)
                    (sendMessage (Chat chatId) ErrorProcessing st3)))
            st2
    end.

(** The [/skip] handler; it has no [try]: when [db.addStandup] fails the
    rest of the handler does not run. *)
Definition onSkip (now userId chatId : Z) (name : string) (f : fault)
  : state → state :=
  commandGuard userId chatId (λ st,
    match userStates st !! userId with
    | None => st
    | Some currentQuestion =>
        if decide (currentQuestion = 0%nat ∨ currentQuestion = 2%nat) then
          let r0 := default {| r_username := name;
                               answers := [Some ""; Some ""; Some ""] |}
                            (standupResponses st !! userId) in
          let r := {| r_username := r_username r0;
                      answers := js_array_set (answers r0) currentQuestion
                                   (Some "") |} in
          let st1 := set_standupResponses (insert userId r) st in
          if decide (currentQuestion < QUESTIONS_length - 1)%nat then
            sendMessage (Chat chatId) (Question (S currentQuestion))
              (set_userStates (insert userId (S currentQuestion)) st1)
          else
            let st2 := set_userStates (delete userId) st1 in
            submit now userId chatId r f (λ st3, st3) st2
        else sendMessage (Chat chatId) CannotSkip st
    end).

(** *** Scheduled jobs *)

(** The callback of the one-off job [scheduleLateReminders] installs, when
    nothing else happens between its steps; one turn of its [for] loop
    first. *)
Definition lateReminderStep (now : Z) (st : state) (user : status) : state :=
  match getSubscriberByUsername (db st) (st_username user) with
  | Some subscriber =>
      if hasReceivedLateReminderToday off now (db st) (user_id subscriber)
      then st
      else
        set_db (recordLateReminder now (user_id subscriber))
          (sendReminder (user_id subscriber) true st)
  | None => st
  end.

Definition missing_standup (s : status) : bool :=
  negb (hasSubmitted s) && (isOnVacation s =? 0).

Definition lateReminderJob (now : Z) (st : state) : state :=
  let st1 := set_db (cleanupOldLateReminders off now) st in
  let status := getStandupStatus off now (db st1) in
  let missing := filter (λ s, missing_standup s) status in
  foldl (lateReminderStep now) st1 missing.

(** The same callback step by step: what it does from the [await] it is
    parked at to the next one. [lateNext] is the head of the [for] loop. *)
Definition lateNext (rest : list status) (st : state) : state :=
  match rest with
  | [] => st
  | user :: rest' =>
      spawn (LateCheck
               (LateFound (getSubscriberByUsername (db st) (st_username user))
                  rest')) st
  end.

Definition lateCheckRun (now : Z) (pc : late_pc) (st : state) : state :=
  match pc with
  | LateCleaned =>
      spawn (LateCheck (LateListed (getStandupStatus off now (db st)))) st
  | LateListed status => lateNext (filter (λ s, missing_standup s) status) st
  | LateFound None rest => lateNext rest st
  | LateFound (Some subscriber) rest =>
      spawn (LateCheck
               (LateAsked subscriber
                  (hasReceivedLateReminderToday off now (db st)
                     (user_id subscriber))
                  rest)) st
  | LateAsked subscriber true rest => lateNext rest st
  | LateAsked subscriber false rest =>
      spawn (LateCheck (LateChat subscriber rest)) st
  | LateChat subscriber rest =>
      spawn (LateCheck (LateRecorded rest))
        (set_db (recordLateReminder now (user_id subscriber))
           (sendReminder (user_id subscriber) true st))
  | LateRecorded rest => lateNext rest st
  end.

(** The start of the callback, up to [await db.cleanupOldLateReminders()]. *)
Definition lateReminderFire (now : Z) (st : state) : state :=
  spawn (LateCheck LateCleaned)
    (set_db (cleanupOldLateReminders off now) st).

(** [scheduleLateReminders], called in the callback of the recurring job.
    A delay that reads as [NaN] makes an invalid date, which is not after
    any date. *)
Definition scheduleLateReminders (now hour minute : Z) (st : state) : state :=
  let settings := getLateReminderSettings (db st) in
  if negb settings.1 then st
  else
    match settings.2 with
    | None => st
    | Some hours =>
        let reminderTime :=
          setMilliseconds off 0
            (setSeconds off 0 (setMinutes off minute (setHours off hour now))) in
        let lateReminderTime := reminderTime + hours * 60 * 60 * 1000 in
        if decide (now < lateReminderTime) then
          set_sched (scheduleJob (DateJob lateReminderTime) (sched st)).1 st
        else st
    end.

(** The [for] loop of the recurring job; it awaits neither
    [startUserStandup] nor [sendReminder]. A zone [Intl] rejects throws out
    of the loop into the callback's [catch]. *)
Fixpoint standupLoop (now hour minute : Z) (subscribers : list subscription)
    (st : state) : state :=
  match subscribers with
  | [] => st
  | subscriber :: rest =>
      match toLocaleHM (zones w)
              (js_or (timezone subscriber) "Europe/Lisbon") now with
      | None => st
      | Some (userHour, userMinute) =>
          standupLoop now hour minute rest
            (if decide (userHour = hour ∧ userMinute = minute) then
               spawn (Remind (user_id subscriber) false)
                 (startUserStandup (user_id subscriber) st)
             else st)
      end
  end.

(** The callback of the recurring job, its two reads taken at the instant
    it fires. *)
Definition standupJobFire (now hour minute : Z) (st : state) : state :=
  let subscribers := getActiveSubscribers off now (db st) in
  let st1 := scheduleLateReminders now hour minute st in
  standupLoop now hour minute subscribers st1.

(** [scheduleStandups] up to its [await]: the job [global.standupJob] holds
    is cancelled (cancelling a job twice does nothing the second time) and
    the stored time is asked for. *)
Definition scheduleStandups (st : state) : state :=
  let st1 :=
    match standupJob st with
    | Some h => set_sched (cancelJob h (sched st)) st
    | None => st
    end in
  spawn (InstallStandupJob (getStandupTime (db st1))) st1.

(** The rest of [scheduleStandups]: the rule is built from the time that
    was read and [global.standupJob] takes what [scheduleJob] returns. *)
Definition installStandupJob (time : option Z * option Z) (st : state)
  : state :=
  match time with
  | (Some hour, Some minute) =>
      let installed := scheduleJob (CronJob minute hour) (sched st) in
      set_standupJob installed.2 (set_sched installed.1 st)
  | _ => set_standupJob None st
  end.

(** When the rule [`${minute} ${hour} * * 1-5`] fires: at second 0 of the
    host's [hour:minute], Monday to Friday. *)
Definition cronFires (minute hour now : Z) : bool :=
  (localMs off now mod ms_per_minute =? 0)
  && (getMinutes off now =? minute)
  && (getHours off now =? hour)
  && (1 <=? getDay off now) && (getDay off now <=? 5).

Definition due (now : Z) (j : job) : bool :=
  match j with
  | CronJob minute hour => cronFires minute hour now
  | DateJob fireAt => fireAt =? now
  end.

(** The weekly job [schedule.scheduleJob('0 0 * * 0', ...)], installed when
    the module loads: its rule fires at the host's midnight on Sundays, and
    its callback calls [db.cleanupOldStandups()]. *)
Definition cleanupFires (now : Z) : bool :=
  (localMs off now mod ms_per_minute =? 0)
  && (getMinutes off now =? 0) && (getHours off now =? 0)
  && (getDay off now =? 0).

Definition weeklyCleanup (now : Z) (st : state) : state :=
  set_db (cleanupOldStandups now) st.

(** The scheduler at an instant: every job that is due starts its callback,
    the weekly job (the oldest) first; a one-off job is spent when it runs. *)
Definition runJob (now : Z) (st : state) (e : nat * job) : state :=
  match e.2 with
  | CronJob minute hour => standupJobFire now hour minute st
  | DateJob _ => lateReminderFire now (set_sched (cancelJob e.1 (sched st)) st)
  end.

Definition tick (now : Z) (st : state) : state :=
  foldl (runJob now)
    (if cleanupFires now then weeklyCleanup now st else st)
    (filter (λ e, due now e.2) (live (sched st))).

(** A piece of work in flight goes on to its next [await], or to its end. *)
Definition runTask (now : Z) (t : task) (st : state) : state :=
  match t with
  | InstallStandupJob time => installStandupJob time st
  | StartChat userId => chatFound userId st
  | AskFirst chatId => sendMessage (Chat chatId) (Question 0) st
  | Remind userId isLateReminder => sendReminder userId isLateReminder st
  | LateCheck pc => lateCheckRun now pc st
  end.

(** The interviews a list of work in flight is about to open. *)
Definition starting (ts : list task) : list Z :=
  omap (λ t, match t with StartChat userId => Some userId | _ => None end) ts.

(** The participants matched at an instant: those for whom the jobs that
    fire then call [startUserStandup]. *)
Definition matchedAt (now : Z) (st : state) : list Z :=
  starting (drop (length (tasks st)) (tasks (tick now st))).

(** The subscribers for which the body of the loop's [if] runs. *)
Fixpoint matchingSubscribers (now hour minute : Z)
    (subscribers : list subscription) : list Z :=
  match subscribers with
  | [] => []
  | subscriber :: rest =>
      match toLocaleHM (zones w)
              (js_or (timezone subscriber) "Europe/Lisbon") now with
      | None => []
      | Some (userHour, userMinute) =>
          (if decide (userHour = hour ∧ userMinute = minute)
           then [user_id subscriber] else [])
          ++ matchingSubscribers now hour minute rest
      end
  end.

(** *** Administrator commands *)

(** The [/set_time] handler, on the parsed hour and minute. *)
Definition onSetTime (userId chatId hour minute : Z) : state → state :=
  commandGuard userId chatId (λ st,
    if negb (isAdmin (admins w) (db st) userId) then
      sendMessage (Chat chatId) AdminOnly st
    else if decide (hour < 0 ∨ hour > 23 ∨ minute < 0 ∨ minute > 59) then
      sendMessage (Chat chatId) InvalidTime st
    else
      sendMessage (Chat chatId) (TimeSet hour minute)
        (scheduleStandups (set_db (setStandupTime hour minute) st))).

(** The [/late_reminder on|off] handler. *)
Definition onLateReminder (userId chatId : Z) (enabled : bool)
  : state → state :=
  commandGuard userId chatId (λ st,
    if negb (isAdmin (admins w) (db st) userId) then
      sendMessage (Chat chatId) AdminOnly st
    else
      let st1 := set_db (setLateReminderEnabled enabled) st in
      sendMessage (Chat chatId)
        (LateReminderSet enabled (getLateReminderSettings (db st1)).2) st1).

(** The [/late_reminder_hours N] handler, on the parsed number. *)
Definition onLateReminderHours (userId chatId hours : Z) : state → state :=
  commandGuard userId chatId (λ st,
    if negb (isAdmin (admins w) (db st) userId) then
      sendMessage (Chat chatId) AdminOnly st
    else if decide (hours < 1 ∨ hours > 12) then
      sendMessage (Chat chatId) InvalidHours st
    else
      let st1 := set_db (setLateReminderHours hours) st in
      sendMessage (Chat chatId)
        (LateHoursSet hours (getLateReminderSettings (db st1)).1) st1).
End Handlers.

(** *** The other commands

    These handlers change the store only; what they reply is returned beside
    the state. *)

Inductive notice :=
| NotInChannel
| Welcome (isAdmin : bool)
| AlreadySubscribed
| NowSubscribed
| NotSubscribed
| NowUnsubscribed
| NoMembers
| Members (names : list string)
| SubscribeBeforeVacation
| VacationInPast
| VacationEnabled (endDate : Z)
| VacationUsage
| NotOnVacation
| WelcomeBack
| SubscribeBeforeTimezone
| TimezoneHelp (current : string)
| InvalidTimezone
| TimezoneSet (zone : string)
| StatusReport (submitted pending onVacation : list string)
    (participated outOf : Z)
| NoStandupsToday
| Replay (rows : list standup).

Definition answer : Type := state * list (dest * notice).

Section Commands.
Variable w : world.
Variable off : Z.

(** [commandGuard], for a handler that answers with a notice. *)
Definition guarded (userId chatId : Z) (handler : state → answer)
    (st : state) : answer :=
  if isChannelMember w userId then handler st
  else (st, [(Chat chatId, NotInChannel)]).

(** The [/start] handler. *)
Definition onStart (userId chatId : Z) : state → answer :=
  guarded userId chatId (λ st,
    (st, [(Chat chatId, Welcome (isAdmin (admins w) (db st) userId))])).

(** The [/subscribe] handler; [name] is
    [msg.from.username || msg.from.first_name]. *)
Definition onSubscribe (userId chatId : Z) (name : string) : state → answer :=
  guarded userId chatId (λ st,
    if isSubscribed (db st) userId then
      (st, [(Chat chatId, AlreadySubscribed)])
    else
      (set_db (addSubscriber userId name) st, [(Chat chatId, NowSubscribed)])).

(** The [/unsubscribe] handler. *)
Definition onUnsubscribe (userId chatId : Z) : state → answer :=
  guarded userId chatId (λ st,
    if negb (isSubscribed (db st) userId) then
      (st, [(Chat chatId, NotSubscribed)])
    else
      (set_db (removeSubscriber userId) st, [(Chat chatId, NowUnsubscribed)])).

(** The [/members] handler. *)
Definition onMembers (userId chatId : Z) : state → answer :=
  guarded userId chatId (λ st,
    let subscribers := getAllSubscribers (db st) in
    if decide (length subscribers = 0%nat) then
      (st, [(Chat chatId, NoMembers)])
    else (st, [(Chat chatId, Members (username <$> subscribers))])).

(** The [/vacation dd/mm/yyyy] handler, on the civil day [endDay] that
    [new Date(year, month - 1, day)] falls on: [endDate] is that day's local
    midnight, and what is stored is the date part of [endDate.toISOString()],
    the day of that instant in UTC. *)
Definition onVacationDate (now userId chatId endDay : Z) : state → answer :=
  guarded userId chatId (λ st,
    if negb (isSubscribed (db st) userId) then
      (st, [(Chat chatId, SubscribeBeforeVacation)])
    else
      let endDate := ofLocalMs off (endDay * ms_per_day) in
      let today := setHours4 off 0 0 0 0 now in
      if decide (endDate < today) then
        (st, [(Chat chatId, VacationInPast)])
      else
        (set_db (setVacationMode userId (endDate / ms_per_day)) st,
         [(Chat chatId, VacationEnabled endDay)])).

(** The [/vacation] handler, for a command without a date. *)
Definition onVacation (userId chatId : Z) : state → answer :=
  guarded userId chatId (λ st, (st, [(Chat chatId, VacationUsage)])).

(** The [/back] handler; it is registered without [commandGuard]. *)
Definition onBack (userId chatId : Z) (st : state) : answer :=
  match getVacationStatus (db st) userId with
  | Some (onVacation, _) =>
      if onVacation =? 0 then (st, [(Chat chatId, NotOnVacation)])
      else (set_db (disableVacationMode userId) st, [(Chat chatId, WelcomeBack)])
  | None => (st, [(Chat chatId, NotOnVacation)])
  end.

(** The [/timezone] handler, for a command without a zone. *)
Definition onTimezone (userId chatId : Z) : state → answer :=
  guarded userId chatId (λ st,
    if negb (isSubscribed (db st) userId) then
      (st, [(Chat chatId, SubscribeBeforeTimezone)])
    else (st, [(Chat chatId, TimezoneHelp (getUserTimezone (db st) userId))])).

(** The [/timezone Region/City] handler; [Intl.DateTimeFormat] throws for a
    zone it does not know. *)
Definition onTimezoneSet (now userId chatId : Z) (zone : string)
  : state → answer :=
  guarded userId chatId (λ st,
    if negb (isSubscribed (db st) userId) then
      (st, [(Chat chatId, SubscribeBeforeTimezone)])
    else
      match zones w zone now with
      | None => (st, [(Chat chatId, InvalidTimezone)])
      | Some _ =>
          (set_db (setUserTimezone userId zone) st,
           [(Chat chatId, TimezoneSet zone)])
      end).

(** The [/replay] handler. *)
Definition onReplay (now userId chatId : Z) : state → answer :=
  guarded userId chatId (λ st,
    let todayStandups := getTodayStandups off now (db st) in
    if decide (length todayStandups = 0%nat) then
      (st, [(Chat chatId, NoStandupsToday)])
    else (st, [(Chat chatId, Replay todayStandups)])).

(** The [/status] handler: the three lists of the report and the two numbers
    of its participation line. *)
Definition onStatus (now userId chatId : Z) : state → answer :=
  guarded userId chatId (λ st,
    let status := getStandupStatus off now (db st) in
    if decide (length status = 0%nat) then (st, [(Chat chatId, NoMembers)])
    else
      let submitted := filter (λ s, hasSubmitted s) status in
      let notSubmitted := filter (λ s, missing_standup s) status in
      let onVacation := filter (λ s, negb (isOnVacation s =? 0)) status in
      (st, [(Chat chatId,
             StatusReport (st_username <$> submitted)
               (st_username <$> notSubmitted)
               (st_username <$> onVacation)
               (Z.of_nat (length submitted))
               (Z.of_nat (length status) - Z.of_nat (length onVacation)))])).

End Commands.

End Bot.

(** * Notions and sample data for the properties *)

Import Clock Db Bot.

(** ** Notions *)

(** The row [SELECT ... WHERE user_id = ?] returns, if any. *)
Definition subscription_row (d : database) (userId : Z) : option subscription :=
  head (filter (λ r, user_id r = userId) (subscriptions d)).

(** The timezone query as the specification words it: the default for a
    missing row or a NULL zone, the stored text otherwise. *)
Definition timezone_as_specified (d : database) (userId : Z) : string :=
  match subscription_row d userId with
  | None => "Europe/Lisbon"
  | Some r => default "Europe/Lisbon" (timezone r)
  end.

(** Today's [hour:minute] on the host's clock, as an instant. *)
Definition triggerInstant (off now hour minute : Z) : Z :=
  ofLocalMs off (date_now_localtime off now * ms_per_day
                 + hour * ms_per_hour + minute * ms_per_minute).

Definition is_recurring (e : nat * job) : bool :=
  match e.2 with
  | CronJob _ _ => true
  | DateJob _ => false
  end.

(** The live recurring jobs. *)
Definition recurring (s : scheduler) : list (nat * job) :=
  filter (λ e, is_recurring e) (live s).

(** Every live recurring job is the one [global.standupJob] holds. *)
Definition standupJob_owns_recurring (st : state) : Prop :=
  ∀ e, e ∈ recurring (sched st) → standupJob st = Some e.1.


(** The number of [late_reminders] rows of a user that fall on local day [D]. *)
Definition reminders_on (off D : Z) (d : database) (u : Z) : nat :=
  length (filter (λ r, lr_user_id r = u ∧ date_localtime off (sent_at r) = D)
                 (late_reminders d)).

Definition is_late_reminder_to (u : Z) (m : dest * text) : bool :=
  match m with
  | (Chat c, Reminder true) => c =? u
  | _ => false
  end.

(** The number of late reminders sent to a user so far. *)
Definition late_reminders_sent (st : state) (u : Z) : nat :=
  length (filter (λ m, is_late_reminder_to u m) (outbox st)).

(** From [st] to [st'] the user got at most the one reminder a new record
    accounts for, and a new record only if there was none for the day. *)
Definition debounced (off D u : Z) (st st' : state) : Prop :=
  (reminders_on off D (db st) u ≤ reminders_on off D (db st') u)%nat
  ∧ (reminders_on off D (db st') u
     ≤ Nat.max 1 (reminders_on off D (db st) u))%nat
  ∧ (late_reminders_sent st' u + reminders_on off D (db st) u
     ≤ late_reminders_sent st u + reminders_on off D (db st') u)%nat.

(** ** Sample data *)

(** The settings [initializeDatabase] inserts. *)
Definition default_settings : settings :=
  {| standup_hour := Some "9"; standup_minute := Some "0";
     late_reminder_enabled := Some "1"; late_reminder_hours := Some "4" |}.

Definition empty_db : database :=
  {| subscriptions := []; standups := []; late_reminders := [];
     settings_tbl := default_settings |}.

(** Two subscribers: "ana" (an administrator below) in Tokyo and "rui" with
    no zone of his own. *)
Definition tokyo_db : database :=
  with_subscriptions empty_db
    [ {| user_id := 1; username := "ana"; timezone := Some "Asia/Tokyo";
         is_on_vacation := 0; vacation_until := None |};
      {| user_id := 2; username := "rui"; timezone := None;
         is_on_vacation := 0; vacation_until := None |} ].

(** A subscriber whose stored zone is the empty text. *)
Definition empty_zone_db : database :=
  with_subscriptions empty_db
    [ {| user_id := 1; username := "ana"; timezone := Some "";
         is_on_vacation := 0; vacation_until := None |} ].

Definition new_york_db : database :=
  with_subscriptions empty_db
    [ {| user_id := 3; username := "eva";
         timezone := Some "America/New_York";
         is_on_vacation := 0; vacation_until := None |} ].

(** A subscriber whose vacation ended on day 19720 (29 December 2023), the
    flag still set. *)
Definition expired_vacation_db : database :=
  with_subscriptions empty_db
    [ {| user_id := 5; username := "leo"; timezone := None;
         is_on_vacation := 1; vacation_until := Some 19720 |} ].

(** The same subscriber once he has submitted on Monday 8 January 2024. *)
Definition vacationer_submitted_db : database :=
  (addStandup 0 (19730 * ms_per_day + 9 * ms_per_hour) 5 "leo"
     (Some "Rested") (Some "Catch up") None NoFault expired_vacation_db).1.

(** Three zones known to [Intl], at their winter offsets. *)
Definition sample_zones : tzdb := λ zone _,
  if decide (zone = "Europe/Lisbon") then Some 0
  else if decide (zone = "America/New_York") then Some (-300)
  else if decide (zone = "Asia/Tokyo") then Some 540
  else None.

(** A world in which everybody is a channel member and reachable, and "ana"
    is the administrator. *)
Definition sample_world : world :=
  {| isChannelMember := λ _, true;
     getChat := λ _, true;
     zones := sample_zones;
     admins := ["ana"] |}.

Definition idle_state (d : database) : state :=
  {| userStates := ∅; standupResponses := ∅; db := d; outbox := [];
     sched := {| live := []; next_handle := 0 |}; standupJob := None;
     tasks := [] |}.

(** Participant 1 at question [q], with the answers collected so far. *)
Definition session_at (q : nat) (collected : list (option string)) : state :=
  set_standupResponses
    (insert 1 {| r_username := "ana"; answers := collected |})
    (set_userStates (insert 1 q) (idle_state tokyo_db)).

(** The state once [scheduleStandups] has installed its first recurring job. *)
Definition with_cron (minute hour : Z) (st : state) : state :=
  set_standupJob (Some 0%nat)
    (set_sched {| live := [(0%nat, CronJob minute hour)];
                  next_handle := 1 |} st).

(** Monday 8 January 2024 (day 19730) at 09:00, 13:00 and 14:00 UTC; 14:00
    UTC is 09:00 in New York. *)
Definition monday_0900 : Z := 19730 * ms_per_day + 9 * ms_per_hour.
Definition monday_1300 : Z := 19730 * ms_per_day + 13 * ms_per_hour.
Definition monday_1400 : Z := 19730 * ms_per_day + 14 * ms_per_hour.

(** Monday 3 June 2024 (day 19877), 23:10 and 23:40 on a host one hour east
    of UTC, as 'Europe/Lisbon' is in summer. *)
Definition june_2310 : Z :=
  19877 * ms_per_day + 22 * ms_per_hour + 10 * ms_per_minute.
Definition june_2340 : Z :=
  19877 * ms_per_day + 22 * ms_per_hour + 40 * ms_per_minute.

(** The state after the 09:00 job of Monday 8 January 2024 has installed the
    day's check for 13:00. *)
Definition check_pending_state : state :=
  scheduleLateReminders 0 monday_0900 9 0 (with_cron 0 9 (idle_state tokyo_db)).

(** ** Notions for the rest of the code *)

(** What a participant does with a question: answer it with a message (whose
    text is missing when the message is not a text) or send [/skip]. *)
Inductive reply :=
| Answer (msgText : option string)
| SkipIt.

(** The handler a reply goes to. *)
Definition react (w : world) (off now userId chatId : Z) (name : string)
    (f : fault) (e : reply) (st : state) : state :=
  match e with
  | Answer msgText => onMessage w off now userId chatId name msgText f st
  | SkipIt => onSkip w off now userId chatId name f st
  end.

(** What a reply puts in its answer slot. *)
Definition slot_of (e : reply) : option string :=
  match e with
  | Answer msgText => msgText
  | SkipIt => Some ""
  end.

(** A reply that its handler does not drop as a command. *)
Definition plain (e : reply) : Prop :=
  match e with
  | Answer msgText => startsWithSlash msgText = false
  | SkipIt => True
  end.

(** Two states that differ at most in the late-reminder records and in the
    messages sent. *)
Definition same_but_reminders (st st' : state) : Prop :=
  userStates st' = userStates st
  ∧ standupResponses st' = standupResponses st
  ∧ subscriptions (db st') = subscriptions (db st)
  ∧ standups (db st') = standups (db st)
  ∧ settings_tbl (db st') = settings_tbl (db st)
  ∧ sched st' = sched st
  ∧ standupJob st' = standupJob st.

(** [initialize], once the channel has been verified: the settings are
    completed, nobody has a session, and [scheduleStandups] has been called
    and is at its [await]. *)
Definition initialize (d : database) : state :=
  scheduleStandups
    {| userStates := ∅; standupResponses := ∅; db := initializeDatabase d;
       outbox := []; sched := {| live := []; next_handle := 0 |};
       standupJob := None; tasks := [] |}.

(** One thing that happens to the bot: a command or a message arrives, the
    scheduler starts the jobs that are due at an instant, or a piece of
    work in flight, any of them, goes on to its next [await]. *)
Inductive step (w : world) (off : Z) (st : state) : state → Prop :=
| step_start u c : step w off st (onStart w u c st).1
| step_subscribe u c name : step w off st (onSubscribe w u c name st).1
| step_unsubscribe u c : step w off st (onUnsubscribe w u c st).1
| step_members u c : step w off st (onMembers w u c st).1
| step_standup u c : step w off st (onStandup w u c st)
| step_replay now u c : step w off st (onReplay w off now u c st).1
| step_message now u c name msgText f :
    step w off st (onMessage w off now u c name msgText f st)
| step_skip now u c name f :
    step w off st (onSkip w off now u c name f st)
| step_vacation_date now u c endDay :
    step w off st (onVacationDate w off now u c endDay st).1
| step_vacation u c : step w off st (onVacation w u c st).1
| step_back u c : step w off st (onBack u c st).1
| step_set_time u c hour minute :
    step w off st (onSetTime w u c hour minute st)
| step_timezone u c : step w off st (onTimezone w u c st).1
| step_timezone_set now u c zone :
    step w off st (onTimezoneSet w now u c zone st).1
| step_late_reminder u c enabled :
    step w off st (onLateReminder w u c enabled st)
| step_late_reminder_hours u c hours :
    step w off st (onLateReminderHours w u c hours st)
| step_status now u c : step w off st (onStatus w off now u c st).1
| step_tick now : step w off st (tick w off now st)
| step_task now before t after :
    tasks st = before ++ t :: after →
    step w off st (runTask w off now t (set_tasks (before ++ after) st)).

(** Work in flight served in the order it was left: the piece at the head
    of [tasks] goes on, [n] times over. *)
Fixpoint runHeads (w : world) (off now : Z) (n : nat) (st : state) : state :=
  match n with
  | O => st
  | S n' =>
      match tasks st with
      | [] => st
      | t :: rest => runHeads w off now n' (runTask w off now t (set_tasks rest st))
      end
  end.

(** Monday 8 January 2024 at 10:00 UTC. *)
Definition monday_1000 : Z := 19730 * ms_per_day + 10 * ms_per_hour.

(** A morning that leaves two late-reminder checks due at 13:00. The bot
    starts on [tokyo_db] and installs its job for 09:00; the job fires and
    installs the check for 13:00 (09:00 plus 4 hours); administrator "ana"
    moves the trigger to 10:00 and the delay to 3 hours; the new job fires
    at 10:00 and installs a second check for 13:00. All the work left in
    flight on the way is served. *)
Definition two_checks_pending : state :=
  let started := runHeads sample_world 0 monday_0900 1 (initialize tokyo_db) in
  let at_0900 :=
    runHeads sample_world 0 monday_0900 3
      (tick sample_world 0 monday_0900 started) in
  let moved :=
    runHeads sample_world 0 monday_0900 1
      (onSetTime sample_world 1 1 10 0 at_0900) in
  let delayed := onLateReminderHours sample_world 1 1 3 moved in
  runHeads sample_world 0 monday_1000 3
    (tick sample_world 0 monday_1000 delayed).

(** Both checks start at 13:00 and go on in turn, each from one [await] to
    its next, until both are done. *)
Definition two_checks_done : state :=
  runHeads sample_world 0 monday_1300 20
    (tick sample_world 0 monday_1300 two_checks_pending).

(** The same two checks, the second started when the first is done. *)
Definition two_checks_in_a_row : state :=
  lateReminderJob sample_world 0 monday_1300
    (lateReminderJob sample_world 0 monday_1300 two_checks_pending).

(** Every question index is one of the three questions'. *)
Definition in_range (m : gmap Z nat) : Prop :=
  ∀ u q, m !! u = Some q → (q ≤ 2)%nat.

(** The handles of the live jobs are distinct and were all handed out. *)
Definition handles_fresh (s : scheduler) : Prop :=
  NoDup ((λ e, e.1) <$> live s) ∧ ∀ e, e ∈ live s → (e.1 < next_handle s)%nat.

(** What the loop of the recurring job leaves in flight for the subscribers
    it matches. *)
Definition loop_calls (ids : list Z) : list task :=
  flat_map (λ id, [StartChat id; Remind id false]) ids.

(** The installations in flight are the same in both lists. *)
Definition same_installs (ts ts' : list task) : Prop :=
  ∀ time, InstallStandupJob time ∈ ts' ↔ InstallStandupJob time ∈ ts.

(** A time that makes a rule [node-schedule] accepts. *)
Definition valid_time (time : option Z * option Z) : Prop :=
  match time with
  | (Some hour, Some minute) => 0 ≤ hour ≤ 23 ∧ 0 ≤ minute ≤ 59
  | _ => False
  end.

(** [global.standupJob] holds a recurring job that is live. *)
Definition holds_live_job (st : state) : Prop :=
  ∃ h minute hour,
    standupJob st = Some h ∧ (h, CronJob minute hour) ∈ live (sched st).

(** What the scheduler keeps of the trigger whatever happens: its handles
    are fresh, the stored time and the times read by the installations in
    flight are valid, and when no installation is in flight
    [global.standupJob] holds a live job. *)
Definition trigger_kept (st : state) : Prop :=
  handles_fresh (sched st)
  ∧ valid_time (getStandupTime (db st))
  ∧ (∀ time, InstallStandupJob time ∈ tasks st → valid_time time)
  ∧ ((∀ time, InstallStandupJob time ∉ tasks st) → holds_live_job st).

(** The store as the handlers keep it: one row per participant, every
    setting present, and no zone that [Intl] would reject. *)
Definition registry_ok (w : world) (d : database) : Prop :=
  NoDup (user_id <$> subscriptions d)
  ∧ (is_Some (standup_hour (settings_tbl d))
     ∧ is_Some (standup_minute (settings_tbl d))
     ∧ is_Some (late_reminder_enabled (settings_tbl d))
     ∧ is_Some (late_reminder_hours (settings_tbl d)))
  ∧ ∀ r now, r ∈ subscriptions d →
      is_Some (zones w (js_or (timezone r) "Europe/Lisbon") now).

(** What is asked of [Intl]: it knows ['Europe/Lisbon'], and a name it
    accepts once it accepts always. *)
Definition zones_stable (w : world) : Prop :=
  (∀ now, is_Some (zones w "Europe/Lisbon" now))
  ∧ ∀ zone now later,
      is_Some (zones w zone now) → is_Some (zones w zone later).

(** What a user can send through a guarded entry point: any command but
    [/back], or a message. *)
Inductive request (w : world) (off : Z) (u : Z) (st : state) : state → Prop :=
| request_start c : request w off u st (onStart w u c st).1
| request_subscribe c name : request w off u st (onSubscribe w u c name st).1
| request_unsubscribe c : request w off u st (onUnsubscribe w u c st).1
| request_members c : request w off u st (onMembers w u c st).1
| request_standup c : request w off u st (onStandup w u c st)
| request_replay now c : request w off u st (onReplay w off now u c st).1
| request_message now c name msgText f :
    request w off u st (onMessage w off now u c name msgText f st)
| request_skip now c name f :
    request w off u st (onSkip w off now u c name f st)
| request_vacation_date now c endDay :
    request w off u st (onVacationDate w off now u c endDay st).1
| request_vacation c : request w off u st (onVacation w u c st).1
| request_set_time c hour minute :
    request w off u st (onSetTime w u c hour minute st)
| request_timezone c : request w off u st (onTimezone w u c st).1
| request_timezone_set now c zone :
    request w off u st (onTimezoneSet w now u c zone st).1
| request_late_reminder c enabled :
    request w off u st (onLateReminder w u c enabled st)
| request_late_reminder_hours c hours :
    request w off u st (onLateReminderHours w u c hours st)
| request_status now c : request w off u st (onStatus w off now u c st).1.

(** * Properties *)

(** ** Numbers as text *)

Lemma digit_value_char (d : Z) :
  0 ≤ d ≤ 9 → digit_value (digit_char d) = Some d.
Proof.
  intros H. unfold digit_value, digit_char.
  rewrite nat_ascii_embedding by lia.
  rewrite Z2Nat.id by lia.
  destruct (48 <=? 48 + d) eqn:E1; [|lia].
  destruct (48 + d <=? 57) eqn:E2; [|lia]. simpl. f_equal. lia.
Qed.

Lemma numeral_fuel_S (fuel : nat) (n : Z) (rest : string) :
  numeral_fuel (S fuel) n rest
  = if n <? 10 then String (digit_char (n mod 10)) rest
    else numeral_fuel fuel (n / 10) (String (digit_char (n mod 10)) rest).
Proof. reflexivity. Qed.

Lemma leading_digits_numeral (fuel : nat) (n : Z) (rest : string) :
  0 ≤ n < 2 ^ Z.of_nat (S fuel) →
  leading_digits (numeral_fuel (S fuel) n rest) None
  = leading_digits rest (Some n).
Proof.
  revert n rest. induction fuel as [|fuel IH]; intros n rest Hn;
    rewrite numeral_fuel_S;
    assert (Hd : 0 ≤ n mod 10 ≤ 9)
      by (pose proof (Z.mod_pos_bound n 10); lia);
    destruct (Z.ltb_spec n 10) as [E|E];
    try (cbn [leading_digits]; rewrite digit_value_char by exact Hd;
         simpl default; f_equal; f_equal; rewrite Z.mod_small by lia; lia).
  - change (2 ^ Z.of_nat 1) with 2 in Hn. lia.
  - rewrite IH.
    + cbn [leading_digits]. rewrite digit_value_char by exact Hd.
      simpl default. f_equal. f_equal.
      pose proof (Z.div_mod n 10). lia.
    + rewrite (Nat2Z.inj_succ (S fuel)), Z.pow_succ_r in Hn by lia.
      assert (0 < 2 ^ Z.of_nat (S fuel)) by (apply Z.pow_pos_nonneg; lia).
      split; [apply Z.div_pos; lia|].
      apply Z.div_lt_upper_bound; lia.
Qed.

Lemma leading_digits_of_numeral (n : Z) :
  0 ≤ n → leading_digits (numeral n) None = Some n.
Proof.
  intros Hn. unfold numeral. rewrite leading_digits_numeral; [reflexivity|].
  split; [exact Hn|].
  destruct (decide (n = 0)) as [->|Hne]; [reflexivity|].
  rewrite Nat2Z.inj_succ, Z2Nat.id by (apply Z.log2_nonneg).
  apply Z.log2_spec. lia.
Qed.

Lemma numeral_head (n : Z) :
  ∃ d s, 0 ≤ d ≤ 9 ∧ numeral n = String (digit_char d) s.
Proof.
  unfold numeral. generalize (Z.to_nat (Z.log2 n)) "". intros fuel.
  revert n. induction fuel as [|fuel IH]; intros n rest;
    rewrite numeral_fuel_S;
    assert (Hd : 0 ≤ n mod 10 ≤ 9)
      by (pose proof (Z.mod_pos_bound n 10); lia);
    destruct (n <? 10); eauto.
Qed.

Lemma digit_char_plain (d : Z) :
  0 ≤ d ≤ 9 →
  is_space (digit_char d) = false
  ∧ digit_char d ≠ "-"%char ∧ digit_char d ≠ "+"%char.
Proof.
  intros H.
  assert (Hcases : d = 0 ∨ d = 1 ∨ d = 2 ∨ d = 3 ∨ d = 4 ∨ d = 5 ∨ d = 6
                   ∨ d = 7 ∨ d = 8 ∨ d = 9) by lia.
  repeat (destruct Hcases as [->|Hcases]); try subst d;
    (split; [reflexivity | split; discriminate]).
Qed.

Lemma parseInt_numeral (n : Z) : 0 ≤ n → parseInt (numeral n) = Some n.
Proof.
  intros Hn. pose proof (leading_digits_of_numeral n Hn) as Hval.
  destruct (numeral_head n) as (d & s & Hd & Heq). rewrite Heq in *.
  destruct (digit_char_plain d Hd) as (Hsp & Hminus & Hplus).
  unfold parseInt. cbn [skip_space]. rewrite Hsp.
  rewrite !decide_False by assumption. exact Hval.
Qed.

(** Below [10 ^ 21] in absolute value, what [toString] writes [parseInt]
    reads back. *)
Lemma parseInt_toString (n : Z) :
  Z.abs n < 10 ^ 21 → parseInt (toString n) = Some n.
Proof.
  intros Hn. unfold toString.
  destruct (Z.ltb_spec (Z.abs n) (10 ^ 21)) as [_|]; [|lia].
  destruct (Z.ltb_spec n 0) as [Hneg|Hpos].
  - change ("-" +:+ numeral (Z.abs n)) with (String "-" (numeral (Z.abs n))).
    unfold parseInt. cbn [skip_space].
    change (is_space "-") with false. cbv iota.
    rewrite decide_True by reflexivity.
    rewrite leading_digits_of_numeral by lia. simpl. f_equal. lia.
  - change ("" +:+ numeral (Z.abs n)) with (numeral (Z.abs n)).
    rewrite Z.abs_eq by lia. now apply parseInt_numeral.
Qed.

Lemma toString_not_empty (n : Z) : Z.abs n < 10 ^ 21 → toString n ≠ "".
Proof.
  intros Hn Hempty. pose proof (parseInt_toString n Hn) as H.
  rewrite Hempty in H. discriminate H.
Qed.

(** A stored number is read back, whatever default the reader has. *)
Lemma parseInt_stored (n : Z) (fallback : string) :
  Z.abs n < 10 ^ 21 →
  parseInt (js_or (Some (toString n)) fallback) = Some n.
Proof.
  intros Hn. unfold js_or.
  rewrite decide_False by now apply toString_not_empty.
  now apply parseInt_toString.
Qed.

(** ** The participant's timezone *)

Lemma subscription_row_None (d : database) (userId : Z) :
  (∀ r, r ∈ subscriptions d → user_id r ≠ userId) →
  subscription_row d userId = None.
Proof.
  unfold subscription_row. induction (subscriptions d) as [|x l IH]; intros H.
  - reflexivity.
  - rewrite filter_cons. destruct (decide (user_id x = userId)) as [e|n].
    + exfalso. apply (H x); [left | exact e].
    + apply IH. intros r Hr. apply H. now right.
Qed.

Lemma subscription_row_Some (d : database) (userId : Z) (r : subscription) :
  NoDup (user_id <$> subscriptions d) →
  r ∈ subscriptions d → user_id r = userId →
  subscription_row d userId = Some r.
Proof.
  unfold subscription_row. induction (subscriptions d) as [|x l IH];
    intros Hnd Hin Hid.
  - inversion Hin.
  - rewrite fmap_cons in Hnd. apply NoDup_cons in Hnd as [Hx Hnd].
    rewrite filter_cons. apply elem_of_cons in Hin as [->|Hin].
    + destruct (decide (user_id x = userId)); [reflexivity | contradiction].
    + destruct (decide (user_id x = userId)) as [e|n].
      * exfalso. apply Hx. rewrite e, <- Hid. apply list_elem_of_fmap.
        exists r. split; [reflexivity | exact Hin].
      * now apply IH.
Qed.

(** C10, counterexample: a row that stores the empty text as its zone. The
    claim promises the stored text; [getUserTimezone] answers the default. *)
Lemma getUserTimezone_empty_text :
  timezone_as_specified empty_zone_db 1 = ""
  ∧ getUserTimezone empty_zone_db 1 = "Europe/Lisbon"
  ∧ getUserTimezone empty_zone_db 1 ≠ timezone_as_specified empty_zone_db 1.
Proof. repeat split; vm_compute; congruence. Qed.

(** C10, amended: [getUserTimezone] returns ['Europe/Lisbon'] when the
    identifier has no subscription row, or when the stored zone is NULL or the
    empty text; otherwise it returns the stored zone. *)
Theorem getUserTimezone_default_or_stored (d : database) (userId : Z) :
  NoDup (user_id <$> subscriptions d) →
  ((∀ r, r ∈ subscriptions d → user_id r ≠ userId) →
     getUserTimezone d userId = "Europe/Lisbon")
  ∧ (∀ r, r ∈ subscriptions d → user_id r = userId →
       (timezone r = None ∨ timezone r = Some "" →
          getUserTimezone d userId = "Europe/Lisbon")
       ∧ (∀ zone, timezone r = Some zone → zone ≠ "" →
            getUserTimezone d userId = zone)).
Proof.
  intros Hnd. split.
  - intros Hno. unfold getUserTimezone.
    fold (subscription_row d userId). now rewrite subscription_row_None.
  - intros r Hin Hid. unfold getUserTimezone.
    fold (subscription_row d userId).
    rewrite (subscription_row_Some d userId r Hnd Hin Hid). simpl. split.
    + intros [-> | ->]; reflexivity.
    + intros zone -> Hne. simpl. destruct (decide (zone = "")); congruence.
Qed.

Lemma getUserTimezone_default_or_stored_witness :
  getUserTimezone tokyo_db 3 = "Europe/Lisbon"
  ∧ getUserTimezone tokyo_db 2 = "Europe/Lisbon"
  ∧ getUserTimezone tokyo_db 1 = "Asia/Tokyo".
Proof.
  assert (Hnd : NoDup (user_id <$> subscriptions tokyo_db)).
  { simpl. apply NoDup_cons. split; [|apply NoDup_singleton].
    intros H. apply list_elem_of_singleton in H. discriminate H. }
  destruct (getUserTimezone_default_or_stored tokyo_db 3 Hnd) as [H3 _].
  destruct (getUserTimezone_default_or_stored tokyo_db 2 Hnd) as [_ H2].
  destruct (getUserTimezone_default_or_stored tokyo_db 1 Hnd) as [_ H1].
  split; [|split].
  - apply H3. intros r Hr. simpl in Hr.
    apply elem_of_cons in Hr as [->|Hr]; [simpl; lia|].
    apply list_elem_of_singleton in Hr as ->. simpl; lia.
  - refine (proj1 (H2 _ _ _) _).
    + simpl. right. left.
    + reflexivity.
    + left. reflexivity.
  - refine (proj2 (H1 _ _ _) "Asia/Tokyo" _ _).
    + simpl. left.
    + reflexivity.
    + reflexivity.
    + discriminate.
Defined.

(** ** JavaScript arrays *)

Lemma js_array_get_set_eq {A} (a : list (option A)) (i : nat) (v : option A) :
  js_array_get (js_array_set a i v) i = v.
Proof.
  unfold js_array_get, js_array_set.
  destruct (decide (i < length a)%nat) as [Hlt|Hge].
  - now rewrite list_lookup_insert_eq.
  - rewrite lookup_app_r by lia.
    rewrite lookup_app_r by (rewrite length_replicate; lia).
    rewrite length_replicate, Nat.sub_diag. reflexivity.
Qed.

Lemma js_array_get_set_ne {A} (a : list (option A)) (i j : nat) (v : option A) :
  i ≠ j → js_array_get (js_array_set a i v) j = js_array_get a j.
Proof.
  intros Hne. unfold js_array_get, js_array_set.
  destruct (decide (i < length a)%nat) as [Hlt|Hge].
  - now rewrite list_lookup_insert_ne.
  - destruct (decide (j < length a)%nat) as [Hj|Hj].
    + now rewrite lookup_app_l.
    + rewrite lookup_app_r by lia.
      rewrite (lookup_ge_None_2 a j) by lia.
      destruct (decide (j - length a < i - length a)%nat) as [Hr|Hr].
      * rewrite lookup_app_l by (rewrite length_replicate; lia).
        rewrite lookup_replicate_2 by lia. reflexivity.
      * rewrite lookup_app_r by (rewrite length_replicate; lia).
        rewrite length_replicate.
        destruct (j - length a - (i - length a))%nat as [|k] eqn:E; [lia|].
        reflexivity.
Qed.

(** ** The skip command *)

(** C4: for a channel member with a live session, [/skip] at question 0
    stores an empty answer in slot 0 and moves to question 1; at question 2
    it stores an empty answer in slot 2 and completes the interview (the
    session is removed and, when the store accepts it, the response is
    persisted with empty blockers and announced; when it does not, the
    store is as the failed call left it and nothing else is done); at
    question 1 it only sends the cannot-skip message and changes nothing
    else. *)
Theorem skip_accepted_first_and_last_only
    (w : world) (off now userId chatId : Z) (name : string) (f : fault)
    (st : state) (q : nat) :
  isChannelMember w userId = true →
  userStates st !! userId = Some q →
  let st' := onSkip w off now userId chatId name f st in
  (q = 0%nat →
     userStates st' !! userId = Some 1%nat
     ∧ (∃ r, standupResponses st' !! userId = Some r
             ∧ js_array_get (answers r) 0 = Some "")
     ∧ outbox st' = outbox st ++ [(Chat chatId, Question 1)]
     ∧ db st' = db st)
  ∧ (q = 1%nat → st' = sendMessage (Chat chatId) CannotSkip st)
  ∧ (q = 2%nat →
       userStates st' !! userId = None
       ∧ ∃ r, js_array_get (answers r) 2 = Some ""
              ∧ let result :=
                  addStandup off now userId (r_username r)
                    (js_array_get (answers r) 0)
                    (js_array_get (answers r) 1)
                    (Some "") f (db st) in
                db st' = result.1
                ∧ if result.2 then
                    standupResponses st' !! userId = None
                    ∧ outbox st' = outbox st ++ [(Channel, Summary r);
                                                 (Chat chatId, Thanks)]
                  else
                    standupResponses st' !! userId = Some r
                    ∧ outbox st' = outbox st).
Proof.
  intros Hmem Hq st'. subst st'. unfold onSkip, commandGuard.
  rewrite Hmem, Hq. split; [|split]; intros ->; simpl.
  - split; [apply lookup_insert_eq|]. split; [|split; reflexivity].
    eexists. split; [apply lookup_insert_eq|]. simpl.
    apply js_array_get_set_eq.
  - reflexivity.
  - set (r0 := default {| r_username := name;
                          answers := [Some ""; Some ""; Some ""] |}
                       (standupResponses st !! userId)).
    set (r := {| r_username := r_username r0;
                 answers := js_array_set (answers r0) 2 (Some "") |}).
    assert (Hslot : js_array_get (answers r) 2 = Some "")
      by apply js_array_get_set_eq.
    unfold submit. cbn [db set_userStates set_standupResponses].
    rewrite Hslot.
    destruct (addStandup off now userId (r_username r)
                (js_array_get (answers r) 0) (js_array_get (answers r) 1)
                (Some "") f (db st)) as [d' ok] eqn:Hresult.
    cbn [fst snd]. destruct ok; simpl.
    + split; [apply lookup_delete_eq|]. exists r. split; [exact Hslot|].
      rewrite Hresult. cbn [fst snd]. split; [reflexivity|].
      split; [apply lookup_delete_eq|].
      rewrite <- app_assoc. reflexivity.
    + split; [apply lookup_delete_eq|]. exists r. split; [exact Hslot|].
      rewrite Hresult. cbn [fst snd]. split; [reflexivity|].
      split; [apply lookup_insert_eq | reflexivity].
Qed.

Lemma skip_accepted_first_and_last_only_witness :
  userStates (onSkip sample_world 0 0 1 1 "ana" NoFault (session_at 0 []))
    !! 1 = Some 1%nat.
Proof.
  exact (proj1 (proj1 (skip_accepted_first_and_last_only
                         sample_world 0 0 1 1 "ana" NoFault (session_at 0 [])
                         0 eq_refl eq_refl) eq_refl)).
Defined.

(** ** Completion of an interview *)

(** When [addStandup] resolves and what it leaves behind. *)
Lemma addStandup_outcome
    (off now userId : Z) (name : string) (y t b : option string) (f : fault)
    (d : database) :
  let result := addStandup off now userId name y t b f d in
  let d1 := deleteTodayStandups off now userId d in
  (result.2 = true ↔ f = NoFault ∧ is_Some y ∧ is_Some t)
  ∧ (result.2 = true →
       result.1
       = with_standups d1
           (standups d1
            ++ [ {| s_user_id := userId; s_username := name;
                    yesterday := y; today := t; blockers := b;
                    submitted_at := datetime_now_localtime off now |} ]))
  ∧ (f = DeleteFails → result.1 = d)
  ∧ (f ≠ DeleteFails → result.2 = false → result.1 = d1).
Proof.
  unfold addStandup.
  destruct f, y as [y|], t as [t|]; cbn [fst snd];
    repeat split; try reflexivity; try discriminate; try congruence; eauto;
    try (intros (? & [? ?] & [? ?]); discriminate);
    try (intros (? & [? ?] & ?); discriminate);
    try (intros (? & ? & [? ?]); discriminate);
    try (intros (? & ? & ?); discriminate).
Qed.

(** X1: a free-text answer to the last question always ends the session and
    drops the answer buffer. When [db.addStandup] resolves (no fault of the
    database, and the first two answers were texts) the response is stored
    and announced. When it rejects, the [catch] reports the error and the
    store is as the failed call left it: untouched when the [DELETE] was
    rejected, and otherwise without the responses the participant had stored
    for the day, which the [DELETE] removed before the [INSERT] failed. *)
Lemma onMessage_completion_clears
    (w : world) (off now userId chatId : Z) (name : string)
    (msgText : option string) (f : fault) (st : state) :
  startsWithSlash msgText = false →
  isChannelMember w userId = true →
  userStates st !! userId = Some 2%nat →
  let st' := onMessage w off now userId chatId name msgText f st in
  userStates st' !! userId = None
  ∧ standupResponses st' !! userId = None
  ∧ ∃ r,
      js_array_get (answers r) 2 = msgText
      ∧ let y := js_array_get (answers r) 0 in
        let t := js_array_get (answers r) 1 in
        let result :=
          addStandup off now userId (r_username r) y t msgText f (db st) in
        db st' = result.1
        ∧ outbox st'
          = outbox st
            ++ (if result.2
                then [(Channel, Summary r); (Chat chatId, Thanks)]
                else [(Chat chatId, ErrorProcessing)])
        ∧ (result.2 = true ↔ f = NoFault ∧ is_Some y ∧ is_Some t)
        ∧ (f = DeleteFails → db st' = db st)
        ∧ (f ≠ DeleteFails → result.2 = false →
           db st' = deleteTodayStandups off now userId (db st)).
Proof.
  intros Hslash Hmem Hq st'. subst st'. unfold onMessage.
  rewrite Hslash, Hmem, Hq. simpl.
  set (r0 := default {| r_username := name; answers := [] |}
                     (standupResponses st !! userId)).
  set (r := {| r_username := r_username r0;
               answers := js_array_set (answers r0) 2 msgText |}).
  assert (Hslot : js_array_get (answers r) 2 = msgText)
    by apply js_array_get_set_eq.
  unfold submit. cbn [db set_userStates set_standupResponses].
  rewrite Hslot.
  pose proof (addStandup_outcome off now userId (r_username r)
                (js_array_get (answers r) 0) (js_array_get (answers r) 1)
                msgText f (db st)) as (Hok & _ & Hdel & Hins).
  destruct (addStandup off now userId (r_username r)
              (js_array_get (answers r) 0) (js_array_get (answers r) 1)
              msgText f (db st)) as [d' ok] eqn:Hresult.
  cbn [fst snd] in *.
  destruct ok; simpl.
  - split; [apply lookup_delete_eq|]. split; [apply lookup_delete_eq|].
    exists r. split; [exact Hslot|]. rewrite Hresult. cbn [fst snd].
    split; [reflexivity|]. split; [now rewrite <- app_assoc|].
    split; [exact Hok|]. split; [exact Hdel | exact Hins].
  - split; [apply lookup_delete_eq|]. split; [apply lookup_delete_eq|].
    exists r. split; [exact Hslot|]. rewrite Hresult. cbn [fst snd].
    split; [reflexivity|]. split; [reflexivity|].
    split; [exact Hok|]. split; [exact Hdel | exact Hins].
Qed.

Lemma onMessage_completion_clears_witness :
  let st := session_at 2 [Some "Fixed the login bug"; None] in
  let st' := onMessage sample_world 0 monday_0900 1 1 "ana" (Some "None")
               NoFault st in
  userStates st' !! 1 = None ∧ standupResponses st' !! 1 = None.
Proof.
  destruct (onMessage_completion_clears sample_world 0 monday_0900 1 1 "ana"
              (Some "None") NoFault
              (session_at 2 [Some "Fixed the login bug"; None])
              eq_refl eq_refl eq_refl) as (Hs & Hr & _).
  split; [exact Hs | exact Hr].
Defined.

(** C8, at the failing input: the participant skips the last question and
    [db.addStandup] fails, at either of its statements. The [/skip] handler
    has already removed the session but, having no [catch], leaves the
    answer buffer in [standupResponses], where the free-text handler would
    have cleared it, and tells the participant nothing. *)
Theorem skip_completion_keeps_buffer_when_store_fails :
  let st := session_at 2 [Some "Fixed the login bug"; Some "Write docs"] in
  let stuck (st' : state) :=
    userStates st' !! 1 = None
    ∧ standupResponses st' !! 1
      = Some {| r_username := "ana";
                answers := [Some "Fixed the login bug"; Some "Write docs";
                            Some ""] |}
    ∧ standups (db st') = []
    ∧ outbox st' = [] in
  stuck (onSkip sample_world 0 0 1 1 "ana" DeleteFails st)
  ∧ stuck (onSkip sample_world 0 0 1 1 "ana" InsertFails st).
Proof. vm_compute. repeat split; reflexivity. Qed.

(** ** One live session per participant *)

(** X2: the [/standup] command refuses to start over an open session: it
    only says so, and the session is as it was. *)
Lemma onStandup_rejects_open_session
    (w : world) (userId chatId : Z) (st : state) (q : nat) :
  isChannelMember w userId = true →
  userStates st !! userId = Some q →
  onStandup w userId chatId st = sendMessage (Chat chatId) AlreadyOngoing st.
Proof.
  intros Hmem Hq. unfold onStandup, commandGuard. rewrite Hmem.
  destruct (decide (is_Some (userStates st !! userId))) as [_|Hn];
    [reflexivity|].
  exfalso. apply Hn. rewrite Hq. eauto.
Qed.

Lemma onStandup_rejects_open_session_witness :
  onStandup sample_world 1 1 (session_at 1 [Some "Fixed the login bug"])
  = sendMessage (Chat 1) AlreadyOngoing
      (session_at 1 [Some "Fixed the login bug"]).
Proof.
  exact (onStandup_rejects_open_session sample_world 1 1
           (session_at 1 [Some "Fixed the login bug"]) 1 eq_refl eq_refl).
Defined.

(** [startUserStandup], which the recurring job calls directly, tests
    nothing: once the chat is found, whatever session is there is
    overwritten. *)
Lemma chatFound_overwrites (w : world) (userId : Z) (st : state) :
  getChat w userId = true →
  userStates (chatFound w userId st) !! userId = Some 0%nat.
Proof.
  intros Hc. unfold chatFound. rewrite Hc. simpl.
  apply lookup_insert_eq.
Qed.

(** C3, at the failing input: participant 2 is answering question 1 of an
    open interview when the recurring 09:00 job fires on a Monday (host on
    UTC, zone 'Europe/Lisbon'). The job calls [startUserStandup] and
    [sendReminder] for the participant; as their calls to Telegram come
    back, the session is replaced by a fresh one at question 0 and the
    opening message, the reminder and the first question are sent. No
    session-already-open message is sent. *)
Theorem scheduled_trigger_resets_open_session :
  let st :=
    with_cron 0 9
      (set_standupResponses
         (insert 2 {| r_username := "rui"; answers := [Some "Reviewed PRs"] |})
         (set_userStates (insert 2 1%nat) (idle_state tokyo_db))) in
  let st' := tick sample_world 0 monday_0900 st in
  let st1 :=
    runTask sample_world 0 monday_0900 (StartChat 2)
      (set_tasks ([] ++ [Remind 2 false]) st') in
  let st2 :=
    runTask sample_world 0 monday_0900 (Remind 2 false)
      (set_tasks ([] ++ [AskFirst 2]) st1) in
  let st3 :=
    runTask sample_world 0 monday_0900 (AskFirst 2)
      (set_tasks ([] ++ []) st2) in
  userStates st !! 2 = Some 1%nat
  ∧ matchedAt sample_world 0 monday_0900 st = [2]
  ∧ tasks st' = [StartChat 2; Remind 2 false]
  ∧ userStates st' !! 2 = Some 1%nat
  ∧ rtc (step sample_world 0) st st3
  ∧ userStates st1 !! 2 = Some 0%nat
  ∧ userStates st3 !! 2 = Some 0%nat
  ∧ outbox st3 = [(Chat 2, Starting); (Chat 2, Reminder false);
                  (Chat 2, Question 0)]
  ∧ tasks st3 = [].
Proof.
  intros st st' st1 st2 st3.
  assert (Htasks : tasks st' = [StartChat 2; Remind 2 false])
    by (vm_compute; reflexivity).
  split; [vm_compute; reflexivity|].
  split; [vm_compute; reflexivity|].
  split; [exact Htasks|].
  split; [vm_compute; reflexivity|].
  split.
  - eapply rtc_l; [apply (step_tick sample_world 0 st monday_0900)|].
    eapply rtc_l;
      [apply (step_task sample_world 0 st' monday_0900 [] (StartChat 2)
                [Remind 2 false]); exact Htasks|].
    eapply rtc_l;
      [apply (step_task sample_world 0 st1 monday_0900 [] (Remind 2 false)
                [AskFirst 2]); vm_compute; reflexivity|].
    eapply rtc_l;
      [apply (step_task sample_world 0 st2 monday_0900 [] (AskFirst 2) []);
       vm_compute; reflexivity|].
    apply rtc_refl.
  - vm_compute. repeat split; reflexivity.
Qed.

(** ** The trigger clock *)

(** C1, at the failing input: trigger 09:00, host on Lisbon time (UTC in
    January), an active subscriber whose zone is 'America/New_York'. On
    Monday at 14:00 UTC her local time is 09:00, the trigger time, yet she is
    not matched: the recurring rule fires at the host's 09:00 only, and the
    scheduler does nothing at 14:00. At the host's 09:00 the rule fires, her
    local time is 04:00, and she is not matched either. *)
Theorem new_york_subscriber_not_matched_at_her_trigger_time :
  let st := with_cron 0 9 (idle_state new_york_db) in
  user_id <$> getActiveSubscribers 0 monday_1400 (db st) = [3]
  ∧ getStandupTime (db st) = (Some 9, Some 0)
  ∧ getDay 0 monday_1400 = 1
  ∧ toLocaleHM sample_zones "America/New_York" monday_1400 = Some (9, 0)
  ∧ matchedAt sample_world 0 monday_1400 st = []
  ∧ tick sample_world 0 monday_1400 st = st
  ∧ cronFires 0 0 9 monday_0900 = true
  ∧ toLocaleHM sample_zones "America/New_York" monday_0900 = Some (4, 0)
  ∧ matchedAt sample_world 0 monday_0900 st = [].
Proof. vm_compute. repeat split; reflexivity. Qed.

(** ** Expired vacations *)

(** C2, at the failing input: a subscriber whose vacation ended on 29
    December 2023 (day 19720) with the flag still set, no response and no
    reminder record on Monday 8 January 2024. [getActiveSubscribers] lists
    him and the 09:00 trigger matches him, but the late-reminder check, which
    reads the raw flag, sends him nothing and records nothing. *)
Theorem expired_vacation_gets_no_late_reminder :
  let st := with_cron 0 9 (idle_state expired_vacation_db) in
  user_id <$> getActiveSubscribers 0 monday_1300 (db st) = [5]
  ∧ matchedAt sample_world 0 monday_0900 st = [5]
  ∧ getTodayStandups 0 monday_1300 (db st) = []
  ∧ hasReceivedLateReminderToday 0 monday_1300 (db st) 5 = false
  ∧ outbox (lateReminderJob sample_world 0 monday_1300 st) = []
  ∧ late_reminders (db (lateReminderJob sample_world 0 monday_1300 st)) = [].
Proof. vm_compute. repeat split; reflexivity. Qed.

(** ** One response per participant per day *)

(** C5, at the failing input: on a host one hour east of UTC the same
    participant completes an interview at 23:10 and again at 23:40 of the
    same day. The rows are stamped in local time but the [DELETE] compares
    them with the day's bounds in UTC (22:59:59 at the latest), so the first
    row survives and the day holds two responses. *)
Theorem second_completion_late_evening_keeps_both :
  let first := addStandup 60 june_2310 1 "ana"
                 (Some "Tests") (Some "Docs") (Some "") NoFault tokyo_db in
  let second := addStandup 60 june_2340 1 "ana"
                  (Some "Tests") (Some "Release") (Some "None") NoFault
                  first.1 in
  date_now_localtime 60 june_2310 = 19877
  ∧ date_now_localtime 60 june_2340 = 19877
  ∧ first.2 = true ∧ second.2 = true
  ∧ (λ r, (s_user_id r, today r, submitted_at r / s_per_day))
      <$> standups second.1
    = [(1, Some "Docs", 19877); (1, Some "Release", 19877)].
Proof. vm_compute. repeat split; reflexivity. Qed.

(** ** Scheduling the late-reminder check *)

Lemma localMs_ofLocalMs (off c : Z) : localMs off (ofLocalMs off c) = c.
Proof. unfold localMs, ofLocalMs. lia. Qed.

(** The chain [setHours(hour); setMinutes(minute); setSeconds(0);
    setMilliseconds(0)] lands on today's [hour:minute:00.000]. *)
Lemma setters_land_on_hour_minute (off hour minute now : Z) :
  setMilliseconds off 0
    (setSeconds off 0 (setMinutes off minute (setHours off hour now)))
  = setHours4 off hour minute 0 0 now.
Proof.
  unfold setMilliseconds, setSeconds, setMinutes, setHours, setHours4.
  rewrite !localMs_ofLocalMs. f_equal.
  generalize (localMs off now). intros c.
  unfold ms_per_day, ms_per_hour, ms_per_minute, ms_per_second.
  Z.div_mod_to_equations. lia.
Qed.

Lemma setHours4_triggerInstant (off hour minute now : Z) :
  setHours4 off hour minute 0 0 now = triggerInstant off now hour minute.
Proof.
  unfold setHours4, triggerInstant, date_now_localtime, ofLocalMs,
    ms_per_second. lia.
Qed.

(** During the minute [hour:minute] the trigger instant is at most a minute
    old. *)
Lemma triggerInstant_recent (off now hour minute : Z) :
  getHours off now = hour → getMinutes off now = minute →
  triggerInstant off now hour minute ≤ now
  ∧ now < triggerInstant off now hour minute + ms_per_minute.
Proof.
  intros <- <-.
  unfold getHours, getMinutes, triggerInstant, date_now_localtime, ofLocalMs.
  assert (Hnow : now = localMs off now - off * ms_per_minute)
    by (unfold localMs; lia).
  revert Hnow. generalize (localMs off now). intros c ->.
  unfold ms_per_day, ms_per_hour, ms_per_minute.
  Z.div_mod_to_equations. lia.
Qed.

(** With late reminders enabled and a delay of at least an hour, a call
    during the minute [hour:minute] installs one check, at today's trigger
    instant plus the delay. *)
Lemma scheduleLateReminders_installs
    (off now hour minute hours : Z) (st : state) :
  getLateReminderSettings (db st) = (true, Some hours) →
  getHours off now = hour → getMinutes off now = minute →
  1 ≤ hours →
  scheduleLateReminders off now hour minute st
  = set_sched
      (scheduleJob
         (DateJob (triggerInstant off now hour minute + hours * ms_per_hour))
         (sched st)).1 st.
Proof.
  intros He Hh Hm Hhours. unfold scheduleLateReminders.
  rewrite He. cbn [negb fst snd].
  rewrite setters_land_on_hour_minute, setHours4_triggerInstant.
  destruct (triggerInstant_recent off now hour minute Hh Hm) as [_ Hlt].
  replace (hours * 60 * 60 * 1000) with (hours * ms_per_hour)
    by (unfold ms_per_hour; lia).
  destruct (decide (now < triggerInstant off now hour minute
                          + hours * ms_per_hour)) as [_|Hn].
  - reflexivity.
  - exfalso. apply Hn. unfold ms_per_hour, ms_per_minute in *. lia.
Qed.

(** C7: when the recurring job runs [scheduleLateReminders] at the trigger
    time [hour:minute] and late reminders are enabled (with a delay of at
    least one hour), exactly one check is installed, at today's trigger
    instant plus the configured number of hours; when they are disabled,
    nothing is installed and the state is unchanged. *)
Theorem late_check_at_trigger_plus_delay
    (off now hour minute : Z) (st : state) :
  let enabled := (getLateReminderSettings (db st)).1 in
  let st' := scheduleLateReminders off now hour minute st in
  (∀ hours,
     enabled = true →
     (getLateReminderSettings (db st)).2 = Some hours →
     getHours off now = hour → getMinutes off now = minute → 1 ≤ hours →
     live (sched st')
     = live (sched st)
       ++ [(next_handle (sched st),
            DateJob (triggerInstant off now hour minute + hours * ms_per_hour))])
  ∧ (enabled = false → st' = st).
Proof.
  intros enabled st'. subst st' enabled. split.
  - intros hours He Hhours Hh Hm Hpos.
    rewrite (scheduleLateReminders_installs off now hour minute hours)
      by (try assumption; now apply injective_projections).
    reflexivity.
  - intros He. unfold scheduleLateReminders. rewrite He. reflexivity.
Qed.

(** Trigger 09:00 and a delay of 4 hours: the check is installed for 13:00. *)
Lemma late_check_at_trigger_plus_delay_witness :
  live (sched (scheduleLateReminders 0 monday_0900 9 0
                 (with_cron 0 9 (idle_state tokyo_db))))
  = [(0%nat, CronJob 0 9); (1%nat, DateJob monday_1300)].
Proof.
  exact (proj1 (late_check_at_trigger_plus_delay 0 monday_0900 9 0
                  (with_cron 0 9 (idle_state tokyo_db)))
               4 eq_refl eq_refl eq_refl eq_refl
               ltac:(vm_compute; discriminate)).
Defined.

(** ** Reconfiguration by an administrator *)

Lemma recurring_after_cancel (st : state) (h : nat) :
  standupJob_owns_recurring st → standupJob st = Some h →
  recurring (cancelJob h (sched st)) = [].
Proof.
  intros Hown Hh. unfold recurring, cancelJob. simpl.
  apply elem_of_nil_inv. intros e He.
  apply list_elem_of_filter in He as [Hrec He].
  apply list_elem_of_filter in He as [Hne He].
  assert (Hin : e ∈ recurring (sched st))
    by (apply list_elem_of_filter; split; assumption).
  apply Hown in Hin. rewrite Hh in Hin. injection Hin as ->. now apply Hne.
Qed.

Lemma recurring_without_handle (st : state) :
  standupJob_owns_recurring st → standupJob st = None →
  recurring (sched st) = [].
Proof.
  intros Hown Hh. apply elem_of_nil_inv. intros e He.
  apply Hown in He. rewrite Hh in He. discriminate He.
Qed.

(** [scheduleStandups], up to its [await], leaves no recurring job live
    and one installation in flight, for the time stored at that moment. *)
Lemma scheduleStandups_cancels (st : state) :
  standupJob_owns_recurring st →
  let st' := scheduleStandups st in
  recurring (sched st') = []
  ∧ next_handle (sched st') = next_handle (sched st)
  ∧ tasks st' = tasks st ++ [InstallStandupJob (getStandupTime (db st))]
  ∧ db st' = db st
  ∧ standupJob st' = standupJob st.
Proof.
  intros Hown st'. subst st'. unfold scheduleStandups.
  destruct (standupJob st) as [h|] eqn:Hh; simpl.
  - split; [now apply recurring_after_cancel|]. repeat split; assumption.
  - split; [now apply recurring_without_handle|]. repeat split; assumption.
Qed.

Lemma valid_rule_in_range (hour minute : Z) :
  valid_rule (CronJob minute hour) = true ↔ 0 ≤ hour ≤ 23 ∧ 0 ≤ minute ≤ 59.
Proof.
  unfold valid_rule. rewrite !andb_true_iff, !Z.leb_le. lia.
Qed.

(** The rest of [scheduleStandups], for a time in range: one job more, and
    [global.standupJob] holds it. *)
Lemma installStandupJob_installs (hour minute : Z) (st : state) :
  0 ≤ hour ≤ 23 → 0 ≤ minute ≤ 59 →
  installStandupJob (Some hour, Some minute) st
  = set_standupJob (Some (next_handle (sched st)))
      (set_sched
         {| live := live (sched st)
                    ++ [(next_handle (sched st), CronJob minute hour)];
            next_handle := S (next_handle (sched st)) |} st).
Proof.
  intros Hh Hm. unfold installStandupJob, scheduleJob.
  rewrite (proj2 (valid_rule_in_range hour minute)) by (split; assumption).
  reflexivity.
Qed.

(** A time in range that [/set_time] has stored is the time read back. *)
Lemma getStandupTime_after_set (hour minute : Z) (d : database) :
  0 ≤ hour ≤ 23 → 0 ≤ minute ≤ 59 →
  is_Some (standup_hour (settings_tbl d)) →
  is_Some (standup_minute (settings_tbl d)) →
  getStandupTime (setStandupTime hour minute d) = (Some hour, Some minute).
Proof.
  intros Hh Hm [h0 Hh0] [m0 Hm0]. unfold getStandupTime, setStandupTime.
  cbn [settings_tbl with_settings standup_hour standup_minute].
  rewrite Hh0, Hm0. cbn [fmap option_fmap option_map].
  rewrite !parseInt_stored
    by (change (10 ^ 21) with 1000000000000000000000; lia).
  reflexivity.
Qed.




(** ** The late-reminder debouncer *)

Lemma debounced_refl (off D u : Z) (st : state) : debounced off D u st st.
Proof. unfold debounced. lia. Qed.

Lemma debounced_trans (off D u : Z) (st1 st2 st3 : state) :
  debounced off D u st1 st2 → debounced off D u st2 st3 →
  debounced off D u st1 st3.
Proof. unfold debounced. lia. Qed.

(** A row stamped [CURRENT_TIMESTAMP] falls on the local day of [now]. *)
Lemma date_of_current_timestamp (off now : Z) :
  date_localtime off (current_timestamp now) = date_now_localtime off now.
Proof.
  unfold date_localtime, current_timestamp, date_now_localtime, localMs,
    s_per_day, ms_per_second, ms_per_day, ms_per_minute.
  Z.div_mod_to_equations. lia.
Qed.

Lemma hasReceived_false_no_rows (off now : Z) (d : database) (u : Z) :
  hasReceivedLateReminderToday off now d u = false →
  reminders_on off (date_now_localtime off now) d u = 0%nat.
Proof.
  unfold hasReceivedLateReminderToday, reminders_on. intros H.
  apply bool_decide_eq_false in H. lia.
Qed.

Lemma reminders_on_record (off now : Z) (d : database) (id u : Z) :
  reminders_on off (date_now_localtime off now) (recordLateReminder now id d) u
  = (reminders_on off (date_now_localtime off now) d u
     + if decide (id = u) then 1 else 0)%nat.
Proof.
  unfold reminders_on, recordLateReminder. simpl.
  rewrite filter_app, length_app. f_equal.
  rewrite filter_cons, filter_nil. simpl.
  rewrite date_of_current_timestamp.
  destruct (decide (id = u)) as [->|Hne].
  - rewrite decide_True by (split; reflexivity). reflexivity.
  - rewrite decide_False by (intros [? _]; contradiction). reflexivity.
Qed.

Lemma reminders_on_cleanup (off now : Z) (d : database) (u : Z) :
  reminders_on off (date_now_localtime off now)
    (cleanupOldLateReminders off now d) u
  = reminders_on off (date_now_localtime off now) d u.
Proof.
  unfold reminders_on, cleanupOldLateReminders. simpl. f_equal.
  induction (late_reminders d) as [|r l IH]; [reflexivity|].
  rewrite (filter_cons _ r l). 
  destruct (decide (¬ date_localtime off (sent_at r) < date_now_localtime off now))
    as [Hk|Hdel].
  - rewrite !filter_cons.
    destruct (decide (lr_user_id r = u
                      ∧ date_localtime off (sent_at r)
                        = date_now_localtime off now));
      [f_equal|]; exact IH.
  - rewrite filter_cons.
    rewrite decide_False by (intros [_ Heq]; apply Hdel; lia).
    exact IH.
Qed.

Lemma late_reminders_sent_sendReminder (w : world) (id u : Z) (st : state) :
  (late_reminders_sent (sendReminder w id true st) u
   ≤ late_reminders_sent st u + if decide (id = u) then 1 else 0)%nat.
Proof.
  unfold sendReminder, late_reminders_sent.
  destruct (getChat w id); [|lia]. simpl.
  rewrite filter_app, length_app, filter_cons, filter_nil. simpl.
  destruct (decide (id = u)) as [->|Hne].
  - destruct (decide (u =? u)); simpl; lia.
  - rewrite decide_False; [simpl; lia|].
    intros H. apply Is_true_true in H. lia.
Qed.

Lemma lateReminderStep_debounced
    (w : world) (off now u : Z) (st : state) (user : status) :
  debounced off (date_now_localtime off now) u st
    (lateReminderStep w off now st user).
Proof.
  unfold lateReminderStep.
  destruct (getSubscriberByUsername (db st) (st_username user)) as [sub|];
    [|apply debounced_refl].
  destruct (hasReceivedLateReminderToday off now (db st) (user_id sub))
    eqn:Hrec; [apply debounced_refl|].
  apply hasReceived_false_no_rows in Hrec.
  pose proof (late_reminders_sent_sendReminder w (user_id sub) u st) as Hsent.
  pose proof (reminders_on_record off now (db st) (user_id sub) u) as Hrow.
  assert (Hdb : db (set_db (recordLateReminder now (user_id sub))
                      (sendReminder w (user_id sub) true st))
                = recordLateReminder now (user_id sub) (db st))
    by (unfold sendReminder; destruct (getChat w (user_id sub)); reflexivity).
  assert (Hout : late_reminders_sent
                   (set_db (recordLateReminder now (user_id sub))
                      (sendReminder w (user_id sub) true st)) u
                 = late_reminders_sent (sendReminder w (user_id sub) true st) u)
    by reflexivity.
  unfold debounced. rewrite Hdb, Hout, Hrow.
  destruct (decide (user_id sub = u)) as [Heq|Hne].
  - rewrite Heq in Hrec. lia.
  - lia.
Qed.

Lemma lateReminderLoop_debounced
    (w : world) (off now u : Z) (missing : list status) (st : state) :
  debounced off (date_now_localtime off now) u st
    (foldl (lateReminderStep w off now) st missing).
Proof.
  revert st. induction missing as [|user rest IH]; intros st; simpl.
  - apply debounced_refl.
  - eapply debounced_trans; [apply lateReminderStep_debounced | apply IH].
Qed.

Lemma lateReminderJob_debounced (w : world) (off now u : Z) (st : state) :
  debounced off (date_now_localtime off now) u st (lateReminderJob w off now st).
Proof.
  unfold lateReminderJob.
  eapply debounced_trans; [|apply lateReminderLoop_debounced].
  unfold debounced.
  change (db (set_db (cleanupOldLateReminders off now) st))
    with (cleanupOldLateReminders off now (db st)).
  rewrite reminders_on_cleanup.
  change (late_reminders_sent (set_db (cleanupOldLateReminders off now) st) u)
    with (late_reminders_sent st u).
  lia.
Qed.

(** Two checks in a row, each left to itself, on the sample data: the first
    run reminds both subscribers and the second run reminds nobody. *)
Example late_reminder_runs_twice :
  let st1 := lateReminderJob sample_world 0 monday_1300 (idle_state tokyo_db) in
  let st2 := lateReminderJob sample_world 0 monday_1400 st1 in
  outbox st1 = [(Chat 1, Reminder true); (Chat 2, Reminder true)]
  ∧ outbox st2 = outbox st1
  ∧ lr_user_id <$> late_reminders (db st2) = [1; 2].
Proof. vm_compute. repeat split; reflexivity. Qed.

(** ** The recurring job, in general *)

Lemma elem_of_insert_by_username (x y : subscription) (l : list subscription) :
  y ∈ insert_by_username x l ↔ y = x ∨ y ∈ l.
Proof.
  induction l as [|z l IH]; simpl.
  - rewrite list_elem_of_singleton, elem_of_nil. tauto.
  - destruct (String.leb (username x) (username z)).
    + rewrite elem_of_cons. tauto.
    + rewrite !elem_of_cons, IH. tauto.
Qed.

Lemma elem_of_order_by_username (y : subscription) (l : list subscription) :
  y ∈ order_by_username l ↔ y ∈ l.
Proof.
  unfold order_by_username. induction l as [|x l IH]; simpl.
  - reflexivity.
  - rewrite elem_of_insert_by_username, elem_of_cons, IH. tauto.
Qed.

Lemma set_tasks_same (st : state) : set_tasks (tasks st) st = st.
Proof. now destruct st. Qed.

(** The loop calls [startUserStandup] and [sendReminder] for exactly the
    subscribers [matchingSubscribers] lists, in order, and does nothing
    else. *)
Lemma standupLoop_matching
    (w : world) (now hour minute : Z) (subscribers : list subscription)
    (st : state) :
  standupLoop w now hour minute subscribers st
  = set_tasks
      (tasks st
       ++ loop_calls (matchingSubscribers w now hour minute subscribers)) st.
Proof.
  revert st. induction subscribers as [|x l IH]; intros st; simpl.
  - unfold loop_calls. simpl. rewrite app_nil_r. symmetry.
    apply set_tasks_same.
  - destruct (toLocaleHM (zones w) (js_or (timezone x) "Europe/Lisbon") now)
      as [[userHour userMinute]|].
    + rewrite IH. unfold loop_calls. rewrite flat_map_app.
      destruct (decide (userHour = hour ∧ userMinute = minute)); simpl.
      * unfold startUserStandup, spawn, set_tasks. simpl.
        rewrite <- !app_assoc. reflexivity.
      * reflexivity.
    + unfold loop_calls. simpl. rewrite app_nil_r. symmetry.
      apply set_tasks_same.
Qed.

Lemma starting_loop_calls (ids : list Z) : starting (loop_calls ids) = ids.
Proof.
  unfold starting, loop_calls. induction ids as [|id l IH]; simpl;
    [reflexivity | f_equal; exact IH].
Qed.

(** When [Intl] knows every subscriber's zone, the listed subscribers are
    those whose local hour and minute equal the trigger's. *)
Lemma matchingSubscribers_iff
    (w : world) (now hour minute : Z) (subscribers : list subscription)
    (uid : Z) :
  Forall (λ s, is_Some (zones w (js_or (timezone s) "Europe/Lisbon") now))
         subscribers →
  uid ∈ matchingSubscribers w now hour minute subscribers
  ↔ ∃ s, s ∈ subscribers ∧ user_id s = uid
         ∧ toLocaleHM (zones w) (js_or (timezone s) "Europe/Lisbon") now
           = Some (hour, minute).
Proof.
  induction subscribers as [|x l IH]; intros Hz; simpl.
  - rewrite elem_of_nil. split; [tauto|]. intros (s & Hs & _).
    now apply elem_of_nil in Hs.
  - apply Forall_cons in Hz as [[o Ho] Hz]. specialize (IH Hz).
    unfold toLocaleHM at 1. rewrite Ho.
    rewrite elem_of_app, IH. split.
    + intros [Hx | (s & Hs & Hid & Hm)].
      * destruct (decide (getHours o now = hour ∧ getMinutes o now = minute))
          as [[Hh Hm]|]; [|now apply elem_of_nil in Hx].
        apply list_elem_of_singleton in Hx as ->. exists x.
        split; [left|]. split; [reflexivity|].
        unfold toLocaleHM. rewrite Ho, Hh, Hm. reflexivity.
      * exists s. split; [now right|]. split; assumption.
    + intros (s & Hs & Hid & Hm). apply elem_of_cons in Hs as [->|Hs].
      * left. unfold toLocaleHM in Hm. rewrite Ho in Hm.
        injection Hm as Hh Hm.
        rewrite decide_True by (split; assumption).
        rewrite Hid. left.
      * right. exists s. split; [assumption|]. split; assumption.
Qed.

Lemma scheduleLateReminders_keeps
    (off now hour minute : Z) (st : state) :
  let st' := scheduleLateReminders off now hour minute st in
  tasks st' = tasks st ∧ db st' = db st
  ∧ userStates st' = userStates st
  ∧ standupResponses st' = standupResponses st
  ∧ outbox st' = outbox st ∧ standupJob st' = standupJob st.
Proof.
  unfold scheduleLateReminders.
  destruct (negb (getLateReminderSettings (db st)).1); [now repeat split|].
  destruct (getLateReminderSettings (db st)).2; [|now repeat split].
  case_decide; now repeat split.
Qed.

(** With one recurring job live, the tick at an instant matches those the
    loop's test selects among the active subscribers, if the rule fires. *)
Lemma matchedAt_one_job
    (w : world) (off now hour minute : Z) (k : nat) (st : state) :
  live (sched st) = [(k, CronJob minute hour)] →
  matchedAt w off now st
  = if cronFires off minute hour now then
      matchingSubscribers w now hour minute
        (getActiveSubscribers off now (db st))
    else [].
Proof.
  intros Hlive. unfold matchedAt, tick. rewrite Hlive.
  set (st0 := if cleanupFires off now then weeklyCleanup now st else st).
  assert (Htasks0 : tasks st0 = tasks st)
    by (subst st0; now destruct (cleanupFires off now)).
  assert (Hsubs0 : getActiveSubscribers off now (db st0)
                   = getActiveSubscribers off now (db st))
    by (subst st0; now destruct (cleanupFires off now)).
  rewrite filter_cons, filter_nil. cbn [snd due].
  destruct (cronFires off minute hour now) eqn:Hfires.
  - rewrite decide_True by exact I. cbn [foldl runJob snd].
    unfold standupJobFire. rewrite standupLoop_matching. cbn [tasks set_tasks].
    destruct (scheduleLateReminders_keeps off now hour minute st0)
      as (-> & _).
    rewrite Htasks0, drop_app_length, starting_loop_calls, Hsubs0.
    reflexivity.
  - rewrite decide_False by (intros H; exact H). cbn [foldl].
    rewrite Htasks0, drop_all. reflexivity.
Qed.

(** X3: with the one recurring job installed, a participant is matched at an
    instant (the jobs that fire then call [startUserStandup] for the
    participant) exactly when the rule fires then, on the host's clock, and
    the participant is an active subscriber whose local time is the
    trigger's. *)
Lemma matchedAt_iff
    (w : world) (off now hour minute : Z) (k : nat) (st : state) (uid : Z) :
  live (sched st) = [(k, CronJob minute hour)] →
  Forall (λ s, is_Some (zones w (js_or (timezone s) "Europe/Lisbon") now))
         (subscriptions (db st)) →
  (uid ∈ matchedAt w off now st
   ↔ cronFires off minute hour now = true
     ∧ ∃ s, s ∈ subscriptions (db st) ∧ active_row off now s = true
            ∧ user_id s = uid
            ∧ toLocaleHM (zones w) (js_or (timezone s) "Europe/Lisbon") now
              = Some (hour, minute))
  ∧ tasks (tick w off now st)
    = tasks st ++ loop_calls (matchedAt w off now st).
Proof.
  intros Hlive Hz. split.
  - rewrite (matchedAt_one_job w off now hour minute k st Hlive).
    destruct (cronFires off minute hour now).
    + rewrite matchingSubscribers_iff.
      * split.
        -- intros (s & Hs & Hid & Hm). split; [reflexivity|]. exists s.
           unfold getActiveSubscribers in Hs.
           apply elem_of_order_by_username, list_elem_of_filter in Hs
             as [Hact Hs].
           apply Is_true_true in Hact. repeat split; assumption.
        -- intros (_ & s & Hs & Hact & Hid & Hm). exists s.
           split; [|split; assumption].
           apply elem_of_order_by_username, list_elem_of_filter.
           split; [now apply Is_true_true | assumption].
      * apply Forall_forall. intros s Hs.
        apply elem_of_order_by_username, list_elem_of_filter in Hs as [_ Hs].
        rewrite Forall_forall in Hz. now apply Hz.
    + rewrite elem_of_nil. split; [tauto|]. intros [Hf _]. discriminate Hf.
  - rewrite (matchedAt_one_job w off now hour minute k st Hlive).
    unfold tick. rewrite Hlive.
    set (st0 := if cleanupFires off now then weeklyCleanup now st else st).
    assert (Htasks0 : tasks st0 = tasks st)
      by (subst st0; now destruct (cleanupFires off now)).
    assert (Hsubs0 : getActiveSubscribers off now (db st0)
                     = getActiveSubscribers off now (db st))
      by (subst st0; now destruct (cleanupFires off now)).
    rewrite filter_cons, filter_nil. cbn [snd due].
    destruct (cronFires off minute hour now) eqn:Hfires.
    + rewrite decide_True by exact I. cbn [foldl runJob snd].
      unfold standupJobFire. rewrite standupLoop_matching.
      cbn [tasks set_tasks].
      destruct (scheduleLateReminders_keeps off now hour minute st0)
        as (-> & _).
      now rewrite Htasks0, Hsubs0.
    + rewrite decide_False by (intros H; exact H). cbn [foldl].
      unfold loop_calls. simpl. now rewrite Htasks0, app_nil_r.
Qed.

Lemma matchedAt_iff_witness :
  2 ∈ matchedAt sample_world 0 monday_0900 (with_cron 0 9 (idle_state tokyo_db)).
Proof.
  apply (proj1 (matchedAt_iff sample_world 0 monday_0900 9 0 0%nat
                  (with_cron 0 9 (idle_state tokyo_db)) 2
                  eq_refl ltac:(repeat constructor; vm_compute; eauto))).
  - split; [vm_compute; reflexivity|].
    exists {| user_id := 2; username := "rui"; timezone := None;
              is_on_vacation := 0; vacation_until := None |}.
    split; [right; left|]. repeat split; vm_compute; reflexivity.
Defined.

(** ** Resubmission on a host that runs on UTC *)

(** On a host with offset 0 the bounds of the [DELETE] are those of the day:
    a stored second lies between them exactly when it falls on today. *)
Lemma utc_day_bounds (now x : Z) :
  datetime_of_iso (setHours4 0 0 0 0 0 now) ≤ x
  ∧ x ≤ datetime_of_iso (setHours4 0 23 59 59 999 now)
  ↔ x / s_per_day = now / ms_per_day.
Proof.
  unfold datetime_of_iso, setHours4, ofLocalMs, localMs, s_per_day,
    ms_per_day, ms_per_hour, ms_per_minute, ms_per_second.
  Z.div_mod_to_equations. lia.
Qed.

(** X4: there, a call that resolves supersedes whatever the participant
    had stored for today: the day then holds one response of the
    participant, the new one. A call rejected at its [INSERT] (by the
    database, or because the first or the second answer is missing and the
    column is [NOT NULL]) leaves the participant with no response for the
    day, the earlier one included; a call rejected at its [DELETE] changes
    nothing. *)
Lemma addStandup_supersedes_on_utc_host
    (now uid : Z) (name : string) (y t b : option string) (f : fault)
    (d : database) :
  let result := addStandup 0 now uid name y t b f d in
  let todays (d' : database) :=
    filter (λ r, s_user_id r = uid
                 ∧ submitted_at r / s_per_day = now / ms_per_day)
      (standups d') in
  (result.2 = true ↔ f = NoFault ∧ is_Some y ∧ is_Some t)
  ∧ (result.2 = true →
       todays result.1
       = [ {| s_user_id := uid; s_username := name;
              yesterday := y; today := t; blockers := b;
              submitted_at := datetime_now_localtime 0 now |} ])
  ∧ (result.2 = false → f ≠ DeleteFails → todays result.1 = [])
  ∧ (f = DeleteFails → result.1 = d).
Proof.
  intros result todays.
  destruct (addStandup_outcome 0 now uid name y t b f d)
    as (Hok & Hrow & Hdel & Hins).
  fold result in Hok, Hrow, Hdel, Hins.
  assert (Hgone : todays (deleteTodayStandups 0 now uid d) = []).
  { subst todays. unfold deleteTodayStandups. cbn [standups with_standups].
    rewrite list_filter_filter. apply elem_of_nil_inv. intros r Hr.
    apply list_elem_of_filter in Hr as [[[Hu Hday] Hkeep] _].
    apply Hkeep. split; [exact Hu|]. now apply utc_day_bounds. }
  split; [exact Hok|]. split; [|split; [|exact Hdel]].
  - intros Hres. rewrite (Hrow Hres). subst todays.
    cbn [standups with_standups]. cbn beta in Hgone.
    rewrite filter_app, Hgone.
    rewrite filter_cons, filter_nil. cbn [s_user_id submitted_at].
    rewrite decide_True; [reflexivity|]. split; [reflexivity|].
    unfold datetime_now_localtime, localMs, s_per_day, ms_per_day,
      ms_per_minute, ms_per_second.
    Z.div_mod_to_equations. lia.
  - intros Hres Hf. rewrite (Hins Hf Hres). exact Hgone.
Qed.

(** * The rest of the store *)

(** ** Subscribing and unsubscribing *)

Lemma elem_of_insert_row (x y : subscription) (l : list subscription) :
  y ∈ insert_row x l ↔ y = x ∨ y ∈ l.
Proof.
  induction l as [|z l IH]; simpl.
  - rewrite list_elem_of_singleton, elem_of_nil. tauto.
  - destruct (user_id x <? user_id z).
    + rewrite elem_of_cons. tauto.
    + rewrite !elem_of_cons, IH. tauto.
Qed.

Lemma insert_row_perm (x : subscription) (l : list subscription) :
  insert_row x l ≡ₚ x :: l.
Proof.
  induction l as [|z l IH]; simpl; [reflexivity|].
  destruct (user_id x <? user_id z); [reflexivity|].
  rewrite IH. apply Permutation_swap.
Qed.

Lemma filter_insert_row_skip (P : subscription → Prop)
    `{∀ r, Decision (P r)} (x : subscription) (l : list subscription) :
  ¬ P x → filter P (insert_row x l) = filter P l.
Proof.
  intros Hx. induction l as [|z l IH]; simpl.
  - rewrite filter_cons, decide_False by assumption. reflexivity.
  - destruct (user_id x <? user_id z).
    + rewrite (filter_cons _ x), decide_False by assumption. reflexivity.
    + rewrite !(filter_cons _ z), IH. reflexivity.
Qed.

Lemma filter_insert_row_only (P : subscription → Prop)
    `{∀ r, Decision (P r)} (x : subscription) (l : list subscription) :
  P x → (∀ y, y ∈ l → ¬ P y) → filter P (insert_row x l) = [x].
Proof.
  intros Hx Hl.
  assert (Hnil : filter P l = []).
  { apply elem_of_nil_inv. intros y Hy.
    apply list_elem_of_filter in Hy as [Hp Hy]. now apply (Hl y). }
  induction l as [|z l IH]; simpl.
  - rewrite filter_cons, decide_True by assumption. reflexivity.
  - destruct (user_id x <? user_id z).
    + rewrite (filter_cons _ x), decide_True, Hnil by assumption. reflexivity.
    + rewrite (filter_cons _ z), decide_False by (apply Hl; left).
      apply IH.
      * intros y Hy. apply Hl. now right.
      * rewrite filter_cons, decide_False in Hnil by (apply Hl; left).
        exact Hnil.
Qed.

Lemma isSubscribed_true (d : database) (u : Z) :
  isSubscribed d u = true ↔ ∃ r, r ∈ subscriptions d ∧ user_id r = u.
Proof.
  unfold isSubscribed. rewrite bool_decide_eq_true. split.
  - intros Hlen.
    destruct (filter (λ r, user_id r = u) (subscriptions d)) as [|r l] eqn:E;
      [simpl in Hlen; lia|].
    assert (Hr : r ∈ filter (λ r, user_id r = u) (subscriptions d))
      by (rewrite E; left).
    apply list_elem_of_filter in Hr as [Hid Hr]. eauto.
  - intros (r & Hr & Hid).
    assert (Hin : r ∈ filter (λ r, user_id r = u) (subscriptions d))
      by (apply list_elem_of_filter; split; assumption).
    destruct (filter (λ r, user_id r = u) (subscriptions d));
      [now apply elem_of_nil in Hin | simpl; lia].
Qed.

Lemma isSubscribed_false (d : database) (u : Z) :
  isSubscribed d u = false ↔ ∀ r, r ∈ subscriptions d → user_id r ≠ u.
Proof.
  split.
  - intros Hf r Hr Hid.
    assert (Ht : isSubscribed d u = true) by (apply isSubscribed_true; eauto).
    congruence.
  - intros Hno. destruct (isSubscribed d u) eqn:E; [|reflexivity].
    apply isSubscribed_true in E as (r & Hr & Hid). now destruct (Hno r Hr).
Qed.

Lemma filter_other_key (u v : Z) (l : list subscription) :
  v ≠ u →
  filter (λ r, user_id r = v) (filter (λ r, user_id r ≠ u) l)
  = filter (λ r, user_id r = v) l.
Proof.
  intros Hne. rewrite list_filter_filter. apply list_filter_iff.
  intros r. split; [tauto|]. intros Hv. split; [exact Hv | congruence].
Qed.

(** X5: [addSubscriber] leaves the user subscribed with the default zone and
    no vacation, whatever the user's row held before; it keeps the keys of
    the table distinct and does not touch the rows of other users. *)
Theorem addSubscriber_fresh_row
    (off now u : Z) (name : string) (d : database) :
  NoDup (user_id <$> subscriptions d) →
  let d' := addSubscriber u name d in
  NoDup (user_id <$> subscriptions d')
  ∧ isSubscribed d' u = true
  ∧ subscription_row d' u
    = Some {| user_id := u; username := name;
              timezone := Some "Europe/Lisbon";
              is_on_vacation := 0; vacation_until := None |}
  ∧ getUserTimezone d' u = "Europe/Lisbon"
  ∧ u ∈ user_id <$> getActiveSubscribers off now d'
  ∧ ∀ v, v ≠ u → subscription_row d' v = subscription_row d v.
Proof.
  intros Hnd d'. subst d'.
  set (x := {| user_id := u; username := name;
               timezone := Some "Europe/Lisbon";
               is_on_vacation := 0; vacation_until := None |}).
  set (l := filter (λ r, user_id r ≠ u) (subscriptions d)).
  assert (Hl : ∀ y, y ∈ l → ¬ user_id y = u).
  { intros y Hy. now apply list_elem_of_filter in Hy as [Hy _]. }
  assert (Hrow : subscription_row (addSubscriber u name d) u = Some x).
  { unfold subscription_row, addSubscriber. simpl. fold x l.
    rewrite filter_insert_row_only; [reflexivity | reflexivity | exact Hl]. }
  split; [|split; [|split; [|split; [|split]]]].
  - unfold addSubscriber. simpl. fold x l.
    rewrite insert_row_perm. rewrite fmap_cons. apply NoDup_cons. split.
    + intros Hin. apply list_elem_of_fmap in Hin as (y & Hid & Hy).
      apply (Hl y Hy). simpl in Hid. congruence.
    + unfold l. clear -Hnd.
      induction (subscriptions d) as [|z l IH]; [constructor|].
      rewrite fmap_cons in Hnd. apply NoDup_cons in Hnd as [Hz Hnd].
      rewrite filter_cons. destruct (decide (user_id z ≠ u)); [|now apply IH].
      rewrite fmap_cons. apply NoDup_cons. split; [|now apply IH].
      intros Hin. apply Hz. apply list_elem_of_fmap in Hin as (y & Hid & Hy).
      apply list_elem_of_filter in Hy as [_ Hy].
      apply list_elem_of_fmap. eauto.
  - apply isSubscribed_true. exists x. split; [|reflexivity].
    unfold addSubscriber. simpl. apply elem_of_insert_row. now left.
  - exact Hrow.
  - unfold getUserTimezone. fold (subscription_row (addSubscriber u name d) u).
    rewrite Hrow. reflexivity.
  - apply list_elem_of_fmap. exists x. split; [reflexivity|].
    unfold getActiveSubscribers.
    apply elem_of_order_by_username, list_elem_of_filter. split.
    + reflexivity.
    + unfold addSubscriber. simpl. apply elem_of_insert_row. now left.
  - intros v Hv. unfold subscription_row, addSubscriber. simpl. fold x l.
    rewrite filter_insert_row_skip by (simpl; congruence).
    unfold l. now rewrite filter_other_key.
Qed.

Lemma addSubscriber_fresh_row_witness :
  getUserTimezone (addSubscriber 1 "ana" tokyo_db) 1 = "Europe/Lisbon"
  ∧ getUserTimezone tokyo_db 1 = "Asia/Tokyo".
Proof.
  assert (Hnd : NoDup (user_id <$> subscriptions tokyo_db)).
  { simpl. apply NoDup_cons. split; [|apply NoDup_singleton].
    intros H. apply list_elem_of_singleton in H. discriminate H. }
  destruct (addSubscriber_fresh_row 0 monday_0900 1 "ana" tokyo_db Hnd)
    as (_ & _ & _ & Hz & _).
  split; [exact Hz | reflexivity].
Defined.

Lemma with_subscriptions_same (d : database) :
  with_subscriptions d (subscriptions d) = d.
Proof. destruct d. reflexivity. Qed.

Lemma filter_absent_key (u : Z) (l : list subscription) :
  (∀ r, r ∈ l → user_id r ≠ u) → filter (λ r, user_id r ≠ u) l = l.
Proof.
  induction l as [|z l IH]; intros H; [reflexivity|].
  rewrite filter_cons, decide_True by (apply H; left).
  f_equal. apply IH. intros r Hr. apply H. now right.
Qed.

Lemma removeSubscriber_addSubscriber (u : Z) (name : string) (d : database) :
  isSubscribed d u = false → removeSubscriber u (addSubscriber u name d) = d.
Proof.
  intros Hno0. pose proof (proj1 (isSubscribed_false d u) Hno0) as Hno.
  unfold removeSubscriber, addSubscriber. simpl.
  rewrite filter_insert_row_skip by (simpl; tauto).
  rewrite !filter_absent_key by exact Hno.
  destruct d. reflexivity.
Qed.

(** X6: [removeSubscriber] leaves the user unsubscribed and the rows of the
    other users as they were; on a user who was not subscribed it changes
    nothing, and it undoes an [addSubscriber] of such a user exactly. *)
Theorem removeSubscriber_undoes_addSubscriber (u : Z) (d : database) :
  isSubscribed (removeSubscriber u d) u = false
  ∧ (∀ v, v ≠ u →
       subscription_row (removeSubscriber u d) v = subscription_row d v)
  ∧ (isSubscribed d u = false →
       removeSubscriber u d = d
       ∧ ∀ name, removeSubscriber u (addSubscriber u name d) = d).
Proof.
  split; [|split].
  - apply isSubscribed_false. intros r Hr. unfold removeSubscriber in Hr.
    simpl in Hr. now apply list_elem_of_filter in Hr as [Hne _].
  - intros v Hv. unfold subscription_row, removeSubscriber. simpl.
    now rewrite filter_other_key.
  - intros Hno0. pose proof (proj1 (isSubscribed_false d u) Hno0) as Hno.
    split.
    + unfold removeSubscriber. rewrite filter_absent_key by exact Hno.
      apply with_subscriptions_same.
    + intros name. now apply removeSubscriber_addSubscriber.
Qed.

(** ** Zones and vacations *)

Lemma subscription_row_update
    (u v : Z) (f : subscription → subscription) (d : database) :
  (∀ r, user_id (f r) = user_id r) →
  subscription_row (update_subscription u f d) v
  = (λ r, if decide (v = u) then f r else r) <$> subscription_row d v.
Proof.
  intros Hf. unfold subscription_row, update_subscription. simpl.
  induction (subscriptions d) as [|z l IH]; [reflexivity|].
  rewrite fmap_cons, !filter_cons.
  destruct (decide (user_id z = u)) as [Hz|Hz].
  - rewrite Hf. destruct (decide (user_id z = v)) as [Hv|Hv].
    + simpl. rewrite decide_True by congruence. reflexivity.
    + exact IH.
  - destruct (decide (user_id z = v)) as [Hv|Hv].
    + simpl. rewrite decide_False by congruence. reflexivity.
    + exact IH.
Qed.

Lemma update_rows_absent
    (u : Z) (f : subscription → subscription) (l : list subscription) :
  (∀ r, r ∈ l → user_id r ≠ u) →
  (λ r, if decide (user_id r = u) then f r else r) <$> l = l.
Proof.
  induction l as [|z l IH]; intros Hno; [reflexivity|].
  rewrite fmap_cons, decide_False by (apply Hno; left).
  f_equal. apply IH. intros r Hr. apply Hno. now right.
Qed.

Lemma update_subscription_absent
    (u : Z) (f : subscription → subscription) (d : database) :
  isSubscribed d u = false → update_subscription u f d = d.
Proof.
  intros Hno0. pose proof (proj1 (isSubscribed_false d u) Hno0) as Hno.
  unfold update_subscription. rewrite update_rows_absent by exact Hno.
  apply with_subscriptions_same.
Qed.

(** X7: after [setUserTimezone] with a zone that is not the empty text,
    [getUserTimezone] of a subscribed user returns that zone; for a user with
    no row the update changes nothing, so the query still returns the
    default; the zones of other users are as before. *)
Theorem setUserTimezone_then_get (u : Z) (zone : string) (d : database) :
  (isSubscribed d u = true → zone ≠ "" →
     getUserTimezone (setUserTimezone u zone d) u = zone)
  ∧ (isSubscribed d u = false →
       setUserTimezone u zone d = d
       ∧ getUserTimezone (setUserTimezone u zone d) u = "Europe/Lisbon")
  ∧ (∀ v, v ≠ u →
       getUserTimezone (setUserTimezone u zone d) v = getUserTimezone d v).
Proof.
  assert (Hrow : ∀ v, subscription_row (setUserTimezone u zone d) v
                 = (λ r, if decide (v = u)
                         then {| user_id := user_id r; username := username r;
                                 timezone := Some zone;
                                 is_on_vacation := is_on_vacation r;
                                 vacation_until := vacation_until r |}
                         else r) <$> subscription_row d v).
  { intros v. apply subscription_row_update. reflexivity. }
  split; [|split].
  - intros Hsub Hne. unfold getUserTimezone.
    fold (subscription_row (setUserTimezone u zone d) u). rewrite Hrow.
    apply isSubscribed_true in Hsub as (r & Hr & Hid).
    destruct (subscription_row d u) as [r0|] eqn:E.
    + simpl. rewrite decide_True by reflexivity. simpl.
      destruct (decide (zone = "")); congruence.
    + exfalso. unfold subscription_row in E.
      assert (Hin : r ∈ filter (λ r, user_id r = u) (subscriptions d))
        by (apply list_elem_of_filter; split; assumption).
      destruct (filter (λ r, user_id r = u) (subscriptions d));
        [now apply elem_of_nil in Hin | discriminate E].
  - intros Hno. split.
    + now apply update_subscription_absent.
    + unfold setUserTimezone. rewrite update_subscription_absent by exact Hno.
      unfold getUserTimezone. fold (subscription_row d u).
      rewrite subscription_row_None; [reflexivity|].
      now apply isSubscribed_false.
  - intros v Hv. unfold getUserTimezone.
    fold (subscription_row (setUserTimezone u zone d) v).
    fold (subscription_row d v). rewrite Hrow.
    destruct (subscription_row d v); simpl; [|reflexivity].
    rewrite decide_False by exact Hv. reflexivity.
Qed.

Lemma setUserTimezone_then_get_witness :
  getUserTimezone (setUserTimezone 2 "America/New_York" tokyo_db) 2
  = "America/New_York"
  ∧ setUserTimezone 9 "America/New_York" tokyo_db = tokyo_db.
Proof.
  destruct (setUserTimezone_then_get 2 "America/New_York" tokyo_db)
    as (Hset & _ & _).
  destruct (setUserTimezone_then_get 9 "America/New_York" tokyo_db)
    as (_ & Hno & _).
  split.
  - apply Hset; [reflexivity | discriminate].
  - apply Hno. reflexivity.
Defined.

Lemma active_ids (off now v : Z) (d : database) :
  v ∈ user_id <$> getActiveSubscribers off now d
  ↔ ∃ r, r ∈ subscriptions d ∧ user_id r = v ∧ active_row off now r = true.
Proof.
  rewrite list_elem_of_fmap. unfold getActiveSubscribers. split.
  - intros (r & Hid & Hr).
    apply elem_of_order_by_username, list_elem_of_filter in Hr as [Ha Hr].
    apply Is_true_true in Ha. eauto.
  - intros (r & Hr & Hid & Ha). exists r. split; [congruence|].
    apply elem_of_order_by_username, list_elem_of_filter.
    split; [now apply Is_true_true | exact Hr].
Qed.

Lemma elem_of_update_subscription
    (u : Z) (f : subscription → subscription) (d : database)
    (r' : subscription) :
  r' ∈ subscriptions (update_subscription u f d)
  ↔ ∃ r, r ∈ subscriptions d
         ∧ r' = if decide (user_id r = u) then f r else r.
Proof.
  unfold update_subscription. simpl. rewrite list_elem_of_fmap.
  split; intros (r & H1 & H2); exists r; tauto.
Qed.

Lemma active_after_setVacationMode (off now u e : Z) (d : database) :
  isSubscribed d u = true →
  u ∈ user_id <$> getActiveSubscribers off now (setVacationMode u e d)
  ↔ e < date_now_localtime off now.
Proof.
  intros Hsub. apply isSubscribed_true in Hsub as (r0 & Hr0 & Hid0).
  rewrite active_ids. split.
  - intros (r' & Hr' & Hid & Ha).
    apply elem_of_update_subscription in Hr' as (r & Hr & ->).
    destruct (decide (user_id r = u)) as [_|Hne]; [|contradiction].
    unfold active_row in Ha. simpl in Ha. now apply Z.ltb_lt in Ha.
  - intros He. eexists. split; [|split].
    + apply elem_of_update_subscription. exists r0. split; [exact Hr0|].
      rewrite decide_True by exact Hid0. reflexivity.
    + exact Hid0.
    + unfold active_row. simpl. now apply Z.ltb_lt.
Qed.

(** X8: the vacation window is inclusive. After [setVacationMode] with end
    date [e], a subscribed user is listed by [getActiveSubscribers] exactly
    from the day after [e] on; after [disableVacationMode] the user is listed
    again at once; whether other users are listed does not change. *)
Theorem vacation_window_inclusive (off now u e : Z) (d : database) :
  isSubscribed d u = true →
  (u ∈ user_id <$> getActiveSubscribers off now (setVacationMode u e d)
   ↔ e < date_now_localtime off now)
  ∧ u ∈ user_id <$> getActiveSubscribers off now
                      (disableVacationMode u (setVacationMode u e d))
  ∧ ∀ v, v ≠ u →
      (v ∈ user_id <$> getActiveSubscribers off now (setVacationMode u e d)
       ↔ v ∈ user_id <$> getActiveSubscribers off now d).
Proof.
  intros Hsub. split; [now apply active_after_setVacationMode|].
  apply isSubscribed_true in Hsub as (r0 & Hr0 & Hid0). split.
  - rewrite active_ids. eexists. split; [|split].
    + apply elem_of_update_subscription. eexists. split.
      * apply elem_of_update_subscription. exists r0. split; [exact Hr0|].
        rewrite decide_True by exact Hid0. reflexivity.
      * simpl. rewrite decide_True by exact Hid0. reflexivity.
    + exact Hid0.
    + reflexivity.
  - intros v Hv. rewrite !active_ids. split.
    + intros (r' & Hr' & Hid & Ha).
      apply elem_of_update_subscription in Hr' as (r & Hr & ->).
      destruct (decide (user_id r = u)) as [Hu|Hne].
      * simpl in Hid. congruence.
      * eauto.
    + intros (r & Hr & Hid & Ha). exists r. split; [|tauto].
      apply elem_of_update_subscription. exists r. split; [exact Hr|].
      rewrite decide_False by congruence. reflexivity.
Qed.

Lemma vacation_window_inclusive_witness :
  (2 ∈ user_id <$> getActiveSubscribers 0 monday_0900
                     (setVacationMode 2 19730 tokyo_db)
   ↔ 19730 < date_now_localtime 0 monday_0900)
  ∧ date_now_localtime 0 monday_0900 = 19730.
Proof.
  split; [|reflexivity].
  exact (proj1 (vacation_window_inclusive 0 monday_0900 2 19730 tokyo_db
                  eq_refl)).
Defined.

(** ** Settings *)

(** X9: once [initializeDatabase] has run, what is stored is what is read
    back, for the trigger time, the late-reminder flag and the delay, as
    long as the numbers are below [10 ^ 21] in absolute value: from there on
    [toString] writes the exponent notation and [parseInt] reads its first
    digit, so that [10 ^ 21] reads back as 1. Initialising keeps the trigger
    time and the delay that were read before, and doing it twice is doing
    it once. *)
Theorem settings_read_back_after_initialize
    (hour minute hours : Z) (enabled : bool) (d : database) :
  Z.abs hour < 10 ^ 21 → Z.abs minute < 10 ^ 21 → Z.abs hours < 10 ^ 21 →
  let d0 := initializeDatabase d in
  initializeDatabase d0 = d0
  ∧ getStandupTime d0 = getStandupTime d
  ∧ (getLateReminderSettings d0).2 = (getLateReminderSettings d).2
  ∧ getStandupTime (setStandupTime hour minute d0) = (Some hour, Some minute)
  ∧ getLateReminderSettings
      (setLateReminderHours hours (setLateReminderEnabled enabled d0))
    = (enabled, Some hours)
  ∧ getLateReminderSettings (setStandupTime hour minute d0)
    = getLateReminderSettings d0
  ∧ getStandupTime (setStandupTime (10 ^ 21) minute d0)
    = (Some 1, Some minute).
Proof.
  intros Hhour Hminute Hhours.
  destruct d as [subs sts lrs [h m e n]]. cbv zeta.
  split; [reflexivity|]. split; [destruct h, m; reflexivity|].
  split; [destruct n; reflexivity|].
  unfold getStandupTime, getLateReminderSettings, setStandupTime,
    setLateReminderHours, setLateReminderEnabled, initializeDatabase.
  cbn [settings_tbl with_settings standup_hour standup_minute
       late_reminder_enabled late_reminder_hours fmap option_fmap option_map].
  rewrite !parseInt_stored by assumption.
  split; [reflexivity|]. split; [now destruct enabled|].
  split; [reflexivity|].
  f_equal.
Qed.

Lemma settings_read_back_after_initialize_witness :
  getStandupTime (setStandupTime 10 30 (initializeDatabase tokyo_db))
  = (Some 10, Some 30).
Proof.
  exact (proj1 (proj2 (proj2 (proj2
           (settings_read_back_after_initialize 10 30 3 true tokyo_db
              ltac:(vm_compute; reflexivity) ltac:(vm_compute; reflexivity)
              ltac:(vm_compute; reflexivity)))))).
Defined.

(** X10: an [UPDATE] of a setting whose row is missing stores nothing: the
    reads keep answering the defaults (09:00, a delay of 4 hours) and the
    late reminders, which are on only for a stored ['1'], stay off. *)
Theorem settings_update_needs_row
    (hour minute hours : Z) (enabled : bool) (d : database) :
  settings_tbl d
  = {| standup_hour := None; standup_minute := None;
       late_reminder_enabled := None; late_reminder_hours := None |} →
  setStandupTime hour minute d = d
  ∧ setLateReminderEnabled enabled d = d
  ∧ setLateReminderHours hours d = d
  ∧ getStandupTime d = (Some 9, Some 0)
  ∧ getLateReminderSettings d = (false, Some 4).
Proof.
  destruct d as [subs sts lrs s]. simpl. intros ->.
  repeat split; reflexivity.
Qed.

Lemma settings_update_needs_row_witness :
  let d := with_settings tokyo_db
             {| standup_hour := None; standup_minute := None;
                late_reminder_enabled := None; late_reminder_hours := None |} in
  getStandupTime (setStandupTime 10 30 d) = (Some 9, Some 0)
  ∧ getLateReminderSettings (setLateReminderEnabled true d)
    = (false, Some 4).
Proof.
  destruct (settings_update_needs_row 10 30 6 true
              (with_settings tokyo_db
                 {| standup_hour := None; standup_minute := None;
                    late_reminder_enabled := None;
                    late_reminder_hours := None |}) eq_refl)
    as (Ht & He & _ & Hg & Hl).
  cbv zeta. rewrite Ht, He. split; [exact Hg | exact Hl].
Defined.

(** ** The weekly clean-up *)

(** X11: on a host whose zone is within a day of UTC, [cleanupOldStandups]
    keeps every response stamped in the last five days and deletes every
    response stamped eight or more days ago; it never touches the other
    tables. *)
Theorem cleanup_retention_window (off now t0 : Z) (r : standup) (d : database) :
  -1440 ≤ off ≤ 1440 →
  r ∈ standups d →
  submitted_at r = datetime_now_localtime off t0 →
  let d' := cleanupOldStandups now d in
  (now - 5 * ms_per_day ≤ t0 → r ∈ standups d')
  ∧ (t0 ≤ now - 8 * ms_per_day → r ∉ standups d')
  ∧ subscriptions d' = subscriptions d
  ∧ late_reminders d' = late_reminders d
  ∧ settings_tbl d' = settings_tbl d.
Proof.
  intros Hoff Hr Hs d'. subst d'. unfold cleanupOldStandups. simpl.
  split; [|split; [|repeat split]].
  - intros Hrecent. apply list_elem_of_filter. split; [|exact Hr].
    rewrite Hs. unfold datetime_now_localtime, localMs, s_per_day,
      ms_per_day, ms_per_minute, ms_per_second in *.
    Z.div_mod_to_equations. lia.
  - intros Hold Hin. apply list_elem_of_filter in Hin as [Hkeep _].
    apply Hkeep. rewrite Hs.
    unfold datetime_now_localtime, localMs, s_per_day,
      ms_per_day, ms_per_minute, ms_per_second in *.
    Z.div_mod_to_equations. lia.
Qed.

Lemma cleanup_retention_window_witness :
  let r := {| s_user_id := 1; s_username := "ana"; yesterday := Some "Tests";
              today := Some "Docs"; blockers := Some "";
              submitted_at := datetime_now_localtime 60 june_2310 |} in
  r ∈ standups (cleanupOldStandups (june_2310 + 5 * ms_per_day)
                  (with_standups tokyo_db [r]))
  ∧ r ∉ standups (cleanupOldStandups (june_2310 + 8 * ms_per_day)
                    (with_standups tokyo_db [r])).
Proof.
  set (r := {| s_user_id := 1; s_username := "ana"; yesterday := Some "Tests";
               today := Some "Docs"; blockers := Some "";
               submitted_at := datetime_now_localtime 60 june_2310 |}).
  assert (Hoff : -1440 ≤ 60 ≤ 1440) by lia.
  assert (Hin : r ∈ standups (with_standups tokyo_db [r])) by (simpl; left).
  split.
  - apply (cleanup_retention_window 60 (june_2310 + 5 * ms_per_day) june_2310
             r (with_standups tokyo_db [r]) Hoff Hin eq_refl).
    lia.
  - apply (cleanup_retention_window 60 (june_2310 + 8 * ms_per_day) june_2310
             r (with_standups tokyo_db [r]) Hoff Hin eq_refl).
    lia.
Defined.

(** * The rest of the bot *)

(** ** A whole interview *)

Lemma react_advances
    (w : world) (off now u c : Z) (name : string) (f : fault) (e : reply)
    (st : state) (q : nat) :
  isChannelMember w u = true → plain e →
  userStates st !! u = Some q → (q < 2)%nat →
  (e = SkipIt → q = 0%nat) →
  let st' := react w off now u c name f e st in
  let r0 := default {| r_username := name;
                       answers := match e with
                                  | Answer _ => []
                                  | SkipIt => [Some ""; Some ""; Some ""]
                                  end |}
                    (standupResponses st !! u) in
  userStates st' = <[u := S q]> (userStates st)
  ∧ standupResponses st'
    = <[u := {| r_username := r_username r0;
                answers := js_array_set (answers r0) q (slot_of e) |}]>
        (standupResponses st)
  ∧ db st' = db st ∧ sched st' = sched st ∧ standupJob st' = standupJob st
  ∧ outbox st' = outbox st ++ [(Chat c, Question (S q))].
Proof.
  intros Hmem Hplain Hq Hlt Hskip. destruct e as [t|]; simpl in *.
  - unfold onMessage. rewrite Hplain, Hmem, Hq. simpl.
    destruct (decide (q < 2)%nat) as [_|Hn]; [|lia].
    repeat split; reflexivity.
  - specialize (Hskip eq_refl). subst q.
    unfold onSkip, commandGuard. rewrite Hmem, Hq. simpl.
    repeat split; reflexivity.
Qed.

Lemma react_completes
    (w : world) (off now u c : Z) (name : string) (f : fault) (e : reply)
    (st : state) :
  isChannelMember w u = true → plain e →
  userStates st !! u = Some 2%nat →
  let st' := react w off now u c name f e st in
  let r0 := default {| r_username := name;
                       answers := match e with
                                  | Answer _ => []
                                  | SkipIt => [Some ""; Some ""; Some ""]
                                  end |}
                    (standupResponses st !! u) in
  let r := {| r_username := r_username r0;
              answers := js_array_set (answers r0) 2 (slot_of e) |} in
  let result :=
    addStandup off now u (r_username r)
      (js_array_get (answers r) 0) (js_array_get (answers r) 1)
      (js_array_get (answers r) 2) f (db st) in
  userStates st' = delete u (userStates st)
  ∧ db st' = result.1
  ∧ sched st' = sched st ∧ standupJob st' = standupJob st
  ∧ (result.2 = true →
       standupResponses st' = delete u (<[u := r]> (standupResponses st))
       ∧ outbox st' = outbox st ++ [(Channel, Summary r); (Chat c, Thanks)])
  ∧ (result.2 = false →
       match e with
       | Answer _ =>
           standupResponses st' = delete u (<[u := r]> (standupResponses st))
           ∧ outbox st' = outbox st ++ [(Chat c, ErrorProcessing)]
       | SkipIt =>
           standupResponses st' = <[u := r]> (standupResponses st)
           ∧ outbox st' = outbox st
       end).
Proof.
  intros Hmem Hplain Hq. destruct e as [t|]; simpl in *.
  - unfold onMessage. rewrite Hplain, Hmem, Hq. simpl. unfold submit.
    cbn [db set_userStates set_standupResponses].
    destruct (addStandup _ _ _ _ _ _ _ _ _) as [d' [|]]; simpl.
    + do 4 (split; [reflexivity|]). split; [|discriminate].
      intros _. split; [reflexivity | now rewrite <- app_assoc].
    + split; [apply delete_delete_eq|]. do 3 (split; [reflexivity|]).
      split; [discriminate|]. intros _. split; reflexivity.
  - unfold onSkip, commandGuard. rewrite Hmem, Hq. simpl. unfold submit.
    cbn [db set_userStates set_standupResponses].
    destruct (addStandup _ _ _ _ _ _ _ _ _) as [d' [|]]; simpl.
    + do 4 (split; [reflexivity|]). split; [|discriminate].
      intros _. split; [reflexivity | now rewrite <- app_assoc].
    + do 4 (split; [reflexivity|]).
      split; [discriminate|]. intros _. split; reflexivity.
Qed.

(** X12: a whole interview. A channel member whose session is at the first
    question and who has no answers buffered replies three times: with a
    message or [/skip] to the first question, a message to the second, a
    message or [/skip] to the third. Then the session is gone and the store
    is as [addStandup] leaves it for exactly these three answers (the empty
    text for a skipped one) under the name of the first reply. When that
    call resolves (no fault of the database, the first two answers were
    texts) the buffer is as it was and the bot has asked questions 1 and 2,
    posted the summary and thanked the participant, in that order. When it
    rejects, an answer as third reply gets the error message and the buffer
    is dropped; a [/skip] as third reply gets nothing and leaves the three
    answers in the buffer. *)
Theorem interview_stores_the_three_answers
    (w : world) (off n0 n1 n2 u c : Z) (name0 name1 name2 : string)
    (f0 f1 f2 : fault) (e0 : reply) (t1 : option string) (e2 : reply)
    (st : state) :
  isChannelMember w u = true →
  userStates st !! u = Some 0%nat →
  standupResponses st !! u = None →
  plain e0 → startsWithSlash t1 = false → plain e2 →
  let st3 :=
    react w off n2 u c name2 f2 e2
      (react w off n1 u c name1 f1 (Answer t1)
         (react w off n0 u c name0 f0 e0 st)) in
  let r := {| r_username := name0; answers := [slot_of e0; t1; slot_of e2] |} in
  let result :=
    addStandup off n2 u name0 (slot_of e0) t1 (slot_of e2) f2 (db st) in
  userStates st3 = delete u (userStates st)
  ∧ db st3 = result.1
  ∧ sched st3 = sched st
  ∧ (result.2 = true ↔ f2 = NoFault ∧ is_Some (slot_of e0) ∧ is_Some t1)
  ∧ (result.2 = true →
       standupResponses st3 = standupResponses st
       ∧ outbox st3
         = outbox st ++ [(Chat c, Question 1); (Chat c, Question 2);
                         (Channel, Summary r); (Chat c, Thanks)])
  ∧ (result.2 = false →
       standupResponses st3
       = match e2 with
         | Answer _ => standupResponses st
         | SkipIt => <[u := r]> (standupResponses st)
         end
       ∧ outbox st3
         = outbox st ++ [(Chat c, Question 1); (Chat c, Question 2)]
           ++ match e2 with
              | Answer _ => [(Chat c, ErrorProcessing)]
              | SkipIt => []
              end).
Proof.
  intros Hmem Hq Hbuf Hp0 Hp1 Hp2 st3 r result. subst st3.
  destruct (react_advances w off n0 u c name0 f0 e0 st 0 Hmem Hp0 Hq)
    as (Hs1 & Hr1 & Hd1 & Hj1 & _ & Ho1); [lia | reflexivity |].
  set (st1 := react w off n0 u c name0 f0 e0 st) in *.
  rewrite Hbuf in Hr1. simpl in Hr1.
  assert (Hq1 : userStates st1 !! u = Some 1%nat)
    by (rewrite Hs1; apply lookup_insert_eq).
  destruct (react_advances w off n1 u c name1 f1 (Answer t1) st1 1 Hmem Hp1 Hq1)
    as (Hs2 & Hr2 & Hd2 & Hj2 & _ & Ho2); [lia | discriminate |].
  set (st2 := react w off n1 u c name1 f1 (Answer t1) st1) in *.
  rewrite Hr1, lookup_insert_eq in Hr2. simpl in Hr2.
  assert (Hq2 : userStates st2 !! u = Some 2%nat)
    by (rewrite Hs2; apply lookup_insert_eq).
  destruct (react_completes w off n2 u c name2 f2 e2 st2 Hmem Hp2 Hq2)
    as (Hs3 & Hd3 & Hj3 & _ & Hyes & Hno).
  rewrite Hr2, lookup_insert_eq in Hd3, Hyes, Hno.
  simpl in Hd3, Hyes, Hno.
  assert (Hans : js_array_set
                   (js_array_set
                      (js_array_set
                         match e0 with
                         | Answer _ => []
                         | SkipIt => [Some ""; Some ""; Some ""]
                         end 0 (slot_of e0)) 1 t1) 2 (slot_of e2)
                 = [slot_of e0; t1; slot_of e2])
    by (destruct e0; reflexivity).
  rewrite Hans in Hd3, Hyes, Hno.
  change (js_array_get [slot_of e0; t1; slot_of e2] 0) with (slot_of e0)
    in Hd3, Hyes, Hno.
  change (js_array_get [slot_of e0; t1; slot_of e2] 1) with t1
    in Hd3, Hyes, Hno.
  change (js_array_get [slot_of e0; t1; slot_of e2] 2) with (slot_of e2)
    in Hd3, Hyes, Hno.
  rewrite Hd2, Hd1 in Hd3, Hyes, Hno. fold result in Hd3, Hyes, Hno.
  fold r in Hyes, Hno.
  assert (Hclean : delete u (<[u := r]> (<[u :=
            {| r_username := name0;
               answers := js_array_set
                            (js_array_set
                               match e0 with
                               | Answer _ => []
                               | SkipIt => [Some ""; Some ""; Some ""]
                               end 0 (slot_of e0)) 1 t1 |}]>
            (<[u := {| r_username := name0;
                       answers := js_array_set
                                    match e0 with
                                    | Answer _ => []
                                    | SkipIt => [Some ""; Some ""; Some ""]
                                    end 0 (slot_of e0) |}]>
               (standupResponses st))))
          = standupResponses st).
  { rewrite !delete_insert_eq. now apply delete_id. }
  split; [rewrite Hs3, Hs2, Hs1, !delete_insert_eq; reflexivity|].
  split; [exact Hd3|].
  split; [rewrite Hj3, Hj2, Hj1; reflexivity|].
  split; [apply (addStandup_outcome off n2 u name0 (slot_of e0) t1
                   (slot_of e2) f2 (db st))|].
  split.
  - intros Hres. destruct (Hyes Hres) as [Hr3 Ho3].
    rewrite Hr3, Ho3, Ho2, Ho1, <- !app_assoc.
    split; [exact Hclean | reflexivity].
  - intros Hres. specialize (Hno Hres). destruct e2 as [t2|].
    + destruct Hno as [Hr3 Ho3].
      rewrite Hr3, Ho3, Ho2, Ho1, <- !app_assoc.
      split; [exact Hclean | reflexivity].
    + destruct Hno as [Hr3 Ho3].
      rewrite Hr3, Ho3, Ho2, Ho1, <- !app_assoc.
      split; [|now rewrite app_nil_r].
      rewrite !insert_insert_eq. reflexivity.
Qed.

Lemma interview_stores_the_three_answers_witness :
  standups
    (db (react sample_world 0 monday_0900 1 1 "ana" NoFault SkipIt
           (react sample_world 0 monday_0900 1 1 "ana" NoFault
              (Answer (Some "Wrote docs"))
              (react sample_world 0 monday_0900 1 1 "ana" NoFault SkipIt
                 (set_userStates (insert 1 0%nat) (idle_state tokyo_db))))))
  = [ {| s_user_id := 1; s_username := "ana"; yesterday := Some "";
         today := Some "Wrote docs"; blockers := Some "";
         submitted_at := datetime_now_localtime 0 monday_0900 |} ].
Proof.
  assert (Hq : userStates (set_userStates (insert 1 0%nat) (idle_state tokyo_db))
               !! 1 = Some 0%nat) by (vm_compute; reflexivity).
  assert (Hb : standupResponses
                 (set_userStates (insert 1 0%nat) (idle_state tokyo_db))
               !! 1 = None) by (vm_compute; reflexivity).
  destruct (interview_stores_the_three_answers
              sample_world 0 monday_0900 monday_0900 monday_0900 1 1
              "ana" "ana" "ana" NoFault NoFault NoFault
              SkipIt (Some "Wrote docs") SkipIt
              (set_userStates (insert 1 0%nat) (idle_state tokyo_db))
              eq_refl Hq Hb I eq_refl I) as (_ & Hdb & _).
  rewrite Hdb. reflexivity.
Defined.

(** ** One participant's events and the others' sessions *)

(** X13: whatever one participant sends ([/standup], a message, [/skip]),
    and whether or not the store accepts a completed response, the session
    and the buffered answers of every other participant stay as they are.
    So they do when work in flight goes on, unless it is the start of that
    other participant's own interview. *)
Theorem events_leave_other_sessions
    (w : world) (off now u c : Z) (name : string) (msgText : option string)
    (f : fault) (st : state) (v : Z) :
  v ≠ u →
  (userStates (onStandup w u c st) !! v = userStates st !! v
   ∧ standupResponses (onStandup w u c st) !! v = standupResponses st !! v)
  ∧ (userStates (onMessage w off now u c name msgText f st) !! v
     = userStates st !! v
     ∧ standupResponses (onMessage w off now u c name msgText f st) !! v
       = standupResponses st !! v)
  ∧ (userStates (onSkip w off now u c name f st) !! v = userStates st !! v
     ∧ standupResponses (onSkip w off now u c name f st) !! v
       = standupResponses st !! v)
  ∧ ∀ t, t ≠ StartChat v →
      userStates (runTask w off now t st) !! v = userStates st !! v
      ∧ standupResponses (runTask w off now t st) !! v
        = standupResponses st !! v.
Proof.
  intros Hne. split; [|split; [|split]].
  - unfold onStandup, commandGuard, startUserStandup.
    repeat (case_match || case_decide); split; reflexivity.
  - unfold onMessage, submit.
    repeat (case_match || case_decide); simpl;
      rewrite ?lookup_delete_ne, ?lookup_insert_ne, ?lookup_delete_ne by done;
      split; reflexivity.
  - unfold onSkip, commandGuard, submit.
    repeat (case_match || case_decide); simpl;
      rewrite ?lookup_delete_ne, ?lookup_insert_ne, ?lookup_delete_ne by done;
      split; reflexivity.
  - intros t Ht. destruct t as [time|x|x|x late|pc]; cbn [runTask].
    + unfold installStandupJob, scheduleJob.
      repeat case_match; split; reflexivity.
    + unfold chatFound. destruct (getChat w x); [|split; reflexivity].
      simpl. rewrite lookup_insert_ne by congruence. split; reflexivity.
    + split; reflexivity.
    + unfold sendReminder. destruct (getChat w x); split; reflexivity.
    + unfold lateCheckRun, lateNext, sendReminder.
      repeat case_match; split; reflexivity.
Qed.

Lemma events_leave_other_sessions_witness :
  userStates (onSkip sample_world 0 monday_0900 1 1 "ana" NoFault
                (set_userStates (insert 2 1%nat) (session_at 2 []))) !! 2
  = Some 1%nat.
Proof.
  destruct (events_leave_other_sessions sample_world 0 monday_0900 1 1 "ana"
              None NoFault (set_userStates (insert 2 1%nat) (session_at 2 [])) 2)
    as (_ & _ & Hskip & _); [discriminate|].
  rewrite (proj1 Hskip). vm_compute. reflexivity.
Defined.

(** ** What the scheduled jobs leave alone *)

Lemma same_but_reminders_refl (st : state) : same_but_reminders st st.
Proof. repeat split. Qed.

Lemma same_but_reminders_trans (st1 st2 st3 : state) :
  same_but_reminders st1 st2 → same_but_reminders st2 st3 →
  same_but_reminders st1 st3.
Proof.
  unfold same_but_reminders.
  intros (?&?&?&?&?&?&?) (?&?&?&?&?&?&?). repeat split; congruence.
Qed.

Lemma sendReminder_same (w : world) (u : Z) (late : bool) (st : state) :
  same_but_reminders st (sendReminder w u late st)
  ∧ late_reminders (db (sendReminder w u late st)) = late_reminders (db st).
Proof.
  unfold sendReminder. destruct (getChat w u); repeat split.
Qed.

Lemma lateReminderStep_same
    (w : world) (off now : Z) (st : state) (user : status) :
  same_but_reminders st (lateReminderStep w off now st user).
Proof.
  unfold lateReminderStep.
  destruct (getSubscriberByUsername (db st) (st_username user)) as [sub|];
    [|apply same_but_reminders_refl].
  destruct (hasReceivedLateReminderToday off now (db st) (user_id sub));
    [apply same_but_reminders_refl|].
  unfold sendReminder. destruct (getChat w (user_id sub)); repeat split.
Qed.

Lemma lateReminderLoop_same
    (w : world) (off now : Z) (missing : list status) (st : state) :
  same_but_reminders st (foldl (lateReminderStep w off now) st missing).
Proof.
  revert st. induction missing as [|user rest IH]; intros st; simpl.
  - apply same_but_reminders_refl.
  - eapply same_but_reminders_trans; [apply lateReminderStep_same | apply IH].
Qed.

Lemma lateReminderJob_same (w : world) (off now : Z) (st : state) :
  same_but_reminders st (lateReminderJob w off now st).
Proof.
  unfold lateReminderJob.
  eapply same_but_reminders_trans; [|apply lateReminderLoop_same].
  repeat split.
Qed.

Lemma cronFires_weekday (off minute hour now : Z) :
  cronFires off minute hour now = true → 1 ≤ getDay off now ≤ 5.
Proof.
  unfold cronFires. intros H.
  repeat (apply andb_true_iff in H as [H ?]). lia.
Qed.

Lemma starting_late_checks (k : nat) :
  starting (replicate k (LateCheck LateCleaned)) = [].
Proof. induction k as [|k IH]; [reflexivity | exact IH]. Qed.

(** What the jobs that start at an instant change when no recurring rule
    fires then: late-reminder checks start, and nothing else. *)
Lemma weekend_jobs (w : world) (off now : Z) (l : list (nat * job)) (s : state) :
  (∀ minute hour, cronFires off minute hour now = false) →
  (∀ e, e ∈ l → due off now e.2 = true) →
  ∃ k, tasks (foldl (runJob w off now) s l)
       = tasks s ++ replicate k (LateCheck LateCleaned)
       ∧ userStates (foldl (runJob w off now) s l) = userStates s
       ∧ standupResponses (foldl (runJob w off now) s l) = standupResponses s
       ∧ outbox (foldl (runJob w off now) s l) = outbox s
       ∧ subscriptions (db (foldl (runJob w off now) s l))
         = subscriptions (db s)
       ∧ standups (db (foldl (runJob w off now) s l)) = standups (db s).
Proof.
  intros Hcron. revert s. induction l as [|e l IH]; intros s Hdue.
  - exists 0%nat. simpl. rewrite app_nil_r. repeat split.
  - simpl. destruct (IH (runJob w off now s e)) as (k & H0 & H1 & H2 & H3 & H4 & H5).
    { intros e' He'. apply Hdue. now right. }
    rewrite H0, H1, H2, H3, H4, H5.
    assert (He : due off now e.2 = true) by (apply Hdue; left).
    unfold runJob. destruct e as [h [minute hour|t]]; simpl in *.
    + rewrite Hcron in He. discriminate He.
    + exists (S k). rewrite <- app_assoc. repeat split.
Qed.

(** X14: on a Saturday or a Sunday of the host's calendar the scheduler
    matches nobody and starts no interview, whatever jobs are live: the only
    callbacks that start then are those of late-reminder checks (a check
    fires a fixed number of hours after a weekday trigger) and, at midnight
    on Sunday, the weekly clean-up. A tick sends nothing and leaves every
    session, every buffer and the subscriptions as they are; the stored
    responses are as they were, or as the clean-up leaves them. *)
Theorem weekend_tick_starts_nothing (w : world) (off now : Z) (st : state) :
  getDay off now = 0 ∨ getDay off now = 6 →
  matchedAt w off now st = []
  ∧ (∃ k, tasks (tick w off now st)
          = tasks st ++ replicate k (LateCheck LateCleaned))
  ∧ userStates (tick w off now st) = userStates st
  ∧ standupResponses (tick w off now st) = standupResponses st
  ∧ outbox (tick w off now st) = outbox st
  ∧ subscriptions (db (tick w off now st)) = subscriptions (db st)
  ∧ standups (db (tick w off now st))
    = if cleanupFires off now
      then standups (cleanupOldStandups now (db st))
      else standups (db st).
Proof.
  intros Hday.
  assert (Hcron : ∀ minute hour, cronFires off minute hour now = false).
  { intros minute hour. destruct (cronFires off minute hour now) eqn:E;
      [|reflexivity].
    apply cronFires_weekday in E. lia. }
  unfold matchedAt, tick.
  set (st0 := if cleanupFires off now then weeklyCleanup now st else st).
  destruct (weekend_jobs w off now
              (filter (λ e, due off now e.2) (live (sched st))) st0 Hcron)
    as (k & H0 & H1 & H2 & H3 & H4 & H5).
  { intros e He. apply list_elem_of_filter in He as [Hd _].
    now apply Is_true_true. }
  rewrite H0, H1, H2, H3, H4, H5. subst st0.
  destruct (cleanupFires off now); cbn [tasks weeklyCleanup set_db];
    rewrite drop_app_length, starting_late_checks;
    (split; [reflexivity|]); (split; [now exists k|]); repeat split.
Qed.

Lemma weekend_tick_starts_nothing_witness :
  userStates (tick sample_world 0 (monday_0900 - 2 * ms_per_day)
                (with_cron 0 9 (idle_state tokyo_db))) = ∅.
Proof.
  destruct (weekend_tick_starts_nothing sample_world 0
              (monday_0900 - 2 * ms_per_day)
              (with_cron 0 9 (idle_state tokyo_db)))
    as (_ & _ & Hs & _).
  - right. vm_compute. reflexivity.
  - rewrite Hs. reflexivity.
Defined.

(** ** Who gets a late reminder *)

Lemma getSubscriberByUsername_unique (d : database) (r : subscription) :
  NoDup (username <$> subscriptions d) → r ∈ subscriptions d →
  getSubscriberByUsername d (username r) = Some r.
Proof.
  unfold getSubscriberByUsername.
  induction (subscriptions d) as [|x l IH]; intros Hnd Hin.
  - now apply elem_of_nil in Hin.
  - rewrite fmap_cons in Hnd. apply NoDup_cons in Hnd as [Hx Hnd].
    rewrite filter_cons. apply elem_of_cons in Hin as [->|Hin].
    + rewrite decide_True by reflexivity. reflexivity.
    + destruct (decide (username x = username r)) as [e|n].
      * exfalso. apply Hx. rewrite e. apply list_elem_of_fmap. eauto.
      * now apply IH.
Qed.

Lemma elem_of_missing (off now : Z) (d : database) (user : status) :
  user ∈ filter (λ s, missing_standup s) (getStandupStatus off now d) →
  ∃ r, r ∈ subscriptions d ∧ st_username user = username r
       ∧ is_on_vacation r = 0
       ∧ user_id r ∉ s_user_id <$> getTodayStandups off now d.
Proof.
  intros H. apply list_elem_of_filter in H as [Hm H].
  unfold getStandupStatus in H.
  apply list_elem_of_fmap in H as (r & -> & Hr).
  apply (proj1 (elem_of_order_by_username r (subscriptions d))) in Hr.
  apply Is_true_true in Hm. unfold missing_standup in Hm. simpl in Hm.
  apply andb_true_iff in Hm as [Hs Hv].
  exists r. split; [exact Hr|]. split; [reflexivity|]. split; [lia|].
  apply negb_true_iff, bool_decide_eq_false in Hs. exact Hs.
Qed.

Lemma missing_of_eligible (off now : Z) (d : database) (r : subscription) :
  r ∈ subscriptions d → is_on_vacation r = 0 →
  user_id r ∉ s_user_id <$> getTodayStandups off now d →
  ∃ user, user ∈ filter (λ s, missing_standup s) (getStandupStatus off now d)
          ∧ st_username user = username r.
Proof.
  intros Hr Hv Hs.
  exists {| st_username := username r;
            hasSubmitted :=
              bool_decide (user_id r ∈ s_user_id <$> getTodayStandups off now d);
            isOnVacation := is_on_vacation r;
            vacationUntil := vacation_until r;
            submittedAt :=
              submitted_at
                <$> last (filter (λ x, s_user_id x = user_id r)
                            (getTodayStandups off now d)) |}.
  split; [|reflexivity].
  apply list_elem_of_filter. split.
  - apply Is_true_true. unfold missing_standup. simpl.
    apply andb_true_iff. split; [|lia].
    apply negb_true_iff, bool_decide_eq_false. exact Hs.
  - unfold getStandupStatus. apply list_elem_of_fmap. exists r.
    split; [reflexivity|]. now apply elem_of_order_by_username.
Qed.

Lemma getSubscriberByUsername_same (d d' : database) (name : string) :
  subscriptions d' = subscriptions d →
  getSubscriberByUsername d' name = getSubscriberByUsername d name.
Proof. unfold getSubscriberByUsername. now intros ->. Qed.

Lemma late_reminders_sent_sendReminder_exact
    (w : world) (id u : Z) (st : state) :
  late_reminders_sent (sendReminder w id true st) u
  = (late_reminders_sent st u
     + if getChat w id then if decide (id = u) then 1 else 0 else 0)%nat.
Proof.
  unfold sendReminder, late_reminders_sent.
  destruct (getChat w id); [|lia]. simpl.
  rewrite filter_app, length_app, filter_cons, filter_nil. simpl.
  destruct (decide (id = u)) as [->|Hne].
  - rewrite decide_True; [reflexivity|]. apply Is_true_true. lia.
  - rewrite decide_False; [reflexivity|].
    intros H. apply Is_true_true in H. lia.
Qed.

(** One turn of the loop, counted for a user [u]: the records of the day and
    the reminders sent grow together, by one when the turn is for [u] and [u]
    has no record yet, and not at all otherwise. *)
Lemma lateReminderStep_counts
    (w : world) (off now u : Z) (st : state) (user : status) :
  let day := date_now_localtime off now in
  let st' := lateReminderStep w off now st user in
  let hit :=
    match getSubscriberByUsername (db st) (st_username user) with
    | Some sub =>
        bool_decide (user_id sub = u)
        && negb (hasReceivedLateReminderToday off now (db st) u)
    | None => false
    end in
  reminders_on off day (db st') u
  = (reminders_on off day (db st) u + if hit then 1 else 0)%nat
  ∧ late_reminders_sent st' u
    = (late_reminders_sent st u + if hit && getChat w u then 1 else 0)%nat.
Proof.
  intros day st' hit. subst day st' hit. unfold lateReminderStep.
  destruct (getSubscriberByUsername (db st) (st_username user)) as [sub|];
    [|cbn [andb negb]; split; lia].
  destruct (decide (user_id sub = u)) as [<-|Hne].
  - rewrite bool_decide_eq_true_2 by reflexivity.
    destruct (hasReceivedLateReminderToday off now (db st) (user_id sub));
      cbn [andb negb]; [split; lia|].
    assert (Hdb : db (set_db (recordLateReminder now (user_id sub))
                        (sendReminder w (user_id sub) true st))
                  = recordLateReminder now (user_id sub) (db st))
      by (unfold sendReminder; destruct (getChat w (user_id sub));
          reflexivity).
    rewrite Hdb, reminders_on_record, decide_True by reflexivity.
    split; [reflexivity|].
    change (late_reminders_sent
              (set_db (recordLateReminder now (user_id sub))
                 (sendReminder w (user_id sub) true st)) (user_id sub))
      with (late_reminders_sent (sendReminder w (user_id sub) true st)
              (user_id sub)).
    rewrite late_reminders_sent_sendReminder_exact.
    rewrite decide_True by reflexivity.
    destruct (getChat w (user_id sub)); reflexivity.
  - rewrite bool_decide_eq_false_2 by exact Hne. cbn [andb negb].
    destruct (hasReceivedLateReminderToday off now (db st) (user_id sub));
      [split; lia|].
    assert (Hdb : db (set_db (recordLateReminder now (user_id sub))
                        (sendReminder w (user_id sub) true st))
                  = recordLateReminder now (user_id sub) (db st))
      by (unfold sendReminder; destruct (getChat w (user_id sub));
          reflexivity).
    rewrite Hdb, reminders_on_record, decide_False by exact Hne.
    split; [lia|].
    change (late_reminders_sent
              (set_db (recordLateReminder now (user_id sub))
                 (sendReminder w (user_id sub) true st)) u)
      with (late_reminders_sent (sendReminder w (user_id sub) true st) u).
    rewrite late_reminders_sent_sendReminder_exact.
    rewrite decide_False by exact Hne.
    destruct (getChat w (user_id sub)); lia.
Qed.

Lemma hasReceived_true_some_row (off now : Z) (d : database) (u : Z) :
  hasReceivedLateReminderToday off now d u = true →
  (1 ≤ reminders_on off (date_now_localtime off now) d u)%nat.
Proof.
  unfold hasReceivedLateReminderToday, reminders_on. intros H.
  apply bool_decide_eq_true in H. lia.
Qed.

Lemma lateReminderLoop_other
    (w : world) (off now u : Z) (missing : list status) (st : state) :
  (∀ user sub, user ∈ missing →
     getSubscriberByUsername (db st) (st_username user) = Some sub →
     user_id sub ≠ u) →
  reminders_on off (date_now_localtime off now)
    (db (foldl (lateReminderStep w off now) st missing)) u
  = reminders_on off (date_now_localtime off now) (db st) u
  ∧ late_reminders_sent (foldl (lateReminderStep w off now) st missing) u
    = late_reminders_sent st u.
Proof.
  revert st. induction missing as [|user rest IH]; intros st Hother; simpl.
  - split; reflexivity.
  - destruct (lateReminderStep_counts w off now u st user) as [Hr Hs].
    destruct (lateReminderStep_same w off now st user) as (_ & _ & Hsub & _).
    destruct (IH (lateReminderStep w off now st user)) as [Hr' Hs'].
    { intros user' sub Hin Hlook. apply (Hother user' sub); [now right|].
      rewrite <- Hlook. symmetry.
      now apply getSubscriberByUsername_same. }
    rewrite Hr', Hs', Hr, Hs.
    destruct (getSubscriberByUsername (db st) (st_username user)) as [sub|]
      eqn:E; [|cbn [andb]; split; lia].
    rewrite bool_decide_eq_false_2; [cbn [andb]; split; lia|].
    apply (Hother user sub); [left | exact E].
Qed.

Lemma lateReminderLoop_hit
    (w : world) (off now : Z) (missing : list status) (st : state)
    (user : status) (sub : subscription) :
  user ∈ missing →
  getSubscriberByUsername (db st) (st_username user) = Some sub →
  (1 ≤ reminders_on off (date_now_localtime off now)
         (db (foldl (lateReminderStep w off now) st missing)) (user_id sub))%nat.
Proof.
  revert st. induction missing as [|user0 rest IH]; intros st Hin Hlook.
  - now apply elem_of_nil in Hin.
  - simpl. apply elem_of_cons in Hin as [<-|Hin].
    + destruct (lateReminderStep_counts w off now (user_id sub) st user)
        as [Hr _].
      rewrite Hlook, bool_decide_eq_true_2 in Hr by reflexivity.
      destruct (lateReminderLoop_debounced w off now (user_id sub) rest
                  (lateReminderStep w off now st user)) as (Hmono & _).
      destruct (hasReceivedLateReminderToday off now (db st) (user_id sub))
        eqn:E; simpl in Hr.
      * apply hasReceived_true_some_row in E. lia.
      * lia.
    + apply IH; [exact Hin|].
      rewrite <- Hlook. apply getSubscriberByUsername_same.
      now destruct (lateReminderStep_same w off now st user0)
        as (_ & _ & Hsub & _).
Qed.

Lemma lateReminderLoop_acknowledged
    (w : world) (off now u : Z) (missing : list status) (st : state) :
  getChat w u = true →
  (reminders_on off (date_now_localtime off now)
     (db (foldl (lateReminderStep w off now) st missing)) u
   + late_reminders_sent st u
   = late_reminders_sent (foldl (lateReminderStep w off now) st missing) u
     + reminders_on off (date_now_localtime off now) (db st) u)%nat.
Proof.
  intros Hchat. revert st.
  induction missing as [|user rest IH]; intros st; simpl; [lia|].
  destruct (lateReminderStep_counts w off now u st user) as [Hr Hs].
  rewrite Hchat, andb_true_r in Hs. specialize (IH (lateReminderStep w off now st user)).
  lia.
Qed.

(** X15: with usernames that are distinct, a late-reminder check that
    nothing comes between reaches every subscriber whose vacation flag is
    off and who has no response listed for today: afterwards the subscriber
    has a record for the day, and one who had none before and whose chat
    can be reached has been sent exactly one reminder. *)
Theorem late_reminder_reaches_the_eligible
    (w : world) (off now : Z) (st : state) (r : subscription) :
  NoDup (username <$> subscriptions (db st)) →
  r ∈ subscriptions (db st) →
  is_on_vacation r = 0 →
  user_id r ∉ s_user_id <$> getTodayStandups off now (db st) →
  let day := date_now_localtime off now in
  let st' := lateReminderJob w off now st in
  (1 ≤ reminders_on off day (db st') (user_id r))%nat
  ∧ (getChat w (user_id r) = true →
     reminders_on off day (db st) (user_id r) = 0%nat →
     reminders_on off day (db st') (user_id r) = 1%nat
     ∧ late_reminders_sent st' (user_id r)
       = (late_reminders_sent st (user_id r) + 1)%nat).
Proof.
  intros Hnd Hr Hv Hs day st'. subst day st'.
  destruct (missing_of_eligible off now (db st) r Hr Hv Hs)
    as (user & Hmiss & Hname).
  assert (Hlook : getSubscriberByUsername (db st) (st_username user) = Some r)
    by (rewrite Hname; now apply getSubscriberByUsername_unique).
  assert (Hone : (1 ≤ reminders_on off (date_now_localtime off now)
                        (db (lateReminderJob w off now st)) (user_id r))%nat).
  { unfold lateReminderJob.
    apply (lateReminderLoop_hit w off now _ _ user r); [exact Hmiss|].
    exact Hlook. }
  split; [exact Hone|]. intros Hchat Hzero.
  pose proof (lateReminderJob_debounced w off now (user_id r) st)
    as (_ & Hmax & _).
  assert (Hack := lateReminderLoop_acknowledged w off now (user_id r)
                    (filter (λ s, missing_standup s)
                       (getStandupStatus off now (db st)))
                    (set_db (cleanupOldLateReminders off now) st) Hchat).
  change (db (set_db (cleanupOldLateReminders off now) st))
    with (cleanupOldLateReminders off now (db st)) in Hack.
  rewrite reminders_on_cleanup in Hack.
  change (late_reminders_sent (set_db (cleanupOldLateReminders off now) st)
            (user_id r))
    with (late_reminders_sent st (user_id r)) in Hack.
  unfold lateReminderJob in *.
  change (getStandupStatus off now
            (db (set_db (cleanupOldLateReminders off now) st)))
    with (getStandupStatus off now (db st)) in *.
  lia.
Qed.

(** X16: with usernames that are distinct, a late-reminder check that
    nothing comes between sends nothing to, and records nothing for, a user
    who is not subscribed, or whose vacation flag is set, or who has a
    response listed for today. *)
Theorem late_reminder_spares_the_rest
    (w : world) (off now u : Z) (st : state) :
  NoDup (username <$> subscriptions (db st)) →
  (∀ r, r ∈ subscriptions (db st) → user_id r = u →
     is_on_vacation r ≠ 0
     ∨ user_id r ∈ s_user_id <$> getTodayStandups off now (db st)) →
  let st' := lateReminderJob w off now st in
  late_reminders_sent st' u = late_reminders_sent st u
  ∧ reminders_on off (date_now_localtime off now) (db st') u
    = reminders_on off (date_now_localtime off now) (db st) u.
Proof.
  intros Hnd Hrest st'. subst st'. unfold lateReminderJob.
  change (getStandupStatus off now
            (db (set_db (cleanupOldLateReminders off now) st)))
    with (getStandupStatus off now (db st)).
  destruct (lateReminderLoop_other w off now u
              (filter (λ s, missing_standup s)
                 (getStandupStatus off now (db st)))
              (set_db (cleanupOldLateReminders off now) st)) as [Hr Hs].
  - intros user sub Hin Hlook Hid.
    apply elem_of_missing in Hin as (r & Hr & Hname & Hv & Hsub).
    change (db (set_db (cleanupOldLateReminders off now) st))
      with (cleanupOldLateReminders off now (db st)) in Hlook.
    rewrite (getSubscriberByUsername_same (db st)) in Hlook by reflexivity.
    rewrite Hname, (getSubscriberByUsername_unique (db st) r Hnd Hr) in Hlook.
    injection Hlook as <-.
    destruct (Hrest r Hr Hid) as [Hvac|Hdone]; [now apply Hvac | now apply Hsub].
  - split; [exact Hs|].
    rewrite Hr.
    change (db (set_db (cleanupOldLateReminders off now) st))
      with (cleanupOldLateReminders off now (db st)).
    apply reminders_on_cleanup.
Qed.

Lemma tokyo_usernames_distinct :
  NoDup (username <$> subscriptions (db (idle_state tokyo_db))).
Proof.
  simpl. apply NoDup_cons. split; [|apply NoDup_singleton].
  intros H. apply list_elem_of_singleton in H. discriminate H.
Defined.

Lemma late_reminder_reaches_the_eligible_witness :
  late_reminders_sent
    (lateReminderJob sample_world 0 monday_1300 (idle_state tokyo_db)) 2
  = 1%nat.
Proof.
  destruct (late_reminder_reaches_the_eligible sample_world 0 monday_1300
              (idle_state tokyo_db)
              {| user_id := 2; username := "rui"; timezone := None;
                 is_on_vacation := 0; vacation_until := None |}
              tokyo_usernames_distinct) as [_ Hsent].
  - simpl. right. left.
  - reflexivity.
  - simpl. apply not_elem_of_nil.
  - destruct Hsent as [_ Hsent]; [reflexivity | reflexivity |].
    exact Hsent.
Defined.

Lemma late_reminder_spares_the_rest_witness :
  late_reminders_sent
    (lateReminderJob sample_world 0 monday_1300
       (set_db (setVacationMode 2 19740) (idle_state tokyo_db))) 2
  = 0%nat.
Proof.
  destruct (late_reminder_spares_the_rest sample_world 0 monday_1300 2
              (set_db (setVacationMode 2 19740) (idle_state tokyo_db)))
    as [Hsent _].
  - simpl. apply NoDup_cons. split; [|apply NoDup_singleton].
    intros H. apply list_elem_of_singleton in H. discriminate H.
  - intros r Hr Hid. left. simpl in Hr.
    apply elem_of_cons in Hr as [->|Hr]; [discriminate Hid|].
    apply list_elem_of_singleton in Hr as ->. discriminate.
  - rewrite Hsent. reflexivity.
Defined.

(** ** The administrator commands *)

Lemma isAdmin_true (names : list string) (d : database) (u : Z) :
  isAdmin names d u = true →
  ∃ r, r ∈ subscriptions d ∧ user_id r = u ∧ username r ∈ names.
Proof.
  unfold isAdmin.
  destruct (head (filter (λ r, user_id r = u) (subscriptions d))) as [r|] eqn:E;
    [|discriminate].
  intros H. apply bool_decide_eq_true in H.
  assert (Hin : r ∈ filter (λ r, user_id r = u) (subscriptions d)).
  { destruct (filter (λ r, user_id r = u) (subscriptions d)) as [|x l];
      [discriminate E|].
    simpl in E. injection E as ->. left. }
  apply list_elem_of_filter in Hin as [Hid Hin]. eauto.
Qed.

(** X17: the settings and the jobs change only for administrators. Whenever
    [/set_time], [/late_reminder] or [/late_reminder_hours] changes the
    store or the scheduler, the sender is a channel member with a
    subscription row whose username is in [ADMIN_USERNAMES], and the time
    (or the delay) given is in range: 0 to 23 and 0 to 59 (1 to 12). *)
Theorem settings_change_only_for_admins (w : world) (u c : Z) (st : state) :
  let admin :=
    isChannelMember w u = true
    ∧ ∃ r, r ∈ subscriptions (db st) ∧ user_id r = u
           ∧ username r ∈ admins w in
  (∀ hour minute,
     db (onSetTime w u c hour minute st) ≠ db st
     ∨ sched (onSetTime w u c hour minute st) ≠ sched st →
     admin ∧ 0 ≤ hour ≤ 23 ∧ 0 ≤ minute ≤ 59)
  ∧ (∀ enabled,
       db (onLateReminder w u c enabled st) ≠ db st
       ∨ sched (onLateReminder w u c enabled st) ≠ sched st →
       admin)
  ∧ (∀ hours,
       db (onLateReminderHours w u c hours st) ≠ db st
       ∨ sched (onLateReminderHours w u c hours st) ≠ sched st →
       admin ∧ 1 ≤ hours ≤ 12).
Proof.
  intros admin. subst admin.
  unfold onSetTime, onLateReminder, onLateReminderHours, commandGuard.
  destruct (isChannelMember w u);
    [|repeat split; intros; simpl in *; tauto].
  destruct (isAdmin (admins w) (db st) u) eqn:Ha;
    [|repeat split; intros; simpl in *; tauto].
  apply isAdmin_true in Ha. cbn [negb].
  split; [|split].
  - intros hour minute H.
    destruct (decide (hour < 0 ∨ hour > 23 ∨ minute < 0 ∨ minute > 59));
      [simpl in H; tauto|].
    split; [split; [reflexivity | exact Ha]|]. lia.
  - intros enabled _. split; [reflexivity | exact Ha].
  - intros hours H.
    destruct (decide (hours < 1 ∨ hours > 12)); [simpl in H; tauto|].
    split; [split; [reflexivity | exact Ha]|]. lia.
Qed.

Lemma settings_change_only_for_admins_witness :
  0 ≤ 10 ≤ 23 ∧ 0 ≤ 30 ≤ 59.
Proof.
  destruct (settings_change_only_for_admins sample_world 1 1
              check_pending_state) as (Htime & _).
  refine (proj2 (Htime 10 30 _)).
  left. vm_compute. discriminate.
Defined.

(** ** Subscribing, vacations and zones by command *)

Lemma set_db_twice (f g : database → database) (st : state) :
  set_db g (set_db f st) = set_db (λ d, g (f d)) st.
Proof. reflexivity. Qed.

Lemma set_db_same (f : database → database) (st : state) :
  f (db st) = db st → set_db f st = st.
Proof. destruct st. unfold set_db. simpl. now intros ->. Qed.

(** X18: a channel member who is not subscribed subscribes: the reply is the
    confirmation and the member is subscribed. A second [/subscribe] is then
    refused and changes nothing, and an [/unsubscribe] brings back exactly
    the state from before the subscription. [/unsubscribe] by someone who is
    not subscribed changes nothing either. *)
Theorem subscribe_then_unsubscribe
    (w : world) (u c : Z) (name : string) (st : state) :
  isChannelMember w u = true →
  isSubscribed (db st) u = false →
  let st1 := (onSubscribe w u c name st).1 in
  (onSubscribe w u c name st).2 = [(Chat c, NowSubscribed)]
  ∧ isSubscribed (db st1) u = true
  ∧ onSubscribe w u c name st1 = (st1, [(Chat c, AlreadySubscribed)])
  ∧ onUnsubscribe w u c st1 = (st, [(Chat c, NowUnsubscribed)])
  ∧ onUnsubscribe w u c st = (st, [(Chat c, NotSubscribed)]).
Proof.
  intros Hmem Hno st1. subst st1.
  unfold onSubscribe, onUnsubscribe, guarded. rewrite Hmem, Hno. simpl.
  assert (Hsub : isSubscribed (addSubscriber u name (db st)) u = true).
  { apply isSubscribed_true.
    exists {| user_id := u; username := name;
              timezone := Some "Europe/Lisbon";
              is_on_vacation := 0; vacation_until := None |}.
    split; [|reflexivity].
    unfold addSubscriber. simpl. apply elem_of_insert_row. now left. }
  rewrite Hsub. simpl. repeat split.
  rewrite set_db_twice. f_equal. apply set_db_same.
  now apply removeSubscriber_addSubscriber.
Qed.

Lemma subscribe_then_unsubscribe_witness :
  onUnsubscribe sample_world 9 9
    (onSubscribe sample_world 9 9 "eva" (idle_state tokyo_db)).1
  = (idle_state tokyo_db, [(Chat 9, NowUnsubscribed)]).
Proof.
  exact (proj1 (proj2 (proj2 (proj2
           (subscribe_then_unsubscribe sample_world 9 9 "eva"
              (idle_state tokyo_db) eq_refl eq_refl))))).
Defined.

Lemma vacation_end_in_past (off now endDay : Z) :
  ofLocalMs off (endDay * ms_per_day) < setHours4 off 0 0 0 0 now
  ↔ endDay < date_now_localtime off now.
Proof.
  unfold setHours4, ofLocalMs, date_now_localtime, ms_per_day, ms_per_hour,
    ms_per_minute, ms_per_second.
  generalize (localMs off now / (24 * 60 * 60 * 1000)). intros today.
  split; intros; lia.
Qed.

Lemma vacation_end_stored (off endDay : Z) :
  -1440 < off ≤ 1440 →
  ofLocalMs off (endDay * ms_per_day) / ms_per_day
  = if decide (0 < off) then endDay - 1 else endDay.
Proof.
  intros Hoff. unfold ofLocalMs, ms_per_day, ms_per_minute.
  destruct (decide (0 < off)); Z.div_mod_to_equations; lia.
Qed.

(** X19: the [/vacation] command of a subscribed channel member, on a host
    whose zone is within a day of UTC. A day before today is refused and
    changes nothing. Any other day is accepted, and the member is then left
    out of [getActiveSubscribers] through the day typed when the host is on
    or west of UTC, but only through the day before it when the host is east
    of UTC: the date stored is the UTC date of the local midnight. *)
Theorem vacation_command_window
    (w : world) (off now u c endDay : Z) (st : state) :
  isChannelMember w u = true →
  isSubscribed (db st) u = true →
  -1440 < off ≤ 1440 →
  let out := onVacationDate w off now u c endDay st in
  (endDay < date_now_localtime off now →
     out = (st, [(Chat c, VacationInPast)]))
  ∧ (date_now_localtime off now ≤ endDay →
       out.2 = [(Chat c, VacationEnabled endDay)]
       ∧ ∀ later,
           u ∈ user_id <$> getActiveSubscribers off later (db out.1)
           ↔ (if decide (0 < off) then endDay - 1 else endDay)
             < date_now_localtime off later).
Proof.
  intros Hmem Hsub Hoff out. subst out.
  unfold onVacationDate, guarded. rewrite Hmem, Hsub. cbn [negb].
  split.
  - intros Hpast. rewrite decide_True; [reflexivity|].
    now apply vacation_end_in_past.
  - intros Hok. rewrite decide_False by (rewrite vacation_end_in_past; lia).
    split; [reflexivity|]. intros later. cbn [fst].
    change (db (set_db (setVacationMode u
                          (ofLocalMs off (endDay * ms_per_day) / ms_per_day))
                  st))
      with (setVacationMode u
              (ofLocalMs off (endDay * ms_per_day) / ms_per_day) (db st)).
    rewrite active_after_setVacationMode by exact Hsub.
    rewrite vacation_end_stored by exact Hoff. reflexivity.
Qed.

(** On a host one hour east of UTC, a vacation until today is accepted and
    the member is still active today. *)
Lemma vacation_command_window_witness :
  (onVacationDate sample_world 60 june_2310 2 2 19877 (idle_state tokyo_db)).2
  = [(Chat 2, VacationEnabled 19877)]
  ∧ 2 ∈ user_id <$> getActiveSubscribers 60 june_2310
                      (db (onVacationDate sample_world 60 june_2310 2 2 19877
                             (idle_state tokyo_db)).1).
Proof.
  assert (Hoff : -1440 < 60 ≤ 1440) by lia.
  destruct (vacation_command_window sample_world 60 june_2310 2 2 19877
              (idle_state tokyo_db) eq_refl eq_refl Hoff) as [_ Hok].
  destruct Hok as [Hreply Hactive]; [vm_compute; discriminate|].
  split; [exact Hreply|].
  apply Hactive. vm_compute. reflexivity.
Defined.

Lemma getVacationStatus_row (d : database) (u : Z) :
  getVacationStatus d u
  = (λ r, (is_on_vacation r, vacation_until r)) <$> subscription_row d u.
Proof. reflexivity. Qed.

Lemma update_subscription_twice
    (u : Z) (f g : subscription → subscription) (d : database) :
  (∀ r, user_id (f r) = user_id r) →
  update_subscription u g (update_subscription u f d)
  = update_subscription u (λ r, g (f r)) d.
Proof.
  intros Hf. unfold update_subscription. simpl. f_equal.
  rewrite <- list_fmap_compose. apply list_fmap_ext. intros i r _. simpl.
  destruct (decide (user_id r = u)) as [Hu|Hu].
  - rewrite decide_True by (rewrite Hf; exact Hu). reflexivity.
  - rewrite decide_False by exact Hu. reflexivity.
Qed.

Lemma update_subscription_id
    (u : Z) (f : subscription → subscription) (d : database) :
  (∀ r, r ∈ subscriptions d → user_id r = u → f r = r) →
  update_subscription u f d = d.
Proof.
  intros Hf. unfold update_subscription.
  assert (Hl : (λ r, if decide (user_id r = u) then f r else r)
               <$> subscriptions d = subscriptions d).
  { revert Hf. generalize (subscriptions d). intros l.
    induction l as [|z l IH]; intros Hf; [reflexivity|].
    rewrite fmap_cons. f_equal.
    - destruct (decide (user_id z = u)); [|reflexivity].
      apply Hf; [left|assumption].
    - apply IH. intros r Hr. apply Hf. now right. }
  rewrite Hl. apply with_subscriptions_same.
Qed.

(** X20: [/back] undoes [/vacation]. For a subscribed channel member whose
    row showed no vacation, a vacation that was accepted and then [/back]
    leave exactly the state from before, with the welcome-back reply; and
    [/back] from such a member, whose vacation flag is off, only answers
    that there is no vacation. [/back] does not ask whether the
    sender is a channel member. *)
Theorem back_undoes_vacation
    (w : world) (off now u c endDay : Z) (st : state) :
  isChannelMember w u = true →
  isSubscribed (db st) u = true →
  (∀ r, r ∈ subscriptions (db st) → user_id r = u →
        is_on_vacation r = 0 ∧ vacation_until r = None) →
  date_now_localtime off now ≤ endDay →
  onBack u c (onVacationDate w off now u c endDay st).1
  = (st, [(Chat c, WelcomeBack)])
  ∧ onBack u c st = (st, [(Chat c, NotOnVacation)]).
Proof.
  intros Hmem Hsub Hrows Hok.
  pose proof Hsub as Hsub'.
  apply isSubscribed_true in Hsub' as (r0 & Hr0 & Hid0).
  assert (Hrow : ∃ r, subscription_row (db st) u = Some r
                      ∧ r ∈ subscriptions (db st) ∧ user_id r = u).
  { unfold subscription_row.
    assert (Hin : r0 ∈ filter (λ r, user_id r = u) (subscriptions (db st)))
      by (apply list_elem_of_filter; split; assumption).
    destruct (filter (λ r, user_id r = u) (subscriptions (db st)))
      as [|x l] eqn:E; [now apply elem_of_nil in Hin|].
    exists x. split; [reflexivity|].
    assert (Hx : x ∈ filter (λ r, user_id r = u) (subscriptions (db st)))
      by (rewrite E; left).
    apply list_elem_of_filter in Hx as [Hxi Hx]. split; assumption. }
  destruct Hrow as (r & Hrow & Hr & Hid).
  split.
  - unfold onVacationDate, guarded. rewrite Hmem, Hsub. cbn [negb].
    rewrite decide_False by (rewrite vacation_end_in_past; lia).
    cbn [fst]. unfold onBack.
    change (db (set_db (setVacationMode u
                          (ofLocalMs off (endDay * ms_per_day) / ms_per_day))
                  st))
      with (setVacationMode u
              (ofLocalMs off (endDay * ms_per_day) / ms_per_day) (db st)).
    rewrite getVacationStatus_row.
    unfold setVacationMode at 1.
    rewrite subscription_row_update by reflexivity.
    rewrite Hrow. simpl. rewrite decide_True by reflexivity. simpl.
    rewrite set_db_twice. f_equal. apply set_db_same.
    unfold disableVacationMode, setVacationMode.
    rewrite update_subscription_twice by reflexivity.
    apply update_subscription_id. intros x Hx Hxi.
    destruct (Hrows x Hx Hxi) as [Hv Hu]. destruct x. simpl in *.
    now subst.
  - unfold onBack. rewrite getVacationStatus_row, Hrow. simpl.
    destruct (Hrows r Hr Hid) as [-> _]. reflexivity.
Qed.

Lemma back_undoes_vacation_witness :
  onBack 2 2 (onVacationDate sample_world 0 monday_0900 2 2 19740
                (idle_state tokyo_db)).1
  = (idle_state tokyo_db, [(Chat 2, WelcomeBack)]).
Proof.
  refine (proj1 (back_undoes_vacation sample_world 0 monday_0900 2 2 19740
                   (idle_state tokyo_db) eq_refl eq_refl _ _)).
  - intros r Hr Hid. simpl in Hr.
    apply elem_of_cons in Hr as [->|Hr]; [discriminate Hid|].
    apply list_elem_of_singleton in Hr as ->. split; reflexivity.
  - vm_compute. discriminate.
Defined.

(** * What every reachable state satisfies *)

(** ** What a tick and a piece of work in flight leave alone *)

Lemma runJob_frame (w : world) (off now : Z) (st : state) (e : nat * job) :
  let st' := runJob w off now st e in
  userStates st' = userStates st
  ∧ standupResponses st' = standupResponses st
  ∧ outbox st' = outbox st
  ∧ standupJob st' = standupJob st
  ∧ subscriptions (db st') = subscriptions (db st)
  ∧ standups (db st') = standups (db st)
  ∧ settings_tbl (db st') = settings_tbl (db st).
Proof.
  unfold runJob. destruct e as [h [minute hour|t]]; cbn [snd fst].
  - unfold standupJobFire. rewrite standupLoop_matching.
    destruct (scheduleLateReminders_keeps off now hour minute st)
      as (_ & Hdb & Hs & Hr & Ho & Hj).
    cbn [userStates standupResponses outbox standupJob db set_tasks].
    rewrite Hdb, Hs, Hr, Ho, Hj. repeat split.
  - repeat split.
Qed.

Lemma tick_frame (w : world) (off now : Z) (st : state) :
  let st' := tick w off now st in
  userStates st' = userStates st
  ∧ standupResponses st' = standupResponses st
  ∧ outbox st' = outbox st
  ∧ standupJob st' = standupJob st
  ∧ subscriptions (db st') = subscriptions (db st)
  ∧ settings_tbl (db st') = settings_tbl (db st).
Proof.
  unfold tick.
  set (st0 := if cleanupFires off now then weeklyCleanup now st else st).
  assert (H0 : userStates st0 = userStates st
               ∧ standupResponses st0 = standupResponses st
               ∧ outbox st0 = outbox st
               ∧ standupJob st0 = standupJob st
               ∧ subscriptions (db st0) = subscriptions (db st)
               ∧ settings_tbl (db st0) = settings_tbl (db st))
    by (subst st0; destruct (cleanupFires off now); repeat split).
  destruct H0 as (<- & <- & <- & <- & <- & <-).
  generalize (filter (λ e, due off now e.2) (live (sched st))) st0.
  clear st0. intros l. induction l as [|e l IH]; intros s; simpl;
    [repeat split|].
  destruct (IH (runJob w off now s e)) as (-> & -> & -> & -> & -> & ->).
  destruct (runJob_frame w off now s e) as (-> & -> & -> & -> & -> & _ & ->).
  repeat split.
Qed.

Lemma lateNext_frame (rest : list status) (st : state) :
  lateNext rest st = st
  ∨ ∃ pc, lateNext rest st = spawn (LateCheck pc) st.
Proof. destruct rest; [now left | right; eauto]. Qed.

(** A piece of work in flight that is not the start of an interview leaves
    the sessions and the buffers; none touches the subscriptions, the
    responses or the settings. *)
Lemma runTask_frame (w : world) (off now : Z) (t : task) (st : state) :
  let st' := runTask w off now t st in
  ((∀ u, t ≠ StartChat u) → userStates st' = userStates st)
  ∧ standupResponses st' = standupResponses st
  ∧ subscriptions (db st') = subscriptions (db st)
  ∧ standups (db st') = standups (db st)
  ∧ settings_tbl (db st') = settings_tbl (db st).
Proof.
  destruct t as [time|x|x|x late|pc]; cbn [runTask].
  - unfold installStandupJob, scheduleJob. repeat case_match; repeat split.
  - unfold chatFound. destruct (getChat w x); repeat split;
      intros H; now destruct (H x).
  - repeat split.
  - unfold sendReminder. destruct (getChat w x); repeat split.
  - destruct pc as [|status|[sub|] rest|sub [|] rest|sub rest|rest];
      cbn [lateCheckRun];
      try (destruct (lateNext_frame rest st) as [->|[pc' ->]]);
      try (destruct (lateNext_frame (filter (λ s, missing_standup s) status)
                       st) as [->|[pc' ->]]);
      unfold sendReminder; try destruct (getChat w (user_id sub));
      repeat split.
Qed.

(** ** The question index *)

Lemma in_range_insert (m : gmap Z nat) (u : Z) (q : nat) :
  in_range m → (q ≤ 2)%nat → in_range (<[u := q]> m).
Proof.
  intros Hm Hq v p. rewrite lookup_insert. case_decide.
  - intros [= <-]. exact Hq.
  - apply Hm.
Qed.

Lemma in_range_delete (m : gmap Z nat) (u : Z) :
  in_range m → in_range (delete u m).
Proof.
  intros Hm v p. rewrite lookup_delete. case_decide; [discriminate|apply Hm].
Qed.

Lemma runTask_in_range (w : world) (off now : Z) (t : task) (st : state) :
  in_range (userStates st) → in_range (userStates (runTask w off now t st)).
Proof.
  intros H. destruct t as [time|x|x|x late|pc];
    try (rewrite (proj1 (runTask_frame w off now _ st)) by discriminate;
         exact H).
  cbn [runTask]. unfold chatFound. destruct (getChat w x); [|exact H].
  simpl. apply in_range_insert; [exact H | lia].
Qed.

Lemma step_in_range (w : world) (off : Z) (st st' : state) :
  step w off st st' → in_range (userStates st) → in_range (userStates st').
Proof.
  intros Hstep H. destruct Hstep.
  - unfold onStart, guarded. case_match; exact H.
  - unfold onSubscribe, guarded. repeat case_match; exact H.
  - unfold onUnsubscribe, guarded. repeat case_match; exact H.
  - unfold onMembers, guarded. repeat (case_match || case_decide); exact H.
  - unfold onStandup, commandGuard.
    repeat (case_match || case_decide); exact H.
  - unfold onReplay, guarded. repeat (case_match || case_decide); exact H.
  - unfold onMessage, submit.
    repeat (case_decide || case_match); simpl; try exact H;
      repeat apply in_range_delete; try exact H;
      (apply in_range_insert; [exact H | unfold QUESTIONS_length in *; lia]).
  - unfold onSkip, commandGuard, submit.
    repeat (case_decide || case_match); simpl; try exact H;
      repeat apply in_range_delete; try exact H;
      (apply in_range_insert; [exact H | unfold QUESTIONS_length in *; lia]).
  - unfold onVacationDate, guarded.
    repeat (case_match || case_decide); exact H.
  - unfold onVacation, guarded. case_match; exact H.
  - unfold onBack. repeat case_match; simplify_eq; exact H.
  - unfold onSetTime, commandGuard.
    repeat (case_decide || case_match); try exact H;
      simpl; unfold scheduleStandups; simpl; repeat case_match; exact H.
  - unfold onTimezone, guarded. repeat case_match; exact H.
  - unfold onTimezoneSet, guarded. repeat case_match; exact H.
  - unfold onLateReminder, commandGuard. repeat case_match; exact H.
  - unfold onLateReminderHours, commandGuard.
    repeat (case_match || case_decide); exact H.
  - unfold onStatus, guarded. repeat (case_match || case_decide); exact H.
  - now rewrite (proj1 (tick_frame w off now st)).
  - now apply runTask_in_range.
Qed.

(** X21: from start-up on, whatever commands and messages arrive,
    whichever jobs start and however the work in flight goes on, the
    question index of every live session is 0, 1 or 2: a session never
    points past the last question. *)
Theorem question_index_in_range
    (w : world) (off : Z) (d : database) (st : state) :
  rtc (step w off) (initialize d) st → in_range (userStates st).
Proof.
  intros Hreach.
  assert (H0 : in_range (userStates (initialize d))).
  { intros u q. unfold initialize, scheduleStandups. simpl.
    rewrite lookup_empty. discriminate. }
  revert H0. induction Hreach as [st|st st1 st2 Hstep _ IH]; intros H0;
    [exact H0|].
  apply IH. now apply (step_in_range w off st).
Qed.

Lemma question_index_in_range_witness :
  in_range
    (userStates
       (onMessage sample_world 0 monday_0900 2 2 "rui" (Some "Reviewed PRs")
          NoFault
          (runTask sample_world 0 monday_0900 (StartChat 2)
             (set_tasks ([InstallStandupJob (Some 9, Some 0)] ++ [])
                (onStandup sample_world 2 2 (initialize tokyo_db)))))).
Proof.
  apply (question_index_in_range sample_world 0 tokyo_db).
  eapply rtc_l; [apply (step_standup sample_world 0 _ 2 2)|].
  eapply rtc_l;
    [apply (step_task sample_world 0 _ monday_0900
              [InstallStandupJob (Some 9, Some 0)] (StartChat 2) []);
     reflexivity|].
  eapply rtc_l;
    [apply (step_message sample_world 0 _ monday_0900 2 2 "rui"
              (Some "Reviewed PRs") NoFault)|].
  apply rtc_refl.
Defined.

(** ** The recurring job *)

Lemma handles_fresh_scheduleJob (j : job) (s : scheduler) :
  handles_fresh s → handles_fresh (scheduleJob j s).1.
Proof.
  intros [Hnd Hlt]. unfold scheduleJob.
  destruct (valid_rule j); [|exact (conj Hnd Hlt)].
  unfold handles_fresh. simpl. split.
  - rewrite fmap_app. apply NoDup_app. split; [exact Hnd|]. split.
    + intros h Hh Hin. simpl in Hin. apply list_elem_of_singleton in Hin.
      apply list_elem_of_fmap in Hh as (e & -> & He).
      specialize (Hlt e He). lia.
    + simpl. apply NoDup_singleton.
  - intros e He. apply elem_of_app in He as [He|He].
    + specialize (Hlt e He). lia.
    + apply list_elem_of_singleton in He as ->. simpl. lia.
Qed.

Lemma handles_fresh_cancelJob (h : nat) (s : scheduler) :
  handles_fresh s → handles_fresh (cancelJob h s).
Proof.
  intros [Hnd Hlt]. unfold handles_fresh, cancelJob. simpl. split.
  - clear Hlt. induction (live s) as [|e l IH]; [constructor|].
    rewrite fmap_cons in Hnd. apply NoDup_cons in Hnd as [He Hnd].
    rewrite filter_cons. destruct (decide (e.1 ≠ h)); [|now apply IH].
    rewrite fmap_cons. apply NoDup_cons. split; [|now apply IH].
    intros Hin. apply He. apply list_elem_of_fmap in Hin as (e' & Heq & He').
    apply list_elem_of_filter in He' as [_ He'].
    apply list_elem_of_fmap. eauto.
  - intros e He. apply list_elem_of_filter in He as [_ He]. now apply Hlt.
Qed.

Lemma handle_determines_job (l : list (nat * job)) (c e : nat * job) :
  NoDup ((λ e, e.1) <$> l) → c ∈ l → e ∈ l → c.1 = e.1 → c = e.
Proof.
  induction l as [|x l IH]; intros Hnd Hc He Heq.
  - now apply elem_of_nil in Hc.
  - rewrite fmap_cons in Hnd. apply NoDup_cons in Hnd as [Hx Hnd].
    apply elem_of_cons in Hc as [->|Hc]; apply elem_of_cons in He as [->|He].
    + reflexivity.
    + exfalso. apply Hx. rewrite Heq. apply list_elem_of_fmap. eauto.
    + exfalso. apply Hx. rewrite <- Heq. apply list_elem_of_fmap. eauto.
    + now apply IH.
Qed.

Lemma scheduleLateReminders_sched (off now hour minute : Z) (st : state) :
  sched (scheduleLateReminders off now hour minute st) = sched st
  ∨ ∃ t, sched (scheduleLateReminders off now hour minute st)
         = (scheduleJob (DateJob t) (sched st)).1.
Proof.
  unfold scheduleLateReminders.
  destruct (negb (getLateReminderSettings (db st)).1); [now left|].
  destruct (getLateReminderSettings (db st)).2; [|now left].
  case_decide; [right; eauto | now left].
Qed.

Lemma same_installs_app (ts more : list task) :
  (∀ time, InstallStandupJob time ∉ more) → same_installs ts (ts ++ more).
Proof.
  intros Hmore time. rewrite elem_of_app. split; [|now left].
  intros [H|H]; [exact H | now destruct (Hmore time)].
Qed.

Lemma same_installs_trans (a b c : list task) :
  same_installs a b → same_installs b c → same_installs a c.
Proof. unfold same_installs. intros H1 H2 time. now rewrite H2, H1. Qed.

Lemma loop_calls_no_install (ids : list Z) (time : option Z * option Z) :
  InstallStandupJob time ∉ loop_calls ids.
Proof.
  unfold loop_calls. induction ids as [|id l IH]; simpl.
  - apply not_elem_of_nil.
  - intros H. apply elem_of_cons in H as [H|H]; [discriminate H|].
    apply elem_of_cons in H as [H|H]; [discriminate H|]. now apply IH.
Qed.

(** A job that starts keeps the handles fresh and adds no installation;
    unless it carries the handle of a live recurring job, that job stays
    live. *)
Lemma runJob_keeps_trigger
    (w : world) (off now : Z) (st : state) (e : nat * job) :
  handles_fresh (sched st) →
  let st' := runJob w off now st e in
  handles_fresh (sched st')
  ∧ same_installs (tasks st) (tasks st')
  ∧ ∀ c, c ∈ live (sched st) → (is_recurring e = false → c.1 ≠ e.1) →
         c ∈ live (sched st').
Proof.
  intros Hfresh. unfold runJob. destruct e as [h [minute hour|t]];
    cbn [snd fst].
  - unfold standupJobFire. rewrite standupLoop_matching.
    cbn [sched tasks set_tasks].
    destruct (scheduleLateReminders_keeps off now hour minute st)
      as (-> & _).
    split; [|split].
    + destruct (scheduleLateReminders_sched off now hour minute st)
        as [->|[t ->]]; [exact Hfresh | now apply handles_fresh_scheduleJob].
    + apply same_installs_app. intros time. apply loop_calls_no_install.
    + intros c Hc _.
      destruct (scheduleLateReminders_sched off now hour minute st)
        as [->|[t ->]]; [exact Hc|].
      unfold scheduleJob. cbn [valid_rule fst live].
      apply elem_of_app. now left.
  - unfold lateReminderFire, spawn. cbn [sched tasks set_tasks set_db set_sched].
    split; [now apply handles_fresh_cancelJob|]. split.
    + apply same_installs_app. intros time H.
      apply list_elem_of_singleton in H. discriminate H.
    + intros c Hc Hne. unfold cancelJob. cbn [live].
      apply list_elem_of_filter. split; [now apply Hne | exact Hc].
Qed.

Lemma jobs_keep_trigger
    (w : world) (off now : Z) (l : list (nat * job)) (st : state) :
  handles_fresh (sched st) →
  let st' := foldl (runJob w off now) st l in
  handles_fresh (sched st')
  ∧ same_installs (tasks st) (tasks st')
  ∧ ∀ c, c ∈ live (sched st) →
         (∀ e, e ∈ l → is_recurring e = false → c.1 ≠ e.1) →
         c ∈ live (sched st').
Proof.
  revert st. induction l as [|e l IH]; intros st Hfresh; simpl.
  - split; [exact Hfresh|]. split; [now intros time|]. now intros c Hc _.
  - destruct (runJob_keeps_trigger w off now st e Hfresh)
      as (Hfresh' & Hsame & Hkeep).
    destruct (IH (runJob w off now st e) Hfresh') as (Hf & Hs & Hk).
    split; [exact Hf|]. split; [now apply (same_installs_trans _ _ _ Hsame)|].
    intros c Hc Hside. apply Hk.
    + apply Hkeep; [exact Hc|]. apply Hside. left.
    + intros e' He'. apply Hside. now right.
Qed.

Lemma valid_time_after_set (hour minute : Z) (d : database) :
  0 ≤ hour ≤ 23 → 0 ≤ minute ≤ 59 →
  valid_time (getStandupTime d) →
  valid_time (getStandupTime (setStandupTime hour minute d)).
Proof.
  intros Hh Hm. unfold getStandupTime, setStandupTime.
  cbn [settings_tbl with_settings standup_hour standup_minute].
  destruct (standup_hour (settings_tbl d)) as [h0|],
           (standup_minute (settings_tbl d)) as [m0|];
    cbn [fmap option_fmap option_map];
    rewrite ?parseInt_stored
      by (change (10 ^ 21) with 1000000000000000000000; lia);
    unfold valid_time; repeat case_match; lia || tauto.
Qed.

Lemma trigger_kept_frame (st st' : state) :
  sched st' = sched st → standupJob st' = standupJob st →
  same_installs (tasks st) (tasks st') →
  settings_tbl (db st') = settings_tbl (db st) ∨
    getStandupTime (db st') = getStandupTime (db st) →
  trigger_kept st → trigger_kept st'.
Proof.
  intros Hs Hj Ht Hd (Hfresh & Hvalid & Hflight & Hheld).
  assert (Htime : getStandupTime (db st') = getStandupTime (db st))
    by (destruct Hd as [Hd|Hd]; [unfold getStandupTime; now rewrite Hd
                                | exact Hd]).
  unfold trigger_kept, holds_live_job. rewrite Hs, Hj, Htime.
  split; [exact Hfresh|]. split; [exact Hvalid|]. split.
  - intros time H. apply Hflight. now apply Ht.
  - intros Hnone. apply Hheld. intros time H. apply (Hnone time).
    now apply Ht.
Qed.

Lemma same_installs_refl (ts : list task) : same_installs ts ts.
Proof. now intros time. Qed.

Lemma addStandup_tables
    (off now u : Z) (name : string) (y t b : option string) (f : fault)
    (d : database) :
  subscriptions (addStandup off now u name y t b f d).1 = subscriptions d
  ∧ late_reminders (addStandup off now u name y t b f d).1 = late_reminders d
  ∧ settings_tbl (addStandup off now u name y t b f d).1 = settings_tbl d.
Proof. unfold addStandup. destruct f, y, t; repeat split. Qed.

Lemma tick_keeps_trigger (w : world) (off now : Z) (st : state) :
  trigger_kept st → trigger_kept (tick w off now st).
Proof.
  intros (Hfresh & Hvalid & Hflight & Hheld).
  destruct (tick_frame w off now st) as (_ & _ & _ & Hj & _ & Hset).
  unfold tick in *.
  set (st0 := if cleanupFires off now then weeklyCleanup now st else st) in *.
  assert (Hs0 : sched st0 = sched st)
    by (subst st0; now destruct (cleanupFires off now)).
  assert (Ht0 : tasks st0 = tasks st)
    by (subst st0; now destruct (cleanupFires off now)).
  destruct (jobs_keep_trigger w off now
              (filter (λ e, due off now e.2) (live (sched st))) st0)
    as (Hf & Hsame & Hkeep); [now rewrite Hs0|].
  rewrite Ht0 in Hsame.
  split; [exact Hf|]. split; [unfold getStandupTime; now rewrite Hset|].
  split; [intros time H; apply Hflight; now apply Hsame|].
  intros Hnone.
  destruct Hheld as (h & minute & hour & Hh & Hlive).
  { intros time H. apply (Hnone time). now apply Hsame. }
  exists h, minute, hour. split; [now rewrite Hj|].
  apply Hkeep; [now rewrite Hs0|].
  intros e He Hrec Heq. apply list_elem_of_filter in He as [_ He].
  destruct Hfresh as [Hnd _].
  pose proof (handle_determines_job _ _ _ Hnd Hlive He Heq) as <-.
  discriminate Hrec.
Qed.

Lemma lateCheckRun_keeps_trigger
    (w : world) (off now : Z) (pc : late_pc) (st : state) :
  sched (lateCheckRun w off now pc st) = sched st
  ∧ standupJob (lateCheckRun w off now pc st) = standupJob st
  ∧ same_installs (tasks st) (tasks (lateCheckRun w off now pc st)).
Proof.
  assert (Hspawn : ∀ pc' s, same_installs (tasks s)
                              (tasks (spawn (LateCheck pc') s))).
  { intros pc' s. apply same_installs_app. intros time H.
    apply list_elem_of_singleton in H. discriminate H. }
  destruct pc as [|status|[sub|] rest|sub [|] rest|sub rest|rest];
    cbn [lateCheckRun];
    try (destruct (lateNext_frame rest st) as [->|[pc' ->]]);
    try (destruct (lateNext_frame (filter (λ s, missing_standup s) status)
                     st) as [->|[pc' ->]]);
    try (split; [reflexivity|]; split; [reflexivity|];
         (apply same_installs_refl || apply Hspawn)).
  unfold sendReminder. destruct (getChat w (user_id sub));
    (split; [reflexivity|]; split; [reflexivity|]).
  - exact (Hspawn (LateRecorded rest)
             (set_db (recordLateReminder now (user_id sub))
                (sendMessage (Chat (user_id sub)) (Reminder true) st))).
  - exact (Hspawn (LateRecorded rest)
             (set_db (recordLateReminder now (user_id sub)) st)).
Qed.

Lemma task_keeps_trigger
    (w : world) (off now : Z) (before after : list task) (t : task)
    (st : state) :
  tasks st = before ++ t :: after →
  trigger_kept st →
  trigger_kept (runTask w off now t (set_tasks (before ++ after) st)).
Proof.
  intros Htasks (Hfresh & Hvalid & Hflight & Hheld).
  assert (Hrest : ∀ time, InstallStandupJob time ∈ before ++ after →
                          InstallStandupJob time ∈ tasks st).
  { intros time H. rewrite Htasks. apply elem_of_app in H as [H|H];
      apply elem_of_app; [now left | right; now right]. }
  destruct t as [[[hour|] [minute|]]|x|x|x late|pc]; cbn [runTask].
  - assert (Hv : valid_time (Some hour, Some minute)).
    { apply Hflight. rewrite Htasks. apply elem_of_app. right. left. }
    destruct Hv as [Hh Hm].
    rewrite installStandupJob_installs by assumption.
    unfold trigger_kept, holds_live_job.
    cbn [sched db tasks standupJob set_tasks set_sched set_standupJob].
    split.
    { pose proof (handles_fresh_scheduleJob (CronJob minute hour) (sched st)
                    Hfresh) as H.
      unfold scheduleJob in H.
      rewrite (proj2 (valid_rule_in_range hour minute)) in H
        by (split; assumption).
      exact H. }
    split; [exact Hvalid|].
    split; [intros time H; apply Hflight; now apply Hrest|].
    intros _. exists (next_handle (sched st)), minute, hour.
    split; [reflexivity|]. cbn [live]. apply elem_of_app. right. left.
  - exfalso. apply (Hflight (Some hour, None)).
    rewrite Htasks. apply elem_of_app. right. left.
  - exfalso. apply (Hflight (None, Some minute)).
    rewrite Htasks. apply elem_of_app. right. left.
  - exfalso. apply (Hflight (None, None)).
    rewrite Htasks. apply elem_of_app. right. left.
  - unfold chatFound. destruct (getChat w x).
    + unfold trigger_kept, holds_live_job.
      cbn [sched db tasks standupJob set_tasks spawn sendMessage
           set_userStates].
      split; [exact Hfresh|]. split; [exact Hvalid|]. split.
      * intros time H. apply Hflight. apply elem_of_app in H as [H|H];
          [now apply Hrest|].
        apply list_elem_of_singleton in H. discriminate H.
      * intros Hnone. apply Hheld. intros time H. rewrite Htasks in H.
        apply (Hnone time). apply elem_of_app.
        left. apply elem_of_app in H as [H|H]; apply elem_of_app;
          [now left|].
        apply elem_of_cons in H as [H|H]; [discriminate H | now right].
    + unfold trigger_kept, holds_live_job.
      cbn [sched db tasks standupJob set_tasks].
      split; [exact Hfresh|]. split; [exact Hvalid|]. split.
      * intros time H. apply Hflight. now apply Hrest.
      * intros Hnone. apply Hheld. intros time H. rewrite Htasks in H.
        apply (Hnone time).
        apply elem_of_app in H as [H|H]; apply elem_of_app;
          [now left|].
        apply elem_of_cons in H as [H|H]; [discriminate H | now right].
  - unfold trigger_kept, holds_live_job.
    cbn [sched db tasks standupJob set_tasks sendMessage].
    split; [exact Hfresh|]. split; [exact Hvalid|]. split.
    + intros time H. apply Hflight. now apply Hrest.
    + intros Hnone. apply Hheld. intros time H. rewrite Htasks in H.
      apply (Hnone time).
      apply elem_of_app in H as [H|H]; apply elem_of_app;
        [now left|].
      apply elem_of_cons in H as [H|H]; [discriminate H | now right].
  - unfold sendReminder. destruct (getChat w x);
      unfold trigger_kept, holds_live_job;
      cbn [sched db tasks standupJob set_tasks sendMessage];
      (split; [exact Hfresh|]; split; [exact Hvalid|]; split;
       [intros time H; apply Hflight; now apply Hrest|]);
      intros Hnone; apply Hheld; intros time H; rewrite Htasks in H;
      apply (Hnone time);
      (apply elem_of_app in H as [H|H]; apply elem_of_app; [now left|]);
      (apply elem_of_cons in H as [H|H]; [discriminate H | now right]).
  - destruct (lateCheckRun_keeps_trigger w off now pc
                (set_tasks (before ++ after) st)) as (Hs & Hj & Hsame).
    destruct (runTask_frame w off now (LateCheck pc)
                (set_tasks (before ++ after) st)) as (_ & _ & _ & _ & Hset).
    cbn [runTask] in Hset.
    cbn [tasks set_tasks] in Hsame.
    unfold trigger_kept, holds_live_job. rewrite Hs, Hj.
    cbn [sched standupJob set_tasks].
    split; [exact Hfresh|].
    split; [unfold getStandupTime; rewrite Hset; exact Hvalid|]. split.
    + intros time H. apply Hflight, Hrest. now apply Hsame.
    + intros Hnone. apply Hheld. intros time H. rewrite Htasks in H.
      apply (Hnone time). apply Hsame.
      apply elem_of_app in H as [H|H]; apply elem_of_app;
        [now left|].
      apply elem_of_cons in H as [H|H]; [discriminate H | now right].
Qed.

Lemma step_keeps_trigger (w : world) (off : Z) (st st' : state) :
  step w off st st' → trigger_kept st → trigger_kept st'.
Proof.
  intros Hstep H. destruct Hstep;
    try (apply (trigger_kept_frame st);
         [| | |
          |exact H];
         unfold onStart, onSubscribe, onUnsubscribe, onMembers, onReplay,
           onVacationDate, onVacation, onBack, onTimezone,
           onTimezoneSet, onLateReminder, onLateReminderHours, onStatus,
           guarded, commandGuard;
         repeat (case_decide || case_match);
         try reflexivity; try apply same_installs_refl;
         (left; reflexivity) || (right; reflexivity)).
  - apply (trigger_kept_frame st); [| | | |exact H];
      unfold onStandup, commandGuard, startUserStandup;
      repeat (case_decide || case_match);
      try reflexivity; try apply same_installs_refl; try (now left).
    apply same_installs_app. intros time Hin.
    apply list_elem_of_singleton in Hin. discriminate Hin.
  - apply (trigger_kept_frame st); [| | | |exact H];
      unfold onMessage, submit;
      repeat (case_decide || case_match);
      try reflexivity; try apply same_installs_refl; try (now left);
      left; cbn [db sendMessage set_db set_userStates set_standupResponses];
      match goal with
      | |- context [addStandup ?o ?n ?u ?nm ?y ?t ?b ?f ?d] =>
          exact (proj2 (proj2 (addStandup_tables o n u nm y t b f d)))
      end.
  - apply (trigger_kept_frame st); [| | | |exact H];
      unfold onSkip, commandGuard, submit;
      repeat (case_decide || case_match);
      try reflexivity; try apply same_installs_refl; try (now left);
      left; cbn [db sendMessage set_db set_userStates set_standupResponses];
      match goal with
      | |- context [addStandup ?o ?n ?u ?nm ?y ?t ?b ?f ?d] =>
          exact (proj2 (proj2 (addStandup_tables o n u nm y t b f d)))
      end.
  - unfold onSetTime, commandGuard.
    destruct (isChannelMember w u); [|exact H].
    destruct (negb (isAdmin (admins w) (db st) u)); [exact H|].
    destruct (decide (hour < 0 ∨ hour > 23 ∨ minute < 0 ∨ minute > 59))
      as [|Hok]; [exact H|].
    destruct H as (Hfresh & Hvalid & Hflight & Hheld).
    assert (Hnew : valid_time
                     (getStandupTime (setStandupTime hour minute (db st))))
      by (apply valid_time_after_set; [lia | lia | exact Hvalid]).
    unfold trigger_kept, holds_live_job, scheduleStandups.
    change (standupJob (set_db (setStandupTime hour minute) st))
      with (standupJob st).
    destruct (standupJob st) as [h|];
      cbn [sched db tasks standupJob set_tasks spawn sendMessage set_db
           set_sched];
      (split; [now try apply handles_fresh_cancelJob|]);
      (split; [exact Hnew|]);
      (split;
       [intros time Hin; apply elem_of_app in Hin as [Hin|Hin];
        [now apply Hflight
        |apply list_elem_of_singleton in Hin; injection Hin as ->;
         exact Hnew]
       |intros Hnone; exfalso;
        apply (Hnone (getStandupTime (setStandupTime hour minute (db st))));
        apply elem_of_app; right; left]).
  - now apply tick_keeps_trigger.
  - now apply task_keeps_trigger.
Qed.

(** X22: the trigger is never lost. Started on a store whose trigger time
    reads in range (as the defaults do), whatever commands and messages
    arrive, whichever jobs start and however the work in flight goes on:
    whenever no installation of [scheduleStandups] is in flight,
    [global.standupJob] holds a recurring job that is live. (More than one
    recurring job may be live.) *)
Theorem trigger_never_lost
    (w : world) (off : Z) (d : database) (st : state) :
  valid_time (getStandupTime (initializeDatabase d)) →
  rtc (step w off) (initialize d) st →
  (∀ time, InstallStandupJob time ∉ tasks st) →
  ∃ h minute hour,
    standupJob st = Some h ∧ (h, CronJob minute hour) ∈ live (sched st).
Proof.
  intros Hvalid Hreach.
  assert (Hinv : trigger_kept st).
  { assert (H0 : trigger_kept (initialize d)).
    { unfold initialize, scheduleStandups, trigger_kept, holds_live_job.
      cbn [sched db tasks standupJob set_tasks spawn].
      split; [split; [constructor | intros e He; now apply elem_of_nil in He]|].
      split; [exact Hvalid|]. split.
      - intros time Hin. apply list_elem_of_singleton in Hin.
        injection Hin as ->. exact Hvalid.
      - intros Hnone. exfalso.
        apply (Hnone (getStandupTime (initializeDatabase d))). left. }
    revert H0. induction Hreach as [st|st st1 st2 Hstep _ IH]; intros H0;
      [exact H0|].
    apply IH. now apply (step_keeps_trigger w off st). }
  destruct Hinv as (_ & _ & _ & Hheld). exact Hheld.
Qed.

(** ** The registry *)

Lemma registry_ok_same (w : world) (d d' : database) :
  subscriptions d' = subscriptions d → settings_tbl d' = settings_tbl d →
  registry_ok w d → registry_ok w d'.
Proof. unfold registry_ok. now intros -> ->. Qed.

Lemma NoDup_keys_filter (P : subscription → Prop) `{∀ r, Decision (P r)}
    (l : list subscription) :
  NoDup (user_id <$> l) → NoDup (user_id <$> filter P l).
Proof.
  induction l as [|z l IH]; intros Hnd; [constructor|].
  rewrite fmap_cons in Hnd. apply NoDup_cons in Hnd as [Hz Hnd].
  rewrite filter_cons. destruct (decide (P z)); [|now apply IH].
  rewrite fmap_cons. apply NoDup_cons. split; [|now apply IH].
  intros Hin. apply Hz. apply list_elem_of_fmap in Hin as (y & Hid & Hy).
  apply list_elem_of_filter in Hy as [_ Hy]. apply list_elem_of_fmap. eauto.
Qed.

Lemma registry_ok_addSubscriber
    (w : world) (u : Z) (name : string) (d : database) :
  zones_stable w → registry_ok w d → registry_ok w (addSubscriber u name d).
Proof.
  intros [Hlisbon _] (Hnd & Hset & Hz). split; [|split; [exact Hset|]].
  - unfold addSubscriber. simpl. rewrite insert_row_perm, fmap_cons.
    apply NoDup_cons. split; [|now apply NoDup_keys_filter].
    intros Hin. apply list_elem_of_fmap in Hin as (y & Hid & Hy).
    apply list_elem_of_filter in Hy as [Hne _]. simpl in Hid. congruence.
  - intros r now Hr. unfold addSubscriber in Hr. simpl in Hr.
    apply elem_of_insert_row in Hr as [->|Hr].
    + simpl. apply Hlisbon.
    + apply list_elem_of_filter in Hr as [_ Hr]. now apply Hz.
Qed.

Lemma registry_ok_removeSubscriber (w : world) (u : Z) (d : database) :
  registry_ok w d → registry_ok w (removeSubscriber u d).
Proof.
  intros (Hnd & Hset & Hz). split; [|split; [exact Hset|]].
  - unfold removeSubscriber. simpl. now apply NoDup_keys_filter.
  - intros r now Hr. unfold removeSubscriber in Hr. simpl in Hr.
    apply list_elem_of_filter in Hr as [_ Hr]. now apply Hz.
Qed.

Lemma registry_ok_update
    (w : world) (u : Z) (f : subscription → subscription) (d : database) :
  (∀ r, user_id (f r) = user_id r) →
  (∀ r now, is_Some (zones w (js_or (timezone r) "Europe/Lisbon") now) →
            is_Some (zones w (js_or (timezone (f r)) "Europe/Lisbon") now)) →
  registry_ok w d → registry_ok w (update_subscription u f d).
Proof.
  intros Hid Hzone (Hnd & Hset & Hz). split; [|split; [exact Hset|]].
  - unfold update_subscription. simpl. rewrite <- list_fmap_compose.
    erewrite list_fmap_ext; [exact Hnd|]. intros i r _. simpl.
    destruct (decide (user_id r = u)); [apply Hid | reflexivity].
  - intros r' now Hr'.
    apply elem_of_update_subscription in Hr' as (r & Hr & ->).
    destruct (decide (user_id r = u)); [apply Hzone|]; now apply Hz.
Qed.

Lemma registry_ok_setUserTimezone
    (w : world) (now u : Z) (zone : string) (d : database) :
  zones_stable w → is_Some (zones w zone now) →
  registry_ok w d → registry_ok w (setUserTimezone u zone d).
Proof.
  intros [Hlisbon Hstable] Hknown. apply registry_ok_update; [reflexivity|].
  intros r later _. simpl. destruct (decide (zone = "")); [apply Hlisbon|].
  now apply (Hstable zone now).
Qed.

Lemma registry_ok_settings (w : world) (d : database) (s : settings) :
  (is_Some (standup_hour (settings_tbl d)) → is_Some (standup_hour s)) →
  (is_Some (standup_minute (settings_tbl d)) → is_Some (standup_minute s)) →
  (is_Some (late_reminder_enabled (settings_tbl d)) →
   is_Some (late_reminder_enabled s)) →
  (is_Some (late_reminder_hours (settings_tbl d)) →
   is_Some (late_reminder_hours s)) →
  registry_ok w d → registry_ok w (with_settings d s).
Proof.
  intros H1 H2 H3 H4 (Hnd & (G1 & G2 & G3 & G4) & Hz).
  split; [exact Hnd|]. split; [|exact Hz]. simpl. auto.
Qed.

Lemma step_keeps_registry (w : world) (off : Z) (st st' : state) :
  zones_stable w →
  step w off st st' → registry_ok w (db st) → registry_ok w (db st').
Proof.
  intros Hw Hstep H. destruct Hstep.
  - unfold onStart, guarded. case_match; exact H.
  - unfold onSubscribe, guarded. repeat case_match; try exact H.
    now apply registry_ok_addSubscriber.
  - unfold onUnsubscribe, guarded. repeat case_match; try exact H.
    now apply registry_ok_removeSubscriber.
  - unfold onMembers, guarded. repeat (case_decide || case_match); exact H.
  - unfold onStandup, commandGuard, startUserStandup.
    repeat (case_decide || case_match); exact H.
  - unfold onReplay, guarded. repeat (case_decide || case_match); exact H.
  - unfold onMessage, submit.
    repeat (case_decide || case_match); try exact H;
      cbn [db sendMessage set_db set_userStates set_standupResponses];
      match goal with
      | |- context [addStandup ?o ?n ?u ?nm ?y ?t ?b ?f ?d] =>
          destruct (addStandup_tables o n u nm y t b f d) as (Hs & _ & Hset)
      end;
      now apply (registry_ok_same w (db st)).
  - unfold onSkip, commandGuard, submit.
    repeat (case_decide || case_match); try exact H;
      cbn [db sendMessage set_db set_userStates set_standupResponses];
      match goal with
      | |- context [addStandup ?o ?n ?u ?nm ?y ?t ?b ?f ?d] =>
          destruct (addStandup_tables o n u nm y t b f d) as (Hs & _ & Hset)
      end;
      now apply (registry_ok_same w (db st)).
  - unfold onVacationDate, guarded.
    repeat (case_decide || case_match); try exact H.
    apply registry_ok_update; [reflexivity | | exact H]. intros; assumption.
  - unfold onVacation, guarded. case_match; exact H.
  - unfold onBack. repeat case_match; simplify_eq; try exact H.
    apply registry_ok_update; [reflexivity | | exact H]. intros; assumption.
  - unfold onSetTime, commandGuard.
    repeat (case_decide || case_match); try exact H.
    apply (registry_ok_same w (setStandupTime hour minute (db st))).
    + unfold scheduleStandups. simpl. destruct (standupJob st); reflexivity.
    + unfold scheduleStandups. simpl. destruct (standupJob st); reflexivity.
    + apply registry_ok_settings; try exact H; simpl; try tauto;
        intros [x ->]; simpl; eauto.
  - unfold onTimezone, guarded. repeat case_match; exact H.
  - unfold onTimezoneSet, guarded. repeat case_match; try exact H.
    apply (registry_ok_setUserTimezone w now); eauto.
  - unfold onLateReminder, commandGuard. repeat case_match; try exact H.
    apply registry_ok_settings; try exact H; simpl; try tauto;
      intros [x ->]; simpl; eauto.
  - unfold onLateReminderHours, commandGuard.
    repeat (case_decide || case_match); try exact H.
    apply registry_ok_settings; try exact H; simpl; try tauto;
      intros [x ->]; simpl; eauto.
  - unfold onStatus, guarded. repeat (case_decide || case_match); exact H.
  - destruct (tick_frame w off now st) as (_ & _ & _ & _ & Hs & Hset).
    now apply (registry_ok_same w (db st)).
  - destruct (runTask_frame w off now t (set_tasks (before ++ after) st))
      as (_ & _ & Hs & _ & Hset).
    now apply (registry_ok_same w (db st)).
Qed.

(** X23: the registry stays well formed. Started on a store with one row
    per participant and only zones that [Intl] knows, and with an [Intl]
    that knows ['Europe/Lisbon'] and does not forget a zone, the bot keeps
    it so whatever happens: one row per participant, all four settings
    present, and every stored zone acceptable to [toLocaleString], so that
    the loop of the recurring job never throws on a subscriber. *)
Theorem registry_stays_well_formed
    (w : world) (off : Z) (d : database) (st : state) :
  zones_stable w →
  NoDup (user_id <$> subscriptions d) →
  (∀ r now, r ∈ subscriptions d →
     is_Some (zones w (js_or (timezone r) "Europe/Lisbon") now)) →
  rtc (step w off) (initialize d) st →
  registry_ok w (db st)
  ∧ ∀ now r, r ∈ subscriptions (db st) →
      is_Some (toLocaleHM (zones w) (js_or (timezone r) "Europe/Lisbon") now).
Proof.
  intros Hw Hnd Hz Hreach.
  assert (Hinv : registry_ok w (db st)).
  { assert (H0 : registry_ok w (db (initialize d))).
    { unfold initialize, scheduleStandups. simpl.
      split; [exact Hnd|]. split; [|exact Hz]. simpl. eauto. }
    revert H0. induction Hreach as [st|st st1 st2 Hstep _ IH]; intros H0;
      [exact H0|].
    apply IH. now apply (step_keeps_registry w off st). }
  split; [exact Hinv|]. intros now r Hr.
  destruct Hinv as (_ & _ & Hzones).
  destruct (Hzones r now Hr) as [o Ho]. unfold toLocaleHM. rewrite Ho. eauto.
Qed.

Lemma sample_zones_stable : zones_stable sample_world.
Proof.
  split.
  - intros now. simpl. unfold sample_zones. simpl. eauto.
  - intros zone now later. simpl. unfold sample_zones.
    repeat case_decide; intros Hknown; exact Hknown.
Defined.

Lemma registry_stays_well_formed_witness :
  registry_ok sample_world
    (db (onTimezoneSet sample_world monday_0900 2 2 "America/New_York"
           (onSubscribe sample_world 7 7 "eva" (initialize tokyo_db)).1).1)
  ∧ ∀ now r,
      r ∈ subscriptions
            (db (onTimezoneSet sample_world monday_0900 2 2 "America/New_York"
                   (onSubscribe sample_world 7 7 "eva"
                      (initialize tokyo_db)).1).1) →
      is_Some (toLocaleHM (zones sample_world)
                 (js_or (timezone r) "Europe/Lisbon") now).
Proof.
  apply (registry_stays_well_formed sample_world 0 tokyo_db).
  - exact sample_zones_stable.
  - simpl. apply NoDup_cons. split; [|apply NoDup_singleton].
    intros H. apply list_elem_of_singleton in H. discriminate H.
  - intros r now Hr. simpl in Hr.
    apply elem_of_cons in Hr as [->|Hr];
      [|apply list_elem_of_singleton in Hr as ->]; vm_compute; eauto.
  - eapply rtc_l; [apply (step_subscribe sample_world 0 _ 7 7 "eva")|].
    eapply rtc_l;
      [apply (step_timezone_set sample_world 0 _ monday_0900 2 2
                "America/New_York")|].
    apply rtc_refl.
Defined.

(** ** Work in flight, served in order *)

Lemma runHeads_steps (w : world) (off now : Z) (n : nat) (st : state) :
  rtc (step w off) st (runHeads w off now n st).
Proof.
  revert st. induction n as [|n IH]; intros st; simpl; [apply rtc_refl|].
  destruct (tasks st) as [|t rest] eqn:E; [apply rtc_refl|].
  eapply rtc_l; [apply (step_task w off st now [] t rest); exact E|].
  apply IH.
Qed.

Lemma runHeads_head
    (w : world) (off now : Z) (n : nat) (t : task) (rest : list task)
    (st : state) :
  tasks st = t :: rest →
  runHeads w off now (S n) st
  = runHeads w off now n (runTask w off now t (set_tasks rest st)).
Proof. intros H. simpl. now rewrite H. Qed.

Lemma steps_then (w : world) (off : Z) (a b c : state) :
  rtc (step w off) a b → rtc (step w off) b c → rtc (step w off) a c.
Proof. intros Hab Hbc. induction Hab; [exact Hbc|]. eapply rtc_l; eauto. Qed.

Ltac serve now n :=
  eapply steps_then; [apply (runHeads_steps _ _ now n)|].
Tactic Notation "event" open_constr(c) := eapply rtc_l; [apply c|].

Lemma trigger_never_lost_witness :
  ∃ h minute hour,
    standupJob (runHeads sample_world 0 monday_0900 1 (initialize tokyo_db))
    = Some h
    ∧ (h, CronJob minute hour)
      ∈ live (sched (runHeads sample_world 0 monday_0900 1
                       (initialize tokyo_db))).
Proof.
  apply (trigger_never_lost sample_world 0 tokyo_db).
  - vm_compute. repeat split; discriminate.
  - apply runHeads_steps.
  - intros time H. vm_compute in H. now apply elem_of_nil in H.
Defined.

(** ** Two changes of the trigger time in a row *)

Lemma onSetTime_admin
    (w : world) (u c hour minute : Z) (st : state) :
  isChannelMember w u = true → isAdmin (admins w) (db st) u = true →
  0 ≤ hour ≤ 23 → 0 ≤ minute ≤ 59 →
  onSetTime w u c hour minute st
  = sendMessage (Chat c) (TimeSet hour minute)
      (scheduleStandups (set_db (setStandupTime hour minute) st)).
Proof.
  intros Hmem Hadmin Hh Hm. unfold onSetTime, commandGuard.
  rewrite Hmem, Hadmin. cbn [negb].
  destruct (decide (hour < 0 ∨ hour > 23 ∨ minute < 0 ∨ minute > 59))
    as [Hbad|_]; [lia | reflexivity].
Qed.

(** What the command leaves, for an administrator and a time in range. *)
Lemma onSetTime_leaves
    (w : world) (u c hour minute : Z) (st : state) :
  isChannelMember w u = true → isAdmin (admins w) (db st) u = true →
  0 ≤ hour ≤ 23 → 0 ≤ minute ≤ 59 →
  is_Some (standup_hour (settings_tbl (db st))) →
  is_Some (standup_minute (settings_tbl (db st))) →
  standupJob_owns_recurring st →
  let st' := onSetTime w u c hour minute st in
  recurring (sched st') = []
  ∧ next_handle (sched st') = next_handle (sched st)
  ∧ tasks st' = tasks st ++ [InstallStandupJob (Some hour, Some minute)]
  ∧ db st' = setStandupTime hour minute (db st)
  ∧ getStandupTime (db st') = (Some hour, Some minute).
Proof.
  intros Hmem Hadmin Hh Hm Hh0 Hm0 Hown st'. subst st'.
  rewrite onSetTime_admin by assumption.
  set (st0 := set_db (setStandupTime hour minute) st).
  assert (Hown0 : standupJob_owns_recurring st0) by exact Hown.
  destruct (scheduleStandups_cancels st0 Hown0)
    as (Hrec & Hnext & Htasks & Hdb & _).
  assert (Htime : getStandupTime (db st0) = (Some hour, Some minute))
    by (now apply getStandupTime_after_set).
  rewrite Htime in Htasks.
  cbn [sched tasks db sendMessage].
  split; [exact Hrec|]. split; [exact Hnext|]. split; [exact Htasks|].
  split; [exact Hdb|]. now rewrite Hdb.
Qed.

(** X24: two changes of the trigger time, the second handled before the
    installation of the first has run. Each cancels the job
    [global.standupJob] holds at that moment, which is the old one both
    times, and each installs a job of its own: two recurring jobs are then
    live, one for each time; [global.standupJob] holds the second, which is
    the stored time, and nothing holds the first, so that no later change
    cancels it. *)
Theorem overlapping_reinstallations_leave_two_jobs
    (w : world) (off now now' u c u' c' hour minute hour' minute' : Z)
    (st : state) :
  isChannelMember w u = true → isAdmin (admins w) (db st) u = true →
  isChannelMember w u' = true → isAdmin (admins w) (db st) u' = true →
  0 ≤ hour ≤ 23 → 0 ≤ minute ≤ 59 → 0 ≤ hour' ≤ 23 → 0 ≤ minute' ≤ 59 →
  is_Some (standup_hour (settings_tbl (db st))) →
  is_Some (standup_minute (settings_tbl (db st))) →
  standupJob_owns_recurring st →
  tasks st = [] →
  let st2 := onSetTime w u' c' hour' minute' (onSetTime w u c hour minute st) in
  let st4 := runHeads w off now' 1 (runHeads w off now 1 st2) in
  tasks st2 = [InstallStandupJob (Some hour, Some minute);
               InstallStandupJob (Some hour', Some minute')]
  ∧ recurring (sched st2) = []
  ∧ rtc (step w off) st st4
  ∧ tasks st4 = []
  ∧ recurring (sched st4)
    = [(next_handle (sched st), CronJob minute hour);
       (S (next_handle (sched st)), CronJob minute' hour')]
  ∧ standupJob st4 = Some (S (next_handle (sched st)))
  ∧ getStandupTime (db st4) = (Some hour', Some minute').
Proof.
  intros Hmem Hadmin Hmem' Hadmin' Hh Hm Hh' Hm' Hh0 Hm0 Hown Hidle st2 st4.
  destruct (onSetTime_leaves w u c hour minute st)
    as (Hrec1 & Hnext1 & Htasks1 & Hdb1 & _); try assumption.
  set (st1 := onSetTime w u c hour minute st) in *.
  rewrite Hidle in Htasks1. cbn [app] in Htasks1.
  assert (Hown1 : standupJob_owns_recurring st1).
  { intros e He. rewrite Hrec1 in He. now apply elem_of_nil in He. }
  destruct (onSetTime_leaves w u' c' hour' minute' st1)
    as (Hrec2 & Hnext2 & Htasks2 & Hdb2 & Htime2); try assumption.
  { rewrite Hdb1. exact Hadmin'. }
  { rewrite Hdb1. destruct Hh0 as [x Hx]. cbn. rewrite Hx. cbn. eauto. }
  { rewrite Hdb1. destruct Hm0 as [x Hx]. cbn. rewrite Hx. cbn. eauto. }
  fold st2 in Hrec2, Hnext2, Htasks2, Hdb2, Htime2.
  rewrite Htasks1 in Htasks2. cbn [app] in Htasks2.
  rewrite Hnext1 in Hnext2.
  assert (Hst4 : st4
          = set_standupJob (Some (S (next_handle (sched st))))
              (set_sched
                 {| live := (live (sched st2)
                             ++ [(next_handle (sched st), CronJob minute hour)])
                            ++ [(S (next_handle (sched st)),
                                 CronJob minute' hour')];
                    next_handle := S (S (next_handle (sched st))) |}
                 (set_tasks [] st2))).
  { subst st4.
    rewrite (runHeads_head w off now 0 _ _ st2 Htasks2).
    cbn [runHeads runTask].
    rewrite installStandupJob_installs by assumption.
    cbn [runTask tasks set_tasks set_sched set_standupJob sched].
    rewrite installStandupJob_installs by assumption.
    cbn [tasks set_tasks set_sched set_standupJob sched live next_handle].
    rewrite Hnext2. reflexivity. }
  split; [exact Htasks2|]. split; [exact Hrec2|]. split.
  { event (step_set_time w off st u c hour minute).
    event (step_set_time w off st1 u' c' hour' minute').
    subst st4. fold st2. serve now 1%nat. apply runHeads_steps. }
  rewrite Hst4.
  cbn [tasks sched standupJob db set_tasks set_sched set_standupJob].
  split; [reflexivity|]. split; [|split; [reflexivity | exact Htime2]].
  unfold recurring in *. cbn [live]. rewrite !filter_app, Hrec2.
  reflexivity.
Qed.

Lemma overlapping_reinstallations_leave_two_jobs_witness :
  recurring
    (sched (runHeads sample_world 0 monday_0900 1
              (runHeads sample_world 0 monday_0900 1
                 (onSetTime sample_world 1 1 11 45
                    (onSetTime sample_world 1 1 10 30
                       (runHeads sample_world 0 monday_0900 1
                          (initialize tokyo_db)))))))
  = [(1%nat, CronJob 30 10); (2%nat, CronJob 45 11)].
Proof.
  refine (proj1 (proj2 (proj2 (proj2 (proj2
    (overlapping_reinstallations_leave_two_jobs sample_world 0
       monday_0900 monday_0900 1 1 1 1 10 30 11 45
       (runHeads sample_world 0 monday_0900 1 (initialize tokyo_db))
       eq_refl eq_refl eq_refl eq_refl _ _ _ _ _ _ _ eq_refl)))))).
  - lia.
  - lia.
  - lia.
  - lia.
  - exists "9". vm_compute. reflexivity.
  - exists "0". vm_compute. reflexivity.
  - intros e He. vm_compute in He.
    apply list_elem_of_singleton in He as ->. vm_compute. reflexivity.
Defined.

(** ** Two late-reminder checks at once *)

(** C6, at the failing input: two late-reminder checks are due at 13:00 of
    the same day (the trigger was moved from 09:00 to 10:00 and the delay
    from 4 to 3 hours after the 09:00 job had installed its check).
    Participant 2 has no response and no reminder record. Both callbacks
    start at 13:00 and each goes on as its calls come back: both ask
    [hasReceivedLateReminderToday] before either has recorded, so both send
    the reminder and both record it. The participant gets two late
    reminders and two records for the day. Started one after the other,
    the same two checks send one. *)
Theorem overlapping_late_checks_remind_twice :
  rtc (step sample_world 0) (initialize tokyo_db) two_checks_pending
  ∧ live (sched two_checks_pending)
    = [(1%nat, DateJob monday_1300); (2%nat, CronJob 0 10);
       (3%nat, DateJob monday_1300)]
  ∧ tasks two_checks_pending = []
  ∧ getTodayStandups 0 monday_1300 (db two_checks_pending) = []
  ∧ late_reminders_sent two_checks_pending 2 = 0%nat
  ∧ reminders_on 0 19730 (db two_checks_pending) 2 = 0%nat
  ∧ tasks (tick sample_world 0 monday_1300 two_checks_pending)
    = [LateCheck LateCleaned; LateCheck LateCleaned]
  ∧ rtc (step sample_world 0) two_checks_pending two_checks_done
  ∧ tasks two_checks_done = []
  ∧ late_reminders_sent two_checks_done 2 = 2%nat
  ∧ reminders_on 0 19730 (db two_checks_done) 2 = 2%nat
  ∧ late_reminders_sent two_checks_in_a_row 2 = 1%nat
  ∧ reminders_on 0 19730 (db two_checks_in_a_row) 2 = 1%nat.
Proof.
  split.
  { unfold two_checks_pending. cbv zeta.
    serve monday_0900 1%nat.
    event (step_tick sample_world 0 _ monday_0900).
    serve monday_0900 3%nat.
    event (step_set_time sample_world 0 _ 1 1 10 0).
    serve monday_0900 1%nat.
    event (step_late_reminder_hours sample_world 0 _ 1 1 3).
    event (step_tick sample_world 0 _ monday_1000).
    apply runHeads_steps. }
  do 6 (split; [vm_compute; reflexivity|]).
  split.
  { unfold two_checks_done.
    event (step_tick sample_world 0 _ monday_1300).
    apply runHeads_steps. }
  repeat split; vm_compute; reflexivity.
Qed.

(** ** A late-reminder check that runs undisturbed *)

Lemma runHeads_spawn
    (w : world) (off now : Z) (n : nat) (t : task) (st : state) :
  tasks st = [] →
  runHeads w off now (S n) (spawn t st)
  = runHeads w off now n (runTask w off now t st).
Proof.
  intros Hidle. rewrite (runHeads_head w off now n t []).
  - change (set_tasks [] (spawn t st)) with (set_tasks [] st).
    rewrite <- Hidle, set_tasks_same. reflexivity.
  - unfold spawn. cbn [tasks set_tasks]. now rewrite Hidle.
Qed.

Lemma lateLoop_alone
    (w : world) (off now : Z) (rest : list status) (st : state) :
  tasks st = [] →
  ∃ n, runHeads w off now n (lateNext rest st)
       = foldl (lateReminderStep w off now) st rest.
Proof.
  revert st. induction rest as [|user rest IH]; intros st Hidle.
  - exists 0%nat. reflexivity.
  - cbn [lateNext foldl]. unfold lateReminderStep at 2.
    destruct (getSubscriberByUsername (db st) (st_username user))
      as [sub|] eqn:Hsub.
    + destruct (hasReceivedLateReminderToday off now (db st) (user_id sub))
        eqn:Hhas.
      * destruct (IH st Hidle) as [n Hn]. exists (S (S n)).
        rewrite runHeads_spawn by assumption.
        cbn [runTask lateCheckRun]. rewrite Hhas.
        rewrite runHeads_spawn by assumption.
        cbn [runTask lateCheckRun]. exact Hn.
      * set (st' := set_db (recordLateReminder now (user_id sub))
                      (sendReminder w (user_id sub) true st)).
        assert (Hidle' : tasks st' = []).
        { subst st'. unfold sendReminder.
          destruct (getChat w (user_id sub)); exact Hidle. }
        destruct (IH st' Hidle') as [n Hn]. exists (S (S (S (S n)))).
        rewrite runHeads_spawn by assumption.
        cbn [runTask lateCheckRun]. rewrite Hhas.
        rewrite runHeads_spawn by assumption.
        cbn [runTask lateCheckRun].
        rewrite runHeads_spawn by assumption.
        cbn [runTask lateCheckRun]. fold st'.
        rewrite runHeads_spawn by assumption.
        cbn [runTask lateCheckRun]. exact Hn.
    + destruct (IH st Hidle) as [n Hn]. exists (S n).
      rewrite runHeads_spawn by assumption.
      cbn [runTask lateCheckRun]. exact Hn.
Qed.

(** X27: a late-reminder check that nothing comes between. When no other
    work is in flight and the steps of the check follow one another at one
    instant, from the start of its callback to its end, the state it
    leaves is the one [lateReminderJob] gives: the records of earlier days
    are deleted, and each subscriber found missing is looked up, asked
    about, reminded and recorded in turn. *)
Theorem late_check_alone (w : world) (off now : Z) (st : state) :
  tasks st = [] →
  ∃ n, runHeads w off now n (lateReminderFire off now st)
       = lateReminderJob w off now st
       ∧ rtc (step w off) (lateReminderFire off now st)
           (lateReminderJob w off now st).
Proof.
  intros Hidle.
  set (st1 := set_db (cleanupOldLateReminders off now) st).
  assert (Hidle1 : tasks st1 = []) by exact Hidle.
  destruct (lateLoop_alone w off now
              (filter (λ s, missing_standup s)
                 (getStandupStatus off now (db st1))) st1 Hidle1)
    as [n Hn].
  exists (S (S n)).
  assert (Hrun : runHeads w off now (S (S n)) (lateReminderFire off now st)
                 = lateReminderJob w off now st).
  { unfold lateReminderFire. fold st1.
    rewrite runHeads_spawn by assumption.
    cbn [runTask lateCheckRun].
    rewrite runHeads_spawn by assumption.
    cbn [runTask lateCheckRun]. exact Hn. }
  split; [exact Hrun|]. rewrite <- Hrun. apply runHeads_steps.
Qed.

Lemma late_check_alone_witness :
  ∃ n, runHeads sample_world 0 monday_1300 n
         (lateReminderFire 0 monday_1300 (idle_state tokyo_db))
       = lateReminderJob sample_world 0 monday_1300 (idle_state tokyo_db)
       ∧ rtc (step sample_world 0)
           (lateReminderFire 0 monday_1300 (idle_state tokyo_db))
           (lateReminderJob sample_world 0 monday_1300 (idle_state tokyo_db)).
Proof.
  exact (late_check_alone sample_world 0 monday_1300 (idle_state tokyo_db)
           eq_refl).
Defined.

(** ** The channel gate *)

(** X25: the channel gate. Whatever somebody who is not a member of the
    channel sends through a guarded entry point (any command but [/back],
    or a message), the bot at most answers with the wrong-channel text:
    sessions, answer buffers, the store and the scheduler are as before.
    [/back] is registered without [commandGuard] and is not covered. *)
Theorem non_members_change_nothing
    (w : world) (off u : Z) (st st' : state) :
  isChannelMember w u = false →
  request w off u st st' →
  st' = st ∨ ∃ c, st' = sendMessage (Chat c) WrongChannel st.
Proof.
  intros Hout Hreq. destruct Hreq;
    unfold onStart, onSubscribe, onUnsubscribe, onMembers, onStandup,
      onReplay, onMessage, onSkip, onVacationDate, onVacation, onSetTime, onTimezone,
      onTimezoneSet, onLateReminder, onLateReminderHours, onStatus,
      guarded, commandGuard;
    rewrite Hout; simpl; try (now left); try (right; now exists c).
  destruct (startsWithSlash msgText); now left.
Qed.

Lemma non_members_change_nothing_witness :
  onSetTime (Build_world (λ _, false) (λ _, true) sample_zones ["ana"])
    1 1 10 30 (idle_state tokyo_db)
  = idle_state tokyo_db
  ∨ ∃ c, onSetTime (Build_world (λ _, false) (λ _, true) sample_zones ["ana"])
           1 1 10 30 (idle_state tokyo_db)
         = sendMessage (Chat c) WrongChannel (idle_state tokyo_db).
Proof.
  apply (non_members_change_nothing
           (Build_world (λ _, false) (λ _, true) sample_zones ["ana"]) 0 1).
  - reflexivity.
  - apply request_set_time.
Defined.

(** ** The status report *)

Lemma length_insert_by_username (x : subscription) (l : list subscription) :
  length (insert_by_username x l) = S (length l).
Proof.
  induction l as [|y l IH]; simpl; [reflexivity|].
  destruct (String.leb (username x) (username y)); simpl; [reflexivity|].
  now rewrite IH.
Qed.

Lemma length_order_by_username (l : list subscription) :
  length (order_by_username l) = length l.
Proof.
  unfold order_by_username. induction l as [|x l IH]; simpl; [reflexivity|].
  now rewrite length_insert_by_username, IH.
Qed.

Lemma status_lists_count (l : list status) :
  (length (filter (λ s, hasSubmitted s) l)
   + length (filter (λ s, missing_standup s) l)
   + length (filter (λ s, negb (isOnVacation s =? 0)%Z) l)
   = length l
     + length (filter (λ s, hasSubmitted s && negb (isOnVacation s =? 0)%Z) l))%nat.
Proof.
  induction l as [|x l IH]; [reflexivity|].
  rewrite !filter_cons. unfold missing_standup in *.
  destruct (hasSubmitted x), (isOnVacation x =? 0); simpl in *; lia.
Qed.

(** X26: the [/status] report accounts for every subscriber. When the
    handler answers with a report, its three lists together hold one entry
    per subscription row, and one more for each subscriber who has
    submitted today while flagged as on vacation (listed under Submitted
    and under On Vacation). The first number of the participation line is
    the length of the Submitted list; the second is the Submitted and the
    Pending entries together, less those counted twice, so it is smaller
    than the first as soon as more vacationers have submitted than members
    are pending. *)
Theorem status_report_accounts_for_everyone
    (w : world) (off now u c : Z) (st : state)
    (submitted pending onVacation : list string) (n m : Z) :
  (onStatus w off now u c st).2
  = [(Chat c, StatusReport submitted pending onVacation n m)] →
  let twice :=
    filter (λ s, hasSubmitted s && negb (isOnVacation s =? 0)%Z)
      (getStandupStatus off now (db st)) in
  (length submitted + length pending + length onVacation
   = length (subscriptions (db st)) + length twice)%nat
  ∧ n = Z.of_nat (length submitted)
  ∧ m = Z.of_nat (length submitted) + Z.of_nat (length pending)
        - Z.of_nat (length twice).
Proof.
  intros H twice. subst twice. unfold onStatus, guarded in H.
  destruct (isChannelMember w u); [|discriminate H].
  case_decide; [discriminate H|]. simpl in H.
  injection H as <- <- <- <- <-. rewrite !length_fmap.
  pose proof (status_lists_count (getStandupStatus off now (db st))) as Hc.
  assert (Hlen : length (getStandupStatus off now (db st))
                 = length (subscriptions (db st))).
  { unfold getStandupStatus. now rewrite length_fmap, length_order_by_username. }
  rewrite Hlen in Hc. split; [exact Hc|]. split; [reflexivity|]. lia.
Qed.

Lemma status_report_accounts_for_everyone_witness :
  (1 + 0 + 1
   = length (subscriptions (db (idle_state vacationer_submitted_db)))
     + length (filter (λ s, hasSubmitted s && negb (isOnVacation s =? 0)%Z)
                 (getStandupStatus 0 monday_1300
                    (db (idle_state vacationer_submitted_db)))))%nat
  ∧ 1 = 1
  ∧ 0 = 1 + 0
        - Z.of_nat
            (length (filter (λ s, hasSubmitted s && negb (isOnVacation s =? 0)%Z)
                       (getStandupStatus 0 monday_1300
                          (db (idle_state vacationer_submitted_db))))).
Proof.
  apply (status_report_accounts_for_everyone sample_world 0 monday_1300 1 1
           (idle_state vacationer_submitted_db) ["leo"] [] ["leo"] 1 0).
  vm_compute. reflexivity.
Defined.
